(** * Sleep-Modes: the carrier-board sleep test sequencer

    A shallow embedding of [src/Sleep-Modes.ino] (the five-test sequencer)
    and of [setDuration] from the two-test variant of the same sketch,
    with the properties of the sequencer proved against it.

    The sketch runs on a Particle Boron.  Its globals, the static local of
    the publish limiter and the emulated EEPROM are explicit state; the
    clock, the RTC and the pins are scripts of readings consumed in program
    order; every call that acts on the outside world is appended to a
    trace.  A call that cuts the processor's power ends the run in
    [Suspended], a wait that outlives its script ends it in [Blocked]. *)

From Stdlib Require Import ZArith Lia Bool List String Ascii.
From stdpp Require Import gmap strings.
Import ListNotations.
Local Open Scope Z_scope.

(** ** Machine integers *)

Definition uint8 (z : Z) : Z := z mod 256.
Definition uint32 (z : Z) : Z := z mod 2 ^ 32.
Definition sint32 (z : Z) : Z := (z + 2 ^ 31) mod 2 ^ 32 - 2 ^ 31.

(** ** The emulated EEPROM: a byte-addressed region, erased cells read 0xFF.
    [get] and [put] move a 4-byte little-endian object ([unsigned long],
    [long], and [time_t], which the sketch documents as 4 bytes). *)

Module EEPROM.
Definition read (e : gmap Z Z) (a : Z) : Z := uint8 (default 255 (e !! a)).
Definition write (e : gmap Z Z) (a v : Z) : gmap Z Z := <[a := uint8 v]> e.
Definition get (e : gmap Z Z) (a : Z) : Z :=
  read e a + 256 * read e (a + 1) + 65536 * read e (a + 2)
  + 16777216 * read e (a + 3).
Definition put (e : gmap Z Z) (a v : Z) : gmap Z Z :=
  write (write (write (write e a v) (a + 1) (v / 256)) (a + 2) (v / 65536))
    (a + 3) (v / 16777216).
End EEPROM.

(** ** printf conversions and snprintf truncation *)

Definition digit (d : Z) : ascii := ascii_of_nat (48 + Z.to_nat d).

Fixpoint decimal_digits (fuel : nat) (n : Z) (acc : string) : string :=
  match fuel with
  | O => acc
  | S f =>
      let acc' := String (digit (n mod 10)) acc in
      if n / 10 =? 0 then acc' else decimal_digits f (n / 10) acc'
  end.

(** [%lu] of a 32-bit unsigned long, [%i] of a 32-bit int: ten digits at most. *)
Definition print_lu (n : Z) : string := decimal_digits 10 (uint32 n) EmptyString.
Definition print_i (n : Z) : string :=
  let v := sint32 n in
  if v <? 0 then String "-"%char (decimal_digits 10 (- v) EmptyString)
  else decimal_digits 10 v EmptyString.

(** [snprintf(buf, size, ...)] keeps at most [size - 1] characters. *)
Definition snprintf (size : nat) (s : string) : string :=
  String.substring 0 (size - 1) s.

(** ** Pins and outside-world calls

    [D4] to [D8] are pin numbers of the Particle pin map; the sketch only
    relies on their being distinct. *)

Definition D4 : Z := 4.
Definition D5 : Z := 5.
Definition D6 : Z := 6.
Definition D7 : Z := 7.
Definition D8 : Z := 8.

Definition blueLED : Z := D7.
Definition userSwitch : Z := D4.
Definition donePin : Z := D5.
Definition wakeUpPin : Z := D8.
Definition DeepSleepPin : Z := D6.

Definition HIGH : bool := true.
Definition LOW : bool := false.

Inductive Event : Type :=
| PinMode (pin : Z) (output : bool)
| AttachInterrupt (pin : Z)
| RegisterVariable (name : string)
| RegisterFunction (name : string)
| Publish (name data : string)
| Delay (ms : Z)
| RtcSetup
| RtcLoop
| RtcClearAlarm
| RtcSetAlarm (seconds : Z) (polarity : bool)
| EepromWrite (addr value : Z)
| EepromPut (addr value : Z)
| SystemSleepStop (wake : option Z) (seconds : Z)
| SystemSleepDeep
| DigitalWrite (pin : Z) (level : bool).

(** ** The world: program state, persistent state, scripts, trace *)

Record World (G : Type) : Type := mkWorld {
  globals : G;                 (* the sketch's global variables *)
  lastPublish : Z;             (* static local of meterParticlePublish *)
  eeprom : gmap Z Z;           (* survives a reboot *)
  millis_in : list Z;          (* milliseconds since boot at each millis() *)
  rtc_in : list Z;             (* RTC time at each rtc.getRTCTime() *)
  irq_in : list bool;          (* alarm flag at each rtc.getInterrupt() *)
  pins_in : list bool;         (* level at each digitalRead() *)
  trace : list Event           (* outside-world calls, oldest first *)
}.
Arguments mkWorld {G}.
Arguments globals {G}.
Arguments lastPublish {G}.
Arguments eeprom {G}.
Arguments millis_in {G}.
Arguments rtc_in {G}.
Arguments irq_in {G}.
Arguments pins_in {G}.
Arguments trace {G}.

Inductive Outcome (W A : Type) : Type :=
| Done (a : A) (w : W)         (* the call returned [a] *)
| Suspended (w : W)            (* power was cut or deep sleep entered *)
| Blocked (w : W).             (* a script ran out while waiting *)
Arguments Done {W A}.
Arguments Suspended {W A}.
Arguments Blocked {W A}.

Definition M (G A : Type) : Type := World G -> Outcome (World G) A.

Definition ret {G A} (a : A) : M G A := fun w => Done a w.

Definition bind {G A B} (m : M G A) (f : A -> M G B) : M G B :=
  fun w =>
    match m w with
    | Done a w' => f a w'
    | Suspended w' => Suspended w'
    | Blocked w' => Blocked w'
    end.

Declare Scope sketch_scope.
Delimit Scope sketch_scope with sketch.
Notation "x <- m ;; k" := (bind m (fun x => k))
  (at level 100, m at next level, right associativity) : sketch_scope.
Notation "m ;; k" := (bind m (fun _ => k))
  (at level 100, right associativity) : sketch_scope.
Local Open Scope sketch_scope.

Definition outcome_world {W A} (o : Outcome W A) : W :=
  match o with Done _ w => w | Suspended w => w | Blocked w => w end.

Definition is_suspended {W A} (o : Outcome W A) : bool :=
  match o with Suspended _ => true | _ => false end.

Section Platform.
Context {G : Type}.

Definition get_globals : M G G := fun w => Done (globals w) w.

Definition set_globals (g : G) : M G unit := fun w =>
  Done tt (mkWorld g (lastPublish w) (eeprom w) (millis_in w) (rtc_in w)
             (irq_in w) (pins_in w) (trace w)).

Definition emit (e : Event) : M G unit := fun w =>
  Done tt (mkWorld (globals w) (lastPublish w) (eeprom w) (millis_in w)
             (rtc_in w) (irq_in w) (pins_in w) (trace w ++ [e])).

(** millis(): a 32-bit millisecond counter that rolls over. *)
Definition millis : M G Z := fun w =>
  match millis_in w with
  | [] => Blocked w
  | t :: rest =>
      Done (uint32 t)
        (mkWorld (globals w) (lastPublish w) (eeprom w) rest (rtc_in w)
           (irq_in w) (pins_in w) (trace w))
  end.

(** rtc.getRTCTime(): a [time_t]. *)
Definition rtc_getRTCTime : M G Z := fun w =>
  match rtc_in w with
  | [] => Blocked w
  | t :: rest =>
      Done (sint32 t)
        (mkWorld (globals w) (lastPublish w) (eeprom w) (millis_in w) rest
           (irq_in w) (pins_in w) (trace w))
  end.

Definition rtc_getInterrupt : M G bool := fun w =>
  match irq_in w with
  | [] => Blocked w
  | b :: rest =>
      Done b
        (mkWorld (globals w) (lastPublish w) (eeprom w) (millis_in w)
           (rtc_in w) rest (pins_in w) (trace w))
  end.

Definition digitalRead (pin : Z) : M G bool := fun w =>
  match pins_in w with
  | [] => Blocked w
  | b :: rest =>
      Done b
        (mkWorld (globals w) (lastPublish w) (eeprom w) (millis_in w)
           (rtc_in w) (irq_in w) rest (trace w))
  end.

(** Driving the carrier's enable line (D6) high removes power from the
    processor; every other pin write returns. *)
Definition digitalWrite (pin : Z) (level : bool) : M G unit :=
  emit (DigitalWrite pin level);;
  if (pin =? DeepSleepPin) && level
  then (fun w => Suspended w) else ret tt.

(** System.sleep(SLEEP_MODE_DEEP) does not return: the device reboots
    on wake. *)
Definition System_sleep_deep : M G unit :=
  emit SystemSleepDeep;; (fun w => Suspended w).

Definition System_sleep_stop (wake : option Z) (seconds : Z) : M G unit :=
  emit (SystemSleepStop wake seconds).

Definition delay (ms : Z) : M G unit := emit (Delay ms).
Definition pinMode (pin : Z) (output : bool) : M G unit :=
  emit (PinMode pin output).
Definition attachInterrupt (pin : Z) : M G unit := emit (AttachInterrupt pin).
Definition Particle_publish (name data : string) : M G unit :=
  emit (Publish name data).
Definition Particle_variable (name : string) : M G unit :=
  emit (RegisterVariable name).
Definition Particle_function (name : string) : M G unit :=
  emit (RegisterFunction name).
Definition rtc_setup : M G unit := emit RtcSetup.
Definition rtc_loop : M G unit := emit RtcLoop.
Definition rtc_clearAlarm : M G unit := emit RtcClearAlarm.
Definition rtc_setAlarm (seconds : Z) (polarity : bool) : M G unit :=
  emit (RtcSetAlarm seconds polarity).

Definition set_eeprom (e : gmap Z Z) : M G unit := fun w =>
  Done tt (mkWorld (globals w) (lastPublish w) e (millis_in w) (rtc_in w)
             (irq_in w) (pins_in w) (trace w)).

Definition EEPROM_read (a : Z) : M G Z := fun w =>
  Done (EEPROM.read (eeprom w) a) w.
Definition EEPROM_get (a : Z) : M G Z := fun w =>
  Done (EEPROM.get (eeprom w) a) w.
Definition EEPROM_write (a v : Z) : M G unit :=
  emit (EepromWrite a (uint8 v));;
  (fun w => set_eeprom (EEPROM.write (eeprom w) a v) w).
Definition EEPROM_put (a v : Z) : M G unit :=
  emit (EepromPut a (uint32 v));;
  (fun w => set_eeprom (EEPROM.put (eeprom w) a v) w).

Definition set_lastPublish (t : Z) : M G unit := fun w =>
  Done tt (mkWorld (globals w) t (eeprom w) (millis_in w) (rtc_in w)
             (irq_in w) (pins_in w) (trace w)).

(** [meterParticlePublish]: the publish rate limiter. *)
Definition meterParticlePublish : M G bool :=
  now <- millis;;
  last <- (fun w => Done (lastPublish w) w);;
  if 1000 <=? uint32 (now - last)
  then (t <- millis;; set_lastPublish t;; ret true)
  else ret false.

(** Modelled from the spec: the Device OS macro [waitUntil(cond)], which
    the sketch uses and does not define; the call site blocks and retries
    until [cond] holds.  Every poll of the condition used here reads the
    clock, so the clock script bounds the number of polls. *)
Fixpoint waitUntil_fuel (fuel : nat) (cond : M G bool) : M G unit :=
  match fuel with
  | O => fun w => Blocked w
  | S n => b <- cond;; if b then ret tt else waitUntil_fuel n cond
  end.

Definition waitUntil (cond : M G bool) : M G unit := fun w =>
  waitUntil_fuel (S (length (millis_in w))) cond w.

(** Modelled from the spec: the Device OS macro [waitFor(cond, timeout)],
    which the sketch uses and does not define; a busy wait for [cond]
    bounded by [timeout] milliseconds of the clock, reporting whether
    [cond] was met. *)
Fixpoint waitFor_fuel (fuel : nat) (start : Z) (cond : M G bool)
    (timeout : Z) : M G bool :=
  match fuel with
  | O => fun w => Blocked w
  | S n =>
      now <- millis;;
      if uint32 (now - start) <? timeout
      then (b <- cond;;
            if b then ret true else waitFor_fuel n start cond timeout)
      else ret false
  end.

Definition waitFor (cond : M G bool) (timeout : Z) : M G bool :=
  start <- millis;;
  (fun w => waitFor_fuel (S (length (millis_in w))) start cond timeout w).
End Platform.

(** ** The five-test sequencer, [src/Sleep-Modes.ino] *)

Module SleepModes.

Definition testNumberAddr : Z := 0.
Definition testStartTimeAddr : Z := 1.
Definition numberOfTestsPassedAddr : Z := 5.

Definition testDurationSeconds : Z := 20.
Definition numberOfTests : Z := 5.

Record Globals : Type := mkGlobals {
  testNumber : Z;              (* uint8_t *)
  numberOfTestsPassed : Z;     (* int *)
  watchDogFlag : bool          (* volatile, set by the ISR *)
}.

Definition set_testNumber (v : Z) : M Globals unit :=
  g <- get_globals;;
  set_globals (mkGlobals (uint8 v) (numberOfTestsPassed g) (watchDogFlag g)).

Definition set_numberOfTestsPassed (v : Z) : M Globals unit :=
  g <- get_globals;;
  set_globals (mkGlobals (testNumber g) (sint32 v) (watchDogFlag g)).

Definition set_watchDogFlag (b : bool) : M Globals unit :=
  g <- get_globals;;
  set_globals (mkGlobals (testNumber g) (numberOfTestsPassed g) b).

(** Line 242: the tolerance, widened by the seconds since boot while the
    deep-sleep test (index 4) is running. *)
Definition read_adjustment : M Globals Z :=
  g <- get_globals;;
  if testNumber g =? 4
  then (ms <- millis;; ret (sint32 (uint32 (2 + ms / 1000))))
  else ret 2.

Definition elapsedTimeCorrect (start : bool) : M Globals bool :=
  adjustment <- read_adjustment;;
  if start then
    startTime <- rtc_getRTCTime;;
    EEPROM_put testStartTimeAddr startTime;;
    ret false
  else
    stored <- EEPROM_get testStartTimeAddr;;
    let startTime := sint32 stored in
    EEPROM_put testStartTimeAddr 0;;
    now <- rtc_getRTCTime;;
    let elapsedTime := sint32 (now - startTime) in
    if (sint32 (elapsedTime - adjustment) <=? testDurationSeconds)
       && (testDurationSeconds <=? elapsedTime)
    then
      waitUntil meterParticlePublish;;
      Particle_publish "Result"
        (snprintf 32 ("Passed elapsed time " +:+ print_i elapsedTime));;
      ret true
    else
      waitUntil meterParticlePublish;;
      Particle_publish "Result"
        (snprintf 32 ("Failed elapsed time " +:+ print_i elapsedTime));;
      ret false.

Definition systemSleepTest : M Globals bool :=
  waitUntil meterParticlePublish;;
  Particle_publish "Test" "System Stop Mode Sleep";;
  elapsedTimeCorrect true;;
  System_sleep_stop None testDurationSeconds;;
  ok <- elapsedTimeCorrect false;;
  if ok then ret true else ret false.

Definition alarmSounded : M Globals bool :=
  level <- digitalRead wakeUpPin;;
  if level then ret true else ret false.

(** Lines 143-147: arm the alarm and sit out the wait window. *)
Definition rtcAlarmTest_window : M Globals bool :=
  waitUntil meterParticlePublish;;
  Particle_publish "Test" "RTC Alarm";;
  elapsedTimeCorrect true;;
  rtc_setAlarm 10 true;;
  waitFor alarmSounded 12000.

(** Lines 148-154: the verdict; [&&] reads the pin only when the alarm
    flag is set. *)
Definition rtcAlarmTest_verdict : M Globals bool :=
  both <- (fired <- rtc_getInterrupt;;
           if fired then digitalRead wakeUpPin else ret false);;
  if both then
    ok <- elapsedTimeCorrect false;;
    if ok then ret true else ret false
  else
    waitUntil meterParticlePublish;;
    Particle_publish "Result" "Failed - No Interrupt";;
    ret false.

Definition rtcAlarmTest : M Globals bool :=
  rtcAlarmTest_window;; rtcAlarmTest_verdict.

Definition systemSleepWakeOnInterruptTest : M Globals bool :=
  waitUntil meterParticlePublish;;
  Particle_publish "Test" "System Stop Mode with Wake on Interrupt";;
  waitUntil meterParticlePublish;;
  Particle_publish "Test" "Press User Button to Wake";;
  t0 <- rtc_getRTCTime;;
  let startTime := uint32 t0 in
  System_sleep_stop (Some userSwitch) testDurationSeconds;;
  now <- rtc_getRTCTime;;
  if uint32 (now - startTime) <=? uint32 testDurationSeconds then
    waitUntil meterParticlePublish;;
    Particle_publish "Results" "Passed";;
    ret true
  else
    waitUntil meterParticlePublish;;
    Particle_publish "Results" "Failed";;
    ret false.

Definition systemDeepSleepRTCWakeTest : M Globals bool :=
  startTime <- EEPROM_get testStartTimeAddr;;
  if startTime =? 0 then
    waitUntil meterParticlePublish;;
    Particle_publish "Test" "System Deep Mode Sleep with RTC Wake";;
    rtc_setAlarm testDurationSeconds true;;
    elapsedTimeCorrect true;;
    System_sleep_deep;;
    ret true
  else
    ok <- elapsedTimeCorrect false;;
    if ok then ret true else ret false.

Definition powerOffSleepWithRTCWakeTest : M Globals bool :=
  startTime <- EEPROM_get testStartTimeAddr;;
  if startTime =? 0 then
    waitUntil meterParticlePublish;;
    Particle_publish "Test" "Power Off with EN pin using RTC";;
    delay 5000;;
    rtc_setAlarm testDurationSeconds false;;
    elapsedTimeCorrect true;;
    digitalWrite DeepSleepPin HIGH;;
    ret true
  else
    ok <- elapsedTimeCorrect false;;
    if ok then ret true else ret false.

Definition watchdogISR : M Globals unit :=
  digitalWrite donePin HIGH;;
  digitalWrite donePin LOW;;
  set_watchDogFlag true.

Definition setup : M Globals unit :=
  pinMode wakeUpPin false;;
  pinMode blueLED true;;
  pinMode donePin true;;
  pinMode DeepSleepPin true;;
  b <- EEPROM_read testNumberAddr;;
  set_testNumber b;;
  g <- get_globals;;
  (if (testNumber g <? 0) || (testNumber g >? 5)
   then set_testNumber 0 else ret tt);;
  n <- EEPROM_read numberOfTestsPassedAddr;;
  set_numberOfTestsPassed n;;
  g <- get_globals;;
  (if (numberOfTestsPassed g <? 0) || (numberOfTestsPassed g >? numberOfTests)
   then set_numberOfTestsPassed 0 else ret tt);;
  waitUntil meterParticlePublish;;
  g <- get_globals;;
  (if testNumber g =? 0
   then Particle_publish "Status" "Beginning Test Run"
   else Particle_publish "Status" "Continuing after reset");;
  rtc_setup;;
  attachInterrupt wakeUpPin.

(** Lines 71-76: the RTC tick and the pending watchdog interrupt. *)
Definition loop_service : M Globals unit :=
  rtc_loop;;
  g <- get_globals;;
  if watchDogFlag g then
    waitUntil meterParticlePublish;;
    Particle_publish "Watchdog" "Interrupt";;
    set_watchDogFlag false
  else ret tt.

(** The body shared by cases 1 to 5 of the switch. *)
Definition run_test (test : M Globals bool) : M Globals unit :=
  passed <- test;;
  g <- get_globals;;
  (if passed then set_numberOfTestsPassed (numberOfTestsPassed g + 1)
   else ret tt);;
  g <- get_globals;;
  set_testNumber (testNumber g + 1);;
  g <- get_globals;;
  EEPROM_write testNumberAddr (testNumber g);;
  EEPROM_write numberOfTestsPassedAddr (numberOfTestsPassed g).

Definition tally (passed : Z) : string :=
  snprintf 64 ("Sleep Tests Complete - Passed " +:+ print_i passed
               +:+ " out of " +:+ print_i numberOfTests).

Definition loop : M Globals unit :=
  loop_service;;
  g <- get_globals;;
  match testNumber g with
  | 0 =>
      level <- digitalRead userSwitch;;
      if Bool.eqb level LOW
      then g <- get_globals;; set_testNumber (testNumber g + 1)
      else ret tt
  | 1 => run_test systemSleepTest
  | 2 => run_test rtcAlarmTest
  | 3 => run_test systemSleepWakeOnInterruptTest
  | 4 => run_test systemDeepSleepRTCWakeTest
  | 5 => run_test powerOffSleepWithRTCWakeTest
  | _ =>
      if testNumber g =? 6 then
        waitUntil meterParticlePublish;;
        Particle_publish "Final Result" (tally (numberOfTestsPassed g));;
        delay 30000;;
        set_testNumber 0
      else ret tt
  end.

(** A reboot clears RAM (globals and the limiter's static) and keeps the
    EEPROM; the scripts and the trace carry on. *)
Definition reboot (w : World Globals) : World Globals :=
  mkWorld (mkGlobals 0 0 false) 0 (eeprom w) (millis_in w) (rtc_in w)
    (irq_in w) (pins_in w) (trace w).

Definition boot_tick : M Globals unit := setup;; loop.

End SleepModes.

(** ** [strtol(s, &end, 10)] of the C library, for a 32-bit [long]:
    leading white space, an optional sign, then the longest run of decimal
    digits; no digits gives 0, out-of-range values saturate. *)

Definition LONG_MAX : Z := 2 ^ 31 - 1.
Definition LONG_MIN : Z := - 2 ^ 31.

Definition isspace (c : ascii) : bool :=
  let n := Z.of_nat (nat_of_ascii c) in
  (n =? 32) || ((9 <=? n) && (n <=? 13)).

Definition digit_value (c : ascii) : option Z :=
  let n := Z.of_nat (nat_of_ascii c) in
  if (48 <=? n) && (n <=? 57) then Some (n - 48) else None.

Fixpoint skip_spaces (s : string) : string :=
  match s with
  | String c r => if isspace c then skip_spaces r else s
  | EmptyString => s
  end.

Fixpoint read_digits (s : string) (acc : Z) : Z :=
  match s with
  | String c r =>
      match digit_value c with
      | Some d => read_digits r (10 * acc + d)
      | None => acc
      end
  | EmptyString => acc
  end.

Definition split_sign (s : string) : bool * string :=
  match s with
  | String c r =>
      if Ascii.eqb c "-" then (true, r)
      else if Ascii.eqb c "+" then (false, r)
      else (false, s)
  | EmptyString => (false, s)
  end.

Definition strtol (s : string) : Z :=
  let (negative, body) := split_sign (skip_spaces s) in
  let v := read_digits body 0 in
  if negative then Z.max LONG_MIN (- v) else Z.min LONG_MAX v.

(** ** [setup] and [setDuration] of the two-test variant of the sketch
    (the one with a run-time duration, persisted at 0x0A) *)

Module DurationVariant.

Definition testNumberAddr : Z := 0.
Definition testStartTimeAddr : Z := 5.
Definition testDurationSecondsAddr : Z := 10.

Definition numberOfTests : Z := 2.

Record Globals : Type := mkGlobals {
  testNumber : Z;              (* uint8_t *)
  testDurationSeconds : Z;     (* unsigned long, 60 at power-on *)
  watchDogFlag : bool
}.

Definition set_testNumber (v : Z) : M Globals unit :=
  g <- get_globals;;
  set_globals (mkGlobals (uint8 v) (testDurationSeconds g) (watchDogFlag g)).

Definition set_testDurationSeconds (v : Z) : M Globals unit :=
  g <- get_globals;;
  set_globals (mkGlobals (testNumber g) (uint32 v) (watchDogFlag g)).

Definition setup : M Globals unit :=
  pinMode userSwitch false;;
  pinMode wakeUpPin false;;
  pinMode blueLED true;;
  pinMode donePin true;;
  Particle_variable "Release";;
  Particle_function "Duration-Sec";;
  b <- EEPROM_read testNumberAddr;;
  set_testNumber b;;
  g <- get_globals;;
  (if (testNumber g <? 0) || (testNumber g >? 2)
   then set_testNumber 0 else ret tt);;
  d <- EEPROM_get testDurationSecondsAddr;;
  set_testDurationSeconds d;;
  waitUntil meterParticlePublish;;
  g <- get_globals;;
  Particle_publish "Test Duration" (print_lu (testDurationSeconds g));;
  waitUntil meterParticlePublish;;
  g <- get_globals;;
  (if testNumber g =? 0
   then Particle_publish "Status" "Beginning Test Run"
   else Particle_publish "Status" "Continuing after reset");;
  rtc_setup;;
  rtc_clearAlarm;;
  attachInterrupt wakeUpPin.

Definition setDuration (command : string) : M Globals Z :=
  let tempTime := sint32 (strtol command) in
  if (tempTime <? 0) || (tempTime >? 3600) then ret 0
  else
    set_testDurationSeconds tempTime;;
    g <- get_globals;;
    EEPROM_put testDurationSecondsAddr (testDurationSeconds g);;
    waitUntil meterParticlePublish;;
    Particle_publish "Test Duration"
      (snprintf 256 ("Test duration set to "
                     +:+ print_lu (testDurationSeconds g)));;
    delay 1000;;
    ret 1.

Definition reboot (w : World Globals) : World Globals :=
  mkWorld (mkGlobals 0 60 false) 0 (eeprom w) (millis_in w) (rtc_in w)
    (irq_in w) (pins_in w) (trace w).

End DurationVariant.

(** ** Vocabulary of the statements *)

(** What [waitUntil(meterParticlePublish)] does to the limiter, read off
    the clock script: skip the readings the limiter rejects, take the first
    reading it lets through, and record the next reading as the new [lastPublish]. *)
Fixpoint meter_wait (last : Z) (ms : list Z) : option (Z * list Z) :=
  match ms with
  | [] => None
  | t1 :: rest =>
      if 1000 <=? uint32 (uint32 t1 - last)
      then match rest with
           | t2 :: rest' => Some (uint32 t2, rest')
           | [] => None
           end
      else meter_wait last rest
  end.

Definition with_clock {G} (w : World G) (last : Z) (ms : list Z) : World G :=
  mkWorld (globals w) last (eeprom w) ms (rtc_in w) (irq_in w) (pins_in w)
    (trace w).

(** [n] back-to-back attempts on the limiter; the result lists the clock
    times (milliseconds since boot, before roll-over) of the ones let through. *)
Fixpoint meter_burst {G} (n : nat) : M G (list Z) :=
  match n with
  | O => ret []
  | S k => fun w =>
      (granted <- meterParticlePublish;;
       later <- meter_burst k;;
       ret (if granted then hd 0 (millis_in w) :: later else later)) w
  end.

Fixpoint nondecreasing (l : list Z) : Prop :=
  match l with
  | a :: (b :: _) as r => a <= b /\ nondecreasing r
  | _ => True
  end.

(** Consecutive entries are at least one second apart. *)
Fixpoint spaced (l : list Z) : Prop :=
  match l with
  | a :: (b :: _) as r => 1000 <= b - a /\ spaced r
  | _ => True
  end.

(** The calls that arm a reboot-inducing test: scheduling the RTC alarm,
    storing a non-zero start timestamp, entering deep sleep, raising the
    enable line. *)
Definition arming (e : Event) : bool :=
  match e with
  | RtcSetAlarm _ _ => true
  | EepromPut a v => (a =? SleepModes.testStartTimeAddr) && negb (v =? 0)
  | SystemSleepDeep => true
  | DigitalWrite pin level => (pin =? DeepSleepPin) && level
  | _ => false
  end.

(** The calls after which the processor stops. *)
Definition suspending (e : Event) : bool :=
  match e with
  | SystemSleepDeep => true
  | DigitalWrite pin level => (pin =? DeepSleepPin) && level
  | _ => false
  end.

(** [m] never suspends, and every call it adds to the trace satisfies [P]. *)
Definition confined {G A} (P : Event -> Prop) (m : M G A) : Prop :=
  forall w,
    is_suspended (m w) = false /\
    exists evs, trace (outcome_world (m w)) = trace w ++ evs /\ Forall P evs.

(** The resume branch of the deep-sleep and power-off tests (lines 195-196
    and 214-215): the end-verification and nothing else. *)
Definition verify_only : M SleepModes.Globals bool :=
  ok <- SleepModes.elapsedTimeCorrect false;;
  if ok then ret true else ret false.

(** The bounds checks of [setup] (lines 55-58), as functions of the bytes
    loaded from the EEPROM. *)
Definition clamped_index (b : Z) : Z :=
  if (uint8 b <? 0) || (uint8 b >? 5) then uint8 0 else uint8 b.

Definition clamped_count (c : Z) : Z :=
  if (sint32 c <? 0) || (sint32 c >? SleepModes.numberOfTests)
  then sint32 0 else sint32 c.

Definition setup_pins : list Event :=
  [PinMode wakeUpPin false; PinMode blueLED true; PinMode donePin true;
   PinMode DeepSleepPin true].

Definition status_message (index : Z) : string :=
  if index =? 0 then "Beginning Test Run" else "Continuing after reset".


(** Whether [strtol] finds an integer to convert: after the white space
    and the optional sign, a decimal digit. *)
Definition starts_with_digit (s : string) : bool :=
  match s with
  | String c _ => match digit_value c with Some _ => true | None => false end
  | EmptyString => false
  end.

Definition has_integer_prefix (s : string) : bool :=
  starts_with_digit (snd (split_sign (skip_spaces s))).

(** The bounds check of the variant's [setup] (its line 60). *)
Definition clamped_index2 (b : Z) : Z :=
  if (uint8 b <? 0) || (uint8 b >? 2) then uint8 0 else uint8 b.

(** ** Concrete worlds for the worked runs *)

Definition persisted (index start passed : Z) : gmap Z Z :=
  EEPROM.write
    (EEPROM.put (EEPROM.write ∅ SleepModes.testNumberAddr index)
       SleepModes.testStartTimeAddr start)
    SleepModes.numberOfTestsPassedAddr passed.

(** Test 4 armed at RTC time 1000, woken at 1021. *)
Definition resumed_world : World SleepModes.Globals :=
  mkWorld (SleepModes.mkGlobals 4 3 false) 0 (persisted 4 1000 3)
    [1500; 3000; 3001; 9000; 9001] [1021] [] [] [].

(** Test 1 begun at RTC time 1000, ended at 1021: one second over. *)
Definition overshoot_world : World SleepModes.Globals :=
  mkWorld (SleepModes.mkGlobals 1 0 false) 0 (persisted 1 1000 0)
    [1000; 1001] [1021] [] [] [].

(** All five tests passed; the tally is due. *)
Definition reporting_world : World SleepModes.Globals :=
  mkWorld (SleepModes.mkGlobals 6 5 false) 0 (persisted 6 0 5)
    [1000; 1001] [] [] [] [].

(** Test 4 about to be armed, with the RTC set and with the RTC unset. *)
Definition arm_world : World SleepModes.Globals :=
  mkWorld (SleepModes.mkGlobals 4 3 false) 0 (persisted 4 0 3)
    [1000; 1001; 1002] [1700000000] [] [] [].


(** Idle, with the user switch pressed. *)
Definition idle_world : World SleepModes.Globals :=
  mkWorld (SleepModes.mkGlobals 0 0 false) 0 (persisted 0 0 0)
    [] [] [] [LOW] [].

(** The alarm test with the alarm flag set but the wake pin low at the
    verdict. *)
Definition alarm_world : World SleepModes.Globals :=
  mkWorld (SleepModes.mkGlobals 2 1 false) 0 (persisted 2 0 1)
    [1000; 1001; 1100; 1200; 5000; 5001] [1000] [true]
    [HIGH; LOW] [].

(** A first boot on an EEPROM holding other data. *)
Definition garbage_world : World SleepModes.Globals :=
  mkWorld (SleepModes.mkGlobals 0 0 false) 0 (persisted 200 0 9)
    [1000; 1001] [] [] [] [].

Definition variant_garbage_world : World DurationVariant.Globals :=
  mkWorld (DurationVariant.mkGlobals 0 60 false) 0 (persisted 7 0 0)
    [1000; 1001; 2001; 2002] [] [] [] [].

Definition duration_world : World DurationVariant.Globals :=
  mkWorld (DurationVariant.mkGlobals 0 60 false) 0 ∅
    [1000; 1001] [] [] [] [].

(** Three attempts on the limiter within 1.1 seconds. *)
Definition burst_world : World unit :=
  mkWorld tt 0 ∅ [1000; 1001; 1500; 2100; 2101; 9000] [] [] [] [].

(** ** The test procedures and the tick of the two-test variant

    The variant's global [startTime] is written before every read inside
    [elapsedTimeCorrect], so it is a local here.  The trace records a
    stop-mode sleep by wake pin and duration; the network-standby flag
    that line 135 chooses by the duration is not part of it. *)

Module VariantTests.
Import DurationVariant.

Definition set_watchDogFlag (b : bool) : M Globals unit :=
g <- get_globals;;
set_globals (mkGlobals (testNumber g) (testDurationSeconds g) b).

Definition read_adjustment : M Globals Z :=
g <- get_globals;;
if testNumber g =? 4
then (ms <- millis;; ret (sint32 (uint32 (2 + ms / 1000))))
else ret 2.

Definition elapsedTimeCorrect (start : bool) : M Globals bool :=
adjustment <- read_adjustment;;
if start then
  startTime <- rtc_getRTCTime;;
  EEPROM_put testStartTimeAddr startTime;;
  ret false
else
  stored <- EEPROM_get testStartTimeAddr;;
  let startTime := sint32 stored in
  EEPROM_put testStartTimeAddr 0;;
  now <- rtc_getRTCTime;;
  let elapsedTime := uint32 (sint32 (now - startTime)) in
  waitUntil meterParticlePublish;;
  Particle_publish "Result"
    (snprintf 32 ("Passed elapsed time " +:+ print_lu elapsedTime));;
  ret true.

Definition systemSleepTest : M Globals bool :=
waitUntil meterParticlePublish;;
Particle_publish "Test 1" "System Stop Mode Sleep";;
delay 10000;;
elapsedTimeCorrect true;;
g <- get_globals;;
(if testDurationSeconds g <? 15 * 60
 then System_sleep_stop (Some userSwitch) (testDurationSeconds g)
 else System_sleep_stop (Some userSwitch) (testDurationSeconds g));;
g <- get_globals;;
set_testNumber (testNumber g + 1);;
ok <- elapsedTimeCorrect false;;
if ok then ret true else ret false.

(** Lines 148-155: the branch taken while the index is 1. *)
Definition powerOff_arm : M Globals bool :=
waitUntil meterParticlePublish;;
Particle_publish "Test 2" "Power Off with EN pin";;
g <- get_globals;;
set_testNumber (testNumber g + 1);;
g <- get_globals;;
EEPROM_write testNumberAddr (testNumber g);;
delay 10000;;
elapsedTimeCorrect true;;
g <- get_globals;;
rtc_setAlarm (sint32 (testDurationSeconds g)) true;;
ret true.

(** Lines 158-161: the branch meant for the boot after the power cut. *)
Definition powerOff_resume : M Globals bool :=
set_testNumber 0;;
ok <- elapsedTimeCorrect false;;
if ok then ret true else ret false.

Definition powerOffSleepWithRTCWakeTest : M Globals bool :=
EEPROM_get testStartTimeAddr;;
g <- get_globals;;
if testNumber g =? 1 then powerOff_arm else powerOff_resume.

Definition watchdogISR : M Globals unit :=
digitalWrite donePin HIGH;;
digitalWrite donePin LOW;;
set_watchDogFlag true.

Definition loop_service : M Globals unit :=
rtc_loop;;
g <- get_globals;;
if watchDogFlag g then
  waitUntil meterParticlePublish;;
  Particle_publish "Watchdog" "Interrupt";;
  set_watchDogFlag false
else ret tt.

Definition loop : M Globals unit :=
loop_service;;
g <- get_globals;;
match testNumber g with
| 0 =>
    systemSleepTest;;
    g <- get_globals;;
    EEPROM_write testNumberAddr (testNumber g)
| 1 =>
    powerOffSleepWithRTCWakeTest;;
    g <- get_globals;;
    EEPROM_write testNumberAddr (testNumber g)
| _ =>
    if testNumber g =? 2 then
      waitUntil meterParticlePublish;;
      Particle_publish "Complete"
        (snprintf 64 "Tests Complete - 60 sec delay");;
      delay 60000;;
      set_testNumber 0
    else ret tt
end.

End VariantTests.

(** ** Vocabulary of the further properties *)

(** [m] leaves the observation [f] of the world as it found it, however
    the run ends. *)
Definition keeps {G A X} (f : World G -> X) (m : M G A) : Prop :=
  forall w, f (outcome_world (m w)) = f w.

(** [n] runs of [m] in a row. *)
Fixpoint times {G} (n : nat) (m : M G unit) : M G unit :=
  match n with
  | O => ret tt
  | S k => m;; times k m
  end.

(** The pulses on the watchdog's done pin made by [n] interrupts. *)
Fixpoint pulses (n : nat) : list Event :=
  match n with
  | O => []
  | S k => DigitalWrite donePin HIGH :: DigitalWrite donePin LOW :: pulses k
  end.

Definition publishes (name : string) (e : Event) : bool :=
  match e with
  | Publish n _ => String.eqb n name
  | _ => false
  end.

Fixpoint all_digits (s : string) : bool :=
  match s with
  | String c r =>
      match digit_value c with Some _ => all_digits r | None => false end
  | EmptyString => true
  end.

(** The two in-memory counters and the two bytes that persist them. *)
Definition index_of (w : World SleepModes.Globals) : Z :=
  SleepModes.testNumber (globals w).
Definition count_of (w : World SleepModes.Globals) : Z :=
  SleepModes.numberOfTestsPassed (globals w).
Definition stored_index (w : World SleepModes.Globals) : Z :=
  EEPROM.read (eeprom w) SleepModes.testNumberAddr.
Definition stored_count (w : World SleepModes.Globals) : Z :=
  EEPROM.read (eeprom w) SleepModes.numberOfTestsPassedAddr.

(** An observation that depends on the globals and the EEPROM only. *)
Definition durable {G X} (f : World G -> X) : Prop :=
  forall g e lp ms rs irqs pins tr lp' ms' rs' irqs' pins' tr',
    f (mkWorld g lp e ms rs irqs pins tr)
    = f (mkWorld g lp' e ms' rs' irqs' pins' tr').

(** The case of [loop]'s switch for index [i]. *)
Definition loop_branch (i : Z) : M SleepModes.Globals unit :=
  g <- get_globals;;
  match i with
  | 0 =>
      level <- digitalRead userSwitch;;
      if Bool.eqb level LOW
      then g <- get_globals;;
           SleepModes.set_testNumber (SleepModes.testNumber g + 1)
      else ret tt
  | 1 => SleepModes.run_test SleepModes.systemSleepTest
  | 2 => SleepModes.run_test SleepModes.rtcAlarmTest
  | 3 => SleepModes.run_test SleepModes.systemSleepWakeOnInterruptTest
  | 4 => SleepModes.run_test SleepModes.systemDeepSleepRTCWakeTest
  | 5 => SleepModes.run_test SleepModes.powerOffSleepWithRTCWakeTest
  | _ =>
      if i =? 6 then
        waitUntil meterParticlePublish;;
        Particle_publish "Final Result"
          (SleepModes.tally (SleepModes.numberOfTestsPassed g));;
        delay 30000;;
        SleepModes.set_testNumber 0
      else ret tt
  end.

(** What [setup] loads and the tests advance: index and pass count in
    memory, and the two bytes that persist them. *)
Definition progress (w : World SleepModes.Globals) : SleepModes.Globals * Z * Z :=
  (globals w, stored_index w, stored_count w).

(** ** Concrete worlds for the further worked runs *)

(** Test 1 about to run: the RTC reads 1000 at begin and 1021 at end; the
    clock script also serves the boot that follows. *)
Definition sleep_test_world : World SleepModes.Globals :=
  mkWorld (SleepModes.mkGlobals 1 0 false) 0 (persisted 1 0 0)
    [1000; 1001; 2500; 2501; 3000; 3001] [1000; 1021] [] [] [].

(** Test 3 about to run: the button wakes the device after 5 seconds. *)
Definition button_wake_world : World SleepModes.Globals :=
  mkWorld (SleepModes.mkGlobals 3 2 false) 0 (persisted 3 0 2)
    [1000; 1001; 2100; 2101; 3200; 3201] [1000; 1005] [] [] [].

(** The limiter last granted 500 ms before [millis()] rolls over and is
    polled 600 ms after. *)
Definition rollover_world : World unit :=
  mkWorld tt (2 ^ 32 - 500) ∅ [2 ^ 32 + 600; 2 ^ 32 + 601] [] [] [] [].

(** Idle, with the watchdog about to interrupt. *)
Definition watchdog_world : World SleepModes.Globals :=
  mkWorld (SleepModes.mkGlobals 0 0 false) 0 (persisted 0 0 0)
    [1000; 1001] [] [] [] [].

(** The alarm test with the alarm flag set and the wake pin high, the
    verdict read 21 seconds after the begin. *)
Definition alarm_pass_world : World SleepModes.Globals :=
  mkWorld (SleepModes.mkGlobals 2 1 false) 0 (persisted 2 0 1)
    [1000; 1001; 1100; 1200; 25000; 25001] [1000; 1021] [true]
    [HIGH; HIGH] [].

(** The alarm test with the wake pin low again at the verdict. *)
Definition alarm_fail_world : World SleepModes.Globals :=
  mkWorld (SleepModes.mkGlobals 2 1 false) 0 (persisted 2 0 1)
    [1000; 1001; 1100; 1200; 5000; 5001] [1000] [true]
    [HIGH; LOW] [].

(** The last test done, four passed, the tally not yet published. *)
Definition tally_pending_world : World SleepModes.Globals :=
  mkWorld (SleepModes.mkGlobals 6 4 false) 5000 (persisted 6 0 4)
    [1000; 1001] [] [] [HIGH] [].

(** The variant, woken 500 seconds after a begin at RTC time 1000 with a
    target of 60 seconds. *)
Definition variant_late_world : World DurationVariant.Globals :=
  mkWorld (DurationVariant.mkGlobals 1 60 false) 0
    (EEPROM.put (EEPROM.write ∅ DurationVariant.testNumberAddr 1)
       DurationVariant.testStartTimeAddr 1000)
    [1000; 1001] [1500] [] [] [].

(** The variant at index 1, about to arm the power-off test. *)
Definition variant_arm_world : World DurationVariant.Globals :=
  mkWorld (DurationVariant.mkGlobals 1 60 false) 0
    (EEPROM.write ∅ DurationVariant.testNumberAddr 1)
    [1000; 1001] [1000] [] [] [].

(** The variant receiving a duration command, then rebooting. *)
Definition command_world : World DurationVariant.Globals :=
  mkWorld (DurationVariant.mkGlobals 0 60 false) 0 ∅
    [1000; 1001; 1500; 1501; 2600; 2601] [] [] [] [].

(** The variant at index 0 with a 60-second target, woken by the user
    switch 500 seconds into the sleep. *)
Definition variant_sleep_world : World DurationVariant.Globals :=
  mkWorld (DurationVariant.mkGlobals 0 60 false) 0 ∅
    [1000; 1001; 2500; 2501] [1000; 1500] [] [] [].

(** ** A second run of the suite *)

(** The verdicts in a trace: the results of the tests and the tallies. *)
Definition verdicts (tr : list Event) : list Event :=
  List.filter
    (fun e => publishes "Result" e || publishes "Results" e
              || publishes "Final Result" e)
    tr.

(** The tally of a run with five passes is due; the switch is then pressed
    and all five tests pass again, the device rebooting out of the
    deep-sleep and the power-off test. *)
Definition second_run_world : World SleepModes.Globals :=
  mkWorld (SleepModes.mkGlobals 6 5 false) 0 (persisted 6 0 5)
    [1000; 1001; 32000; 32001; 53000; 53001; 54100; 54101; 54200; 54300;
     56000; 56001; 57100; 57101; 58200; 58201; 59300; 59301; 60400; 60401;
     60500;
     1000; 1001; 1500; 2100; 2101; 3200; 3201;
     1000; 1001; 2100; 2101; 3200; 3201]
    [5000; 5020; 5021; 5041; 5050; 5055; 5060; 5081; 5090; 5110]
    [true] [LOW; HIGH; HIGH] [].

(** * Proofs *)

(** ** Machine integers *)

Lemma uint8_range z : 0 <= uint8 z < 256.
Proof. unfold uint8. apply Z.mod_pos_bound. lia. Qed.

Lemma uint32_range z : 0 <= uint32 z < 2 ^ 32.
Proof. unfold uint32. apply Z.mod_pos_bound. lia. Qed.

Lemma sint32_range z : - 2 ^ 31 <= sint32 z < 2 ^ 31.
Proof.
  unfold sint32. pose proof (Z.mod_pos_bound (z + 2 ^ 31) (2 ^ 32)). lia.
Qed.

Lemma uint8_small z : 0 <= z < 256 -> uint8 z = z.
Proof. intros. unfold uint8. apply Z.mod_small. lia. Qed.

Lemma uint32_small z : 0 <= z < 2 ^ 32 -> uint32 z = z.
Proof. intros. unfold uint32. apply Z.mod_small. lia. Qed.

Lemma sint32_small z : - 2 ^ 31 <= z < 2 ^ 31 -> sint32 z = z.
Proof. intros. unfold sint32. rewrite Z.mod_small; lia. Qed.

Lemma uint8_idem z : uint8 (uint8 z) = uint8 z.
Proof. apply uint8_small, uint8_range. Qed.

Lemma uint32_idem z : uint32 (uint32 z) = uint32 z.
Proof. apply uint32_small, uint32_range. Qed.

(** A clock that only moves forward has moved at least as far as its
    32-bit difference says. *)
Lemma uint32_diff_le a b : a <= b -> uint32 (uint32 b - uint32 a) <= b - a.
Proof.
  intros Hab. unfold uint32.
  rewrite <- Zminus_mod. apply Z.mod_le; lia.
Qed.

(** ** EEPROM *)

Lemma EEPROM_read_range e a : 0 <= EEPROM.read e a < 256.
Proof. apply uint8_range. Qed.

Lemma EEPROM_read_write_eq e a v :
  EEPROM.read (EEPROM.write e a v) a = uint8 v.
Proof.
  unfold EEPROM.read, EEPROM.write. rewrite lookup_insert_eq. simpl.
  apply uint8_idem.
Qed.

Lemma EEPROM_read_write_ne e a b v :
  a <> b -> EEPROM.read (EEPROM.write e a v) b = EEPROM.read e b.
Proof.
  intros Hne. unfold EEPROM.read, EEPROM.write.
  rewrite lookup_insert_ne by exact Hne. reflexivity.
Qed.

Lemma EEPROM_read_put_outside e a v b :
  b < a \/ a + 3 < b -> EEPROM.read (EEPROM.put e a v) b = EEPROM.read e b.
Proof.
  intros Hb. unfold EEPROM.put.
  rewrite !EEPROM_read_write_ne by lia. reflexivity.
Qed.

Lemma little_endian_bytes v :
  uint8 v + 256 * uint8 (v / 256) + 65536 * uint8 (v / 65536)
  + 16777216 * uint8 (v / 16777216) = uint32 v.
Proof.
  unfold uint8, uint32.
  change (2 ^ 32) with (256 * (256 * (256 * 256))).
  rewrite (Z.rem_mul_r v 256 (256 * (256 * 256))) by lia.
  rewrite (Z.rem_mul_r (v / 256) 256 (256 * 256)) by lia.
  rewrite (Z.rem_mul_r (v / 256 / 256) 256 256) by lia.
  rewrite !Z.div_div by lia.
  change (256 * 256) with 65536. change (65536 * 256) with 16777216.
  lia.
Qed.

Lemma EEPROM_get_put e a v : EEPROM.get (EEPROM.put e a v) a = uint32 v.
Proof.
  unfold EEPROM.get, EEPROM.put.
  rewrite (EEPROM_read_write_ne _ (a + 3) a) by lia.
  rewrite (EEPROM_read_write_ne _ (a + 2) a) by lia.
  rewrite (EEPROM_read_write_ne _ (a + 1) a) by lia.
  rewrite (EEPROM_read_write_ne _ (a + 3) (a + 1)) by lia.
  rewrite (EEPROM_read_write_ne _ (a + 2) (a + 1)) by lia.
  rewrite (EEPROM_read_write_ne _ (a + 3) (a + 2)) by lia.
  rewrite !EEPROM_read_write_eq.
  apply little_endian_bytes.
Qed.

Lemma EEPROM_get_range e a : 0 <= EEPROM.get e a < 2 ^ 32.
Proof.
  unfold EEPROM.get.
  pose proof (EEPROM_read_range e a).
  pose proof (EEPROM_read_range e (a + 1)).
  pose proof (EEPROM_read_range e (a + 2)).
  pose proof (EEPROM_read_range e (a + 3)).
  change (2 ^ 32) with 4294967296. lia.
Qed.

(** ** printf conversions fit their buffers *)

Lemma decimal_digits_length fuel n acc :
  (String.length (decimal_digits fuel n acc) <= fuel + String.length acc)%nat.
Proof.
  revert n acc. induction fuel as [|fuel IH]; intros n acc; simpl.
  - lia.
  - destruct (n / 10 =? 0).
    + simpl. lia.
    + specialize (IH (n / 10) (String (digit (n mod 10)) acc)).
      simpl in IH. lia.
Qed.

Lemma print_i_length n : (String.length (print_i n) <= 11)%nat.
Proof.
  unfold print_i. destruct (sint32 n <? 0).
  - pose proof (decimal_digits_length 10 (- sint32 n) EmptyString) as H.
    simpl in *. lia.
  - pose proof (decimal_digits_length 10 (sint32 n) EmptyString) as H.
    simpl in *. lia.
Qed.

Lemma print_lu_length n : (String.length (print_lu n) <= 10)%nat.
Proof.
  unfold print_lu.
  pose proof (decimal_digits_length 10 (uint32 n) EmptyString) as H.
  simpl in *. lia.
Qed.

Lemma append_length s t :
  String.length (s +:+ t) = (String.length s + String.length t)%nat.
Proof. induction s as [|c s IH]; simpl; [reflexivity | now rewrite IH]. Qed.

Lemma substring_whole n s :
  (String.length s <= n)%nat -> String.substring 0 n s = s.
Proof.
  revert n. induction s as [|c s IH]; intros n Hn.
  - destruct n; reflexivity.
  - destruct n as [|n]; simpl in *; [lia |]. f_equal. apply IH. lia.
Qed.

Lemma snprintf_fits size s :
  (String.length s < size)%nat -> snprintf size s = s.
Proof. intros H. unfold snprintf. apply substring_whole. lia. Qed.

(** ** The publish limiter *)

Lemma waitUntil_fuel_meter {G} ms :
  forall (g : G) last e rs irqs pins tr fuel,
    (length ms < fuel)%nat ->
    waitUntil_fuel fuel meterParticlePublish
      (mkWorld g last e ms rs irqs pins tr)
    = match meter_wait last ms with
      | Some (t, rest) => Done tt (mkWorld g t e rest rs irqs pins tr)
      | None => Blocked (mkWorld g last e [] rs irqs pins tr)
      end.
Proof.
  induction ms as [|t1 rest IH]; intros g last e rs irqs pins tr fuel Hfuel.
  - destruct fuel as [|fuel]; [simpl in Hfuel; lia | reflexivity].
  - destruct fuel as [|fuel]; [simpl in Hfuel; lia |].
    simpl in Hfuel.
    cbn [waitUntil_fuel meter_wait].
    unfold bind at 1, meterParticlePublish, bind at 1, millis at 1.
    cbn [millis_in globals lastPublish eeprom rtc_in irq_in pins_in trace].
    unfold bind at 1. cbn [lastPublish].
    destruct (1000 <=? uint32 (uint32 t1 - last)).
    + destruct rest as [|t2 rest']; reflexivity.
    + cbn [ret]. apply IH. lia.
Qed.

(** The wait on the limiter, in closed form. *)
Lemma waitUntil_meter {G} (w : World G) :
  waitUntil meterParticlePublish w
  = match meter_wait (lastPublish w) (millis_in w) with
    | Some (t, rest) => Done tt (with_clock w t rest)
    | None => Blocked (with_clock w (lastPublish w) [])
    end.
Proof.
  destruct w as [g last e ms rs irqs pins tr].
  unfold waitUntil, with_clock. cbn [millis_in lastPublish].
  apply waitUntil_fuel_meter. lia.
Qed.

(** More fuel than the clock script is long never changes the wait: the
    bound in [waitUntil] loses no behaviour. *)
Lemma waitUntil_fuel_irrelevant {G} (w : World G) fuel :
  (length (millis_in w) < fuel)%nat ->
  waitUntil_fuel fuel meterParticlePublish w = waitUntil meterParticlePublish w.
Proof.
  intros Hfuel. destruct w as [g last e ms rs irqs pins tr].
  unfold waitUntil. cbn [millis_in] in *.
  rewrite !waitUntil_fuel_meter by lia. reflexivity.
Qed.

Lemma meterParticlePublish_run {G} (w : World G) :
  meterParticlePublish w
  = match millis_in w with
    | [] => Blocked w
    | t1 :: rest =>
        if 1000 <=? uint32 (uint32 t1 - lastPublish w)
        then match rest with
             | [] => Blocked (with_clock w (lastPublish w) [])
             | t2 :: rest' => Done true (with_clock w (uint32 t2) rest')
             end
        else Done false (with_clock w (lastPublish w) rest)
    end.
Proof.
  destruct w as [g last e ms rs irqs pins tr].
  destruct ms as [|t1 rest]; [reflexivity |].
  unfold meterParticlePublish, bind, millis, with_clock.
  cbn [millis_in globals lastPublish eeprom rtc_in irq_in pins_in trace].
  destruct (1000 <=? uint32 (uint32 t1 - last)); [| reflexivity].
  destruct rest; reflexivity.
Qed.

Lemma nondecreasing_tail a l : nondecreasing (a :: l) -> nondecreasing l.
Proof. destruct l; simpl; tauto. Qed.

Lemma nondecreasing_skip a b l :
  nondecreasing (a :: b :: l) -> nondecreasing (a :: l).
Proof. destruct l; simpl; intuition lia. Qed.

Lemma nondecreasing_bounds l :
  nondecreasing l -> forall x, In x l -> hd 0 l <= x <= List.last l 0.
Proof.
  induction l as [|a l IH]; intros Hl x Hx; [contradiction |].
  destruct l as [|b l].
  - destruct Hx as [<- | []]. simpl. lia.
  - destruct Hl as [Hab Hl]. specialize (IH Hl).
    change (List.last (a :: b :: l) 0) with (List.last (b :: l) 0).
    pose proof (IH b (or_introl eq_refl)) as Hb. simpl hd in *.
    destruct Hx as [<- | Hx]; [lia |].
    specialize (IH x Hx). lia.
Qed.

Lemma spaced_earlier a b l : a <= b -> spaced (b :: l) -> spaced (a :: l).
Proof. destruct l; simpl; intuition lia. Qed.

Lemma spaced_tail a l : spaced (a :: l) -> spaced l.
Proof. destruct l; simpl; tauto. Qed.

Lemma spaced_span l :
  spaced l -> l <> [] ->
  hd 0 l + 1000 * (Z.of_nat (length l) - 1) <= List.last l 0.
Proof.
  induction l as [|a l IH]; intros Hl Hne; [congruence |].
  destruct l as [|b l].
  - simpl. lia.
  - destruct Hl as [Hab Hl]. specialize (IH Hl ltac:(discriminate)).
    change (List.last (a :: b :: l) 0) with (List.last (b :: l) 0).
    change (length (a :: b :: l)) with (S (length (b :: l))).
    simpl hd in *. lia.
Qed.

(** After a grant at clock time [t0], a burst grants nothing for a
    second, and then only at spaced times. *)
Lemma meter_burst_after {G} n :
  forall (w : World G) t0 es w',
    nondecreasing (t0 :: millis_in w) ->
    lastPublish w = uint32 t0 ->
    meter_burst n w = Done es w' ->
    spaced (t0 :: es) /\ Forall (fun t => In t (millis_in w)) es.
Proof.
  induction n as [|n IH]; intros w t0 es w' Hmono Hlast Hrun.
  - injection Hrun as <- _. simpl. auto.
  - cbn [meter_burst] in Hrun. unfold bind at 1 in Hrun.
    rewrite meterParticlePublish_run in Hrun.
    destruct (millis_in w) as [|t1 rest] eqn:Hms; [discriminate |].
    destruct Hmono as [H01 Hmono]. cbn [hd] in Hrun.
    destruct (1000 <=? uint32 (uint32 t1 - lastPublish w)) eqn:Hadm.
    + destruct rest as [|t2 rest']; [discriminate |].
      unfold bind at 1 in Hrun.
      destruct (meter_burst n (with_clock w (uint32 t2) rest'))
        as [later w2| |] eqn:Hlater; try discriminate.
      injection Hrun as <- _.
      destruct Hmono as [H12 Hmono].
      destruct (IH (with_clock w (uint32 t2) rest') t2 later w2 Hmono eq_refl
                  Hlater) as [Hsp Hin].
      apply Z.leb_le in Hadm. rewrite Hlast in Hadm.
      pose proof (uint32_diff_le t0 t1 H01).
      split.
      * split; [lia |]. apply (spaced_earlier t1 t2); assumption.
      * constructor; [left; reflexivity |].
        revert Hin. apply List.Forall_impl. intros t Ht. right. right.
        exact Ht.
    + unfold bind at 1 in Hrun.
      destruct (meter_burst n (with_clock w (lastPublish w) rest))
        as [later w2| |] eqn:Hlater; try discriminate.
      injection Hrun as <- _.
      assert (Hmono' : nondecreasing (t0 :: rest)).
      { apply (nondecreasing_skip t0 t1). split; assumption. }
      destruct (IH (with_clock w (lastPublish w) rest) t0 later w2 Hmono' Hlast
                  Hlater) as [Hsp Hin].
      split; [exact Hsp |].
      revert Hin. apply List.Forall_impl. intros t Ht. right. exact Ht.
Qed.

(** From any limiter state, the admissions of a burst are spaced. *)
Lemma meter_burst_spaced {G} n :
  forall (w : World G) es w',
    nondecreasing (millis_in w) ->
    meter_burst n w = Done es w' ->
    spaced es /\ Forall (fun t => In t (millis_in w)) es.
Proof.
  induction n as [|n IH]; intros w es w' Hmono Hrun.
  - injection Hrun as <- _. simpl. auto.
  - cbn [meter_burst] in Hrun. unfold bind at 1 in Hrun.
    rewrite meterParticlePublish_run in Hrun.
    destruct (millis_in w) as [|t1 rest] eqn:Hms; [discriminate |].
    cbn [hd] in Hrun.
    destruct (1000 <=? uint32 (uint32 t1 - lastPublish w)) eqn:Hadm.
    + destruct rest as [|t2 rest']; [discriminate |].
      unfold bind at 1 in Hrun.
      destruct (meter_burst n (with_clock w (uint32 t2) rest'))
        as [later w2| |] eqn:Hlater; try discriminate.
      injection Hrun as <- _.
      destruct Hmono as [H12 Hmono].
      destruct (meter_burst_after n (with_clock w (uint32 t2) rest') t2 later w2
                  Hmono eq_refl Hlater) as [Hsp Hin].
      split.
      * apply (spaced_earlier t1 t2); assumption.
      * constructor; [left; reflexivity |].
        revert Hin. apply List.Forall_impl. intros t Ht. right. right.
        exact Ht.
    + unfold bind at 1 in Hrun.
      destruct (meter_burst n (with_clock w (lastPublish w) rest))
        as [later w2| |] eqn:Hlater; try discriminate.
      injection Hrun as <- _.
      destruct (IH (with_clock w (lastPublish w) rest) later w2
                  (nondecreasing_tail _ _ Hmono) Hlater) as [Hsp Hin].
      split; [exact Hsp |].
      revert Hin. apply List.Forall_impl. intros t Ht. right. exact Ht.
Qed.

(** A burst of [n] attempts returns once the clock script holds two
    readings per attempt. *)
Lemma meter_burst_returns {G} n :
  forall (w : World G),
    (2 * n <= length (millis_in w))%nat ->
    exists es w', meter_burst n w = Done es w'.
Proof.
  induction n as [|n IH]; intros w Hlen.
  - eexists _, _. reflexivity.
  - cbn [meter_burst]. unfold bind at 1.
    rewrite meterParticlePublish_run.
    destruct (millis_in w) as [|t1 [|t2 rest']] eqn:Hms;
      try (simpl in Hlen; lia).
    destruct (1000 <=? uint32 (uint32 t1 - lastPublish w)).
    + destruct (IH (with_clock w (uint32 t2) rest')) as (later & w2 & Hl).
      { simpl in *. lia. }
      unfold bind at 1. rewrite Hl. eexists _, _. reflexivity.
    + destruct (IH (with_clock w (lastPublish w) (t2 :: rest')))
        as (later & w2 & Hl).
      { simpl in *. lia. }
      unfold bind at 1. rewrite Hl. eexists _, _. reflexivity.
Qed.

(** C8. The limiter never grants two publishes less than a second apart:
    in any run of back-to-back attempts on a clock that moves forward, the
    granted attempts are pairwise at least 1000 ms apart, so their number
    is at most the elapsed whole seconds plus one.  The limiter's state is
    the single [lastPublish] of the world, whichever call site polls it. *)
Theorem meterParticlePublish_rate_limit {G} (n : nat) (w : World G) :
  nondecreasing (millis_in w) ->
  (2 * n <= length (millis_in w))%nat ->
  exists es w',
    meter_burst n w = Done es w' /\
    spaced es /\
    Z.of_nat (length es)
    <= (List.last (millis_in w) 0 - hd 0 (millis_in w)) / 1000 + 1.
Proof.
  intros Hmono Hlen.
  destruct (meter_burst_returns n w Hlen) as (es & w' & Hrun).
  exists es, w'. split; [exact Hrun |].
  destruct (meter_burst_spaced n w es w' Hmono Hrun) as [Hsp Hin].
  split; [exact Hsp |].
  destruct es as [|e0 es].
  - simpl length.
    assert (0 <= List.last (millis_in w) 0 - hd 0 (millis_in w)).
    { destruct (millis_in w) as [|a l] eqn:Hms; [simpl; lia |].
      pose proof (nondecreasing_bounds _ Hmono a (or_introl eq_refl)).
      lia. }
    pose proof (Z.div_pos (List.last (millis_in w) 0 - hd 0 (millis_in w)) 1000).
    lia.
  - pose proof (spaced_span (e0 :: es) Hsp ltac:(discriminate)) as Hspan.
    assert (Hfirst : In e0 (millis_in w)).
    { inversion Hin; assumption. }
    assert (Hend : In (List.last (e0 :: es) 0) (millis_in w)).
    { rewrite List.Forall_forall in Hin. apply Hin.
      destruct (exists_last (l := e0 :: es) ltac:(discriminate))
        as (pre & x & Hx).
      rewrite Hx, last_last. apply in_or_app. right. left. reflexivity. }
    pose proof (nondecreasing_bounds _ Hmono _ Hfirst) as B1.
    pose proof (nondecreasing_bounds _ Hmono _ Hend) as B2.
    cbn [hd] in Hspan.
    assert (Z.of_nat (length (e0 :: es)) - 1
            <= (List.last (millis_in w) 0 - hd 0 (millis_in w)) / 1000).
    { apply Z.div_le_lower_bound; lia. }
    lia.
Qed.

(** ** Running the sketch symbolically *)

Ltac run_sketch :=
  cbv beta iota zeta delta
    [bind ret emit get_globals set_globals millis rtc_getRTCTime
     rtc_getInterrupt digitalRead digitalWrite System_sleep_deep
     System_sleep_stop delay pinMode attachInterrupt Particle_publish
     Particle_variable Particle_function rtc_setup rtc_loop rtc_clearAlarm
     rtc_setAlarm set_eeprom EEPROM_read EEPROM_get EEPROM_write EEPROM_put
     set_lastPublish with_clock outcome_world is_suspended
     globals lastPublish eeprom millis_in rtc_in irq_in pins_in trace
     SleepModes.testNumber SleepModes.numberOfTestsPassed
     SleepModes.watchDogFlag SleepModes.set_testNumber
     SleepModes.set_numberOfTestsPassed SleepModes.set_watchDogFlag
     DurationVariant.testNumber DurationVariant.testDurationSeconds
     DurationVariant.watchDogFlag DurationVariant.set_testNumber
     DurationVariant.set_testDurationSeconds].

(** Events listed after [tr], whatever the bracketing of the appends. *)
Ltac trace_eq := rewrite <- ?app_assoc; reflexivity.


(** ** Arm-then-suspend tests *)

Import SleepModes.

Lemma uint32_sint32 z : uint32 (sint32 z) = uint32 z.
Proof.
  unfold uint32, sint32.
  rewrite Zminus_mod, Zmod_mod, <- Zminus_mod.
  replace (z + 2 ^ 31 - 2 ^ 31) with z by lia. reflexivity.
Qed.




(** ** Confinement: what a computation may add to the trace *)

Section Confined.
Context {G : Type} (P : Event -> Prop).

Lemma confined_ret {A} (a : A) : confined P (ret (G := G) a).
Proof.
  intros w. split; [reflexivity |].
  exists []. split; [symmetry; apply app_nil_r | constructor].
Qed.

Lemma confined_bind {A B} (m : M G A) (f : A -> M G B) :
  confined P m -> (forall a, confined P (f a)) -> confined P (bind m f).
Proof.
  intros Hm Hf w. destruct (Hm w) as [Hs (evs1 & Ht1 & Hp1)].
  unfold bind. destruct (m w) as [a w1 | w1 | w1]; cbn in Hs, Ht1.
  - destruct (Hf a w1) as [Hs2 (evs2 & Ht2 & Hp2)].
    split; [exact Hs2 |]. exists (evs1 ++ evs2).
    rewrite Ht2, Ht1, app_assoc. split; [reflexivity |].
    apply Forall_app. split; assumption.
  - discriminate.
  - split; [reflexivity |]. exists evs1. split; assumption.
Qed.

Lemma confined_emit e : P e -> confined P (emit (G := G) e).
Proof.
  intros He w. split; [reflexivity |].
  exists [e]. split; [reflexivity | repeat constructor; exact He].
Qed.

(** A computation that returns or blocks with the trace it was given. *)
Lemma confined_silent {A} (m : M G A) :
  (forall w, is_suspended (m w) = false /\
             trace (outcome_world (m w)) = trace w) ->
  confined P m.
Proof.
  intros H w. destruct (H w) as [Hs Ht]. split; [exact Hs |].
  exists []. rewrite app_nil_r. split; [exact Ht | constructor].
Qed.

Lemma confined_millis : confined P (millis (G := G)).
Proof.
  apply confined_silent. intros w. unfold millis.
  destruct (millis_in w); split; reflexivity.
Qed.

Lemma confined_rtc_getRTCTime : confined P (rtc_getRTCTime (G := G)).
Proof.
  apply confined_silent. intros w. unfold rtc_getRTCTime.
  destruct (rtc_in w); split; reflexivity.
Qed.

Lemma confined_rtc_getInterrupt : confined P (rtc_getInterrupt (G := G)).
Proof.
  apply confined_silent. intros w. unfold rtc_getInterrupt.
  destruct (irq_in w); split; reflexivity.
Qed.

Lemma confined_digitalRead pin : confined P (digitalRead (G := G) pin).
Proof.
  apply confined_silent. intros w. unfold digitalRead.
  destruct (pins_in w); split; reflexivity.
Qed.

Lemma confined_get_globals : confined P (get_globals (G := G)).
Proof. apply confined_silent. intros w. split; reflexivity. Qed.

Lemma confined_set_globals g : confined P (set_globals (G := G) g).
Proof. apply confined_silent. intros w. split; reflexivity. Qed.

Lemma confined_EEPROM_read a : confined P (EEPROM_read (G := G) a).
Proof. apply confined_silent. intros w. split; reflexivity. Qed.

Lemma confined_EEPROM_get a : confined P (EEPROM_get (G := G) a).
Proof. apply confined_silent. intros w. split; reflexivity. Qed.

Lemma confined_EEPROM_write a v :
  P (EepromWrite a (uint8 v)) -> confined P (EEPROM_write (G := G) a v).
Proof.
  intros He. unfold EEPROM_write. apply confined_bind.
  - apply confined_emit, He.
  - intros _. apply confined_silent. intros w. split; reflexivity.
Qed.

Lemma confined_EEPROM_put a v :
  P (EepromPut a (uint32 v)) -> confined P (EEPROM_put (G := G) a v).
Proof.
  intros He. unfold EEPROM_put. apply confined_bind.
  - apply confined_emit, He.
  - intros _. apply confined_silent. intros w. split; reflexivity.
Qed.

Lemma confined_meterParticlePublish :
  confined P (meterParticlePublish (G := G)).
Proof.
  apply confined_silent. intros w. rewrite meterParticlePublish_run.
  destruct (millis_in w) as [|t1 rest]; [split; reflexivity |].
  destruct (1000 <=? uint32 (uint32 t1 - lastPublish w)).
  - destruct rest; split; reflexivity.
  - split; reflexivity.
Qed.

Lemma confined_waitUntil_fuel fuel (cond : M G bool) :
  confined P cond -> confined P (waitUntil_fuel fuel cond).
Proof.
  intros Hc. induction fuel as [|fuel IH]; cbn [waitUntil_fuel].
  - apply confined_silent. intros w. split; reflexivity.
  - apply confined_bind; [exact Hc |].
    intros [|]; [apply confined_ret | exact IH].
Qed.

Lemma confined_waitUntil (cond : M G bool) :
  confined P cond -> confined P (waitUntil cond).
Proof.
  intros Hc w. unfold waitUntil. apply confined_waitUntil_fuel, Hc.
Qed.

Lemma confined_waitFor_fuel fuel start (cond : M G bool) timeout :
  confined P cond -> confined P (waitFor_fuel fuel start cond timeout).
Proof.
  intros Hc. revert start.
  induction fuel as [|fuel IH]; intros start; cbn [waitFor_fuel].
  - apply confined_silent. intros w. split; reflexivity.
  - apply confined_bind; [apply confined_millis |]. intros now.
    destruct (uint32 (now - start) <? timeout); [| apply confined_ret].
    apply confined_bind; [exact Hc |].
    intros [|]; [apply confined_ret | apply IH].
Qed.

Lemma confined_waitFor (cond : M G bool) timeout :
  confined P cond -> confined P (waitFor cond timeout).
Proof.
  intros Hc. unfold waitFor.
  apply confined_bind; [apply confined_millis |]. intros start.
  intros w. apply confined_waitFor_fuel, Hc.
Qed.
End Confined.

(** Decompose a sketch procedure into its calls; [emit] leaves the side
    condition on the event, closed by computation where it holds. *)
Ltac confine :=
  repeat first
    [ apply confined_ret
    | apply confined_get_globals
    | apply confined_set_globals
    | apply confined_millis
    | apply confined_rtc_getRTCTime
    | apply confined_rtc_getInterrupt
    | apply confined_digitalRead
    | apply confined_EEPROM_read
    | apply confined_EEPROM_get
    | apply confined_meterParticlePublish
    | apply confined_waitUntil
    | apply confined_waitFor
    | apply confined_EEPROM_write; reflexivity
    | apply confined_EEPROM_put; reflexivity
    | apply confined_emit; reflexivity
    | apply confined_bind; [| intros ?]
    | match goal with
      | |- confined _ (if ?b then _ else _) => destruct b
      end ].

Lemma confined_elapsedTimeCorrect_end :
  confined (fun e => arming e = false) (elapsedTimeCorrect false).
Proof.
  unfold elapsedTimeCorrect, read_adjustment, Particle_publish. confine.
Qed.

Lemma confined_verify_only :
  confined (fun e => arming e = false) verify_only.
Proof.
  unfold verify_only. apply confined_bind.
  - apply confined_elapsedTimeCorrect_end.
  - intros ok. confine.
Qed.

Lemma confined_run_test (test : M Globals bool) :
  confined (fun e => arming e = false) test ->
  confined (fun e => arming e = false) (run_test test).
Proof.
  intros Ht. unfold run_test, set_numberOfTestsPassed, set_testNumber.
  apply confined_bind; [exact Ht |]. intros passed. confine.
Qed.

Lemma confined_setup : confined (fun e => arming e = false) setup.
Proof.
  unfold setup, set_numberOfTestsPassed, set_testNumber, pinMode,
    Particle_publish, rtc_setup, attachInterrupt.
  confine.
Qed.

Lemma confined_loop_service :
  confined (fun e => arming e = false) loop_service.
Proof.
  unfold loop_service, set_watchDogFlag, Particle_publish, rtc_loop. confine.
Qed.

(** ** Boot *)

Ltac sketch_branches :=
  repeat (run_sketch;
          match goal with
          | |- context [if ?c then _ else _] => destruct c
          end);
  run_sketch.

Lemma setup_run (w : World Globals) :
  let idx := clamped_index (EEPROM.read (eeprom w) testNumberAddr) in
  let cnt := clamped_count (EEPROM.read (eeprom w) numberOfTestsPassedAddr) in
  let g := mkGlobals idx cnt (watchDogFlag (globals w)) in
  setup w
  = match meter_wait (lastPublish w) (millis_in w) with
    | Some (t, rest) =>
        Done tt
          (mkWorld g t (eeprom w) rest (rtc_in w) (irq_in w) (pins_in w)
             (trace w ++ setup_pins
              ++ [Publish "Status" (status_message idx); RtcSetup;
                  AttachInterrupt wakeUpPin]))
    | None =>
        Blocked
          (mkWorld g (lastPublish w) (eeprom w) [] (rtc_in w) (irq_in w)
             (pins_in w) (trace w ++ setup_pins))
    end.
Proof.
  destruct w as [[tn cnt flag] last e ms rs irqs pins tr].
  unfold setup, clamped_index, clamped_count, status_message, setup_pins.
  run_sketch.
  destruct ((uint8 (EEPROM.read e testNumberAddr) <? 0)
            || (uint8 (EEPROM.read e testNumberAddr) >? 5));
    run_sketch;
    destruct ((sint32 (EEPROM.read e numberOfTestsPassedAddr) <? 0)
              || (sint32 (EEPROM.read e numberOfTestsPassedAddr)
                  >? numberOfTests));
    run_sketch; rewrite waitUntil_meter; run_sketch;
    destruct (meter_wait last ms) as [[t rest]|]; sketch_branches;
    rewrite <- ?app_assoc; reflexivity.
Qed.

Lemma clamped_index_in_range b :
  0 <= b <= 5 -> clamped_index b = b.
Proof.
  intros Hb. unfold clamped_index. rewrite uint8_small by lia.
  destruct (b <? 0) eqn:H1; [apply Z.ltb_lt in H1; lia |].
  destruct (b >? 5) eqn:H2; [apply Z.gtb_lt in H2; lia |].
  reflexivity.
Qed.

Lemma clamped_index_out_of_range b :
  0 <= b < 256 -> 5 < b -> clamped_index b = 0.
Proof.
  intros Hb H5. unfold clamped_index. rewrite uint8_small by lia.
  destruct (b >? 5) eqn:H2.
  - rewrite orb_true_r. reflexivity.
  - rewrite Z.gtb_ltb in H2. apply Z.ltb_ge in H2. lia.
Qed.

Lemma clamped_count_in_range c :
  0 <= c <= 5 -> clamped_count c = c.
Proof.
  intros Hc. unfold clamped_count, numberOfTests.
  rewrite sint32_small by lia.
  destruct (c <? 0) eqn:H1; [apply Z.ltb_lt in H1; lia |].
  destruct (c >? 5) eqn:H2; [apply Z.gtb_lt in H2; lia |].
  reflexivity.
Qed.

Lemma clamped_count_out_of_range c :
  0 <= c < 256 -> 5 < c -> clamped_count c = 0.
Proof.
  intros Hc H5. unfold clamped_count, numberOfTests.
  rewrite sint32_small by lia.
  destruct (c >? 5) eqn:H2.
  - rewrite orb_true_r. reflexivity.
  - rewrite Z.gtb_ltb in H2. apply Z.ltb_ge in H2. lia.
Qed.

Lemma resume_deep_sleep (w : World Globals) :
  EEPROM.get (eeprom w) testStartTimeAddr <> 0 ->
  systemDeepSleepRTCWakeTest w = verify_only w.
Proof.
  intros Hne. unfold systemDeepSleepRTCWakeTest, verify_only.
  unfold bind at 1, EEPROM_get.
  destruct (Z.eqb_spec (EEPROM.get (eeprom w) testStartTimeAddr) 0);
    [contradiction | reflexivity].
Qed.

Lemma resume_power_off (w : World Globals) :
  EEPROM.get (eeprom w) testStartTimeAddr <> 0 ->
  powerOffSleepWithRTCWakeTest w = verify_only w.
Proof.
  intros Hne. unfold powerOffSleepWithRTCWakeTest, verify_only.
  unfold bind at 1, EEPROM_get.
  destruct (Z.eqb_spec (EEPROM.get (eeprom w) testStartTimeAddr) 0);
    [contradiction | reflexivity].
Qed.

Lemma run_test_at (test test' : M Globals bool) (w : World Globals) :
  test w = test' w -> run_test test w = run_test test' w.
Proof. intros H. unfold run_test, bind at 1. rewrite H. reflexivity. Qed.

Lemma bind_at {G A B} (m : M G A) (f f' : A -> M G B) (w : World G) :
  (forall a w', m w = Done a w' -> f a w' = f' a w') ->
  bind m f w = bind m f' w.
Proof.
  intros H. unfold bind. destruct (m w) as [a w' | w' | w'];
    [apply H | |]; reflexivity.
Qed.

(** The first part of every tick, in closed form. *)
Lemma loop_service_run (w : World Globals) :
  loop_service w
  = if watchDogFlag (globals w) then
      match meter_wait (lastPublish w) (millis_in w) with
      | Some (t, rest) =>
          Done tt
            (mkWorld
               (mkGlobals (testNumber (globals w))
                  (numberOfTestsPassed (globals w)) false)
               t (eeprom w) rest (rtc_in w) (irq_in w) (pins_in w)
               (trace w ++ [RtcLoop; Publish "Watchdog" "Interrupt"]))
      | None =>
          Blocked
            (mkWorld (globals w) (lastPublish w) (eeprom w) [] (rtc_in w)
               (irq_in w) (pins_in w) (trace w ++ [RtcLoop]))
      end
    else
      Done tt
        (mkWorld (globals w) (lastPublish w) (eeprom w) (millis_in w)
           (rtc_in w) (irq_in w) (pins_in w) (trace w ++ [RtcLoop])).
Proof.
  destruct w as [[tn cnt flag] last e ms rs irqs pins tr].
  unfold loop_service. run_sketch. destruct flag; [| reflexivity].
  rewrite waitUntil_meter. run_sketch.
  destruct (meter_wait last ms) as [[t rest]|]; run_sketch;
    rewrite <- ?app_assoc; reflexivity.
Qed.

Lemma loop_service_keeps (w w' : World Globals) :
  loop_service w = Done tt w' ->
  testNumber (globals w') = testNumber (globals w) /\
  numberOfTestsPassed (globals w') = numberOfTestsPassed (globals w) /\
  eeprom w' = eeprom w /\ pins_in w' = pins_in w.
Proof.
  rewrite loop_service_run. intros H.
  destruct (watchDogFlag (globals w)).
  - destruct (meter_wait (lastPublish w) (millis_in w)) as [[t rest]|];
      [| discriminate].
    injection H as <-. repeat split.
  - injection H as <-. repeat split.
Qed.

(** C2. Booting with the index of an arm-then-suspend test (4 or 5) and a
    non-zero start timestamp in the EEPROM takes the resume branch: both
    procedures reduce to the end-verification, the first tick after
    [setup] runs exactly that verification as the current test, and
    nothing in the boot re-arms the alarm, stores a new start timestamp or
    suspends again. *)
Theorem resume_never_rearms (w : World Globals) (i : Z) :
  i = 4 \/ i = 5 ->
  EEPROM.read (eeprom w) testNumberAddr = i ->
  EEPROM.get (eeprom w) testStartTimeAddr <> 0 ->
  systemDeepSleepRTCWakeTest w = verify_only w /\
  powerOffSleepWithRTCWakeTest w = verify_only w /\
  boot_tick (reboot w)
  = (setup;; loop_service;; run_test verify_only) (reboot w) /\
  is_suspended (boot_tick (reboot w)) = false /\
  exists evs,
    trace (outcome_world (boot_tick (reboot w))) = trace w ++ evs /\
    Forall (fun e => arming e = false) evs.
Proof.
  intros Hi Hidx Hstart.
  split; [apply resume_deep_sleep, Hstart |].
  split; [apply resume_power_off, Hstart |].
  assert (Hboot : boot_tick (reboot w)
                  = (setup;; loop_service;; run_test verify_only) (reboot w)).
  { unfold boot_tick. apply bind_at. intros [] w1 Hsetup.
    rewrite setup_run in Hsetup.
    cbn [reboot eeprom lastPublish millis_in globals watchDogFlag] in Hsetup.
    destruct (meter_wait 0 (millis_in w)) as [[t rest]|]; [| discriminate].
    rewrite Hidx, clamped_index_in_range in Hsetup by lia.
    injection Hsetup as <-.
    unfold loop. apply bind_at. intros [] w2 Hservice.
    apply loop_service_keeps in Hservice.
    destruct Hservice as (Htn & _ & He & _). cbn in Htn, He.
    unfold bind at 1, get_globals. rewrite Htn.
    destruct Hi as [-> | ->].
    - apply run_test_at, resume_deep_sleep. rewrite He. exact Hstart.
    - apply run_test_at, resume_power_off. rewrite He. exact Hstart. }
  split; [exact Hboot |].
  rewrite Hboot.
  assert (Hc : confined (fun e => arming e = false)
                 (setup;; loop_service;; run_test verify_only)).
  { apply confined_bind; [apply confined_setup |]. intros _.
    apply confined_bind; [apply confined_loop_service |]. intros _.
    apply confined_run_test, confined_verify_only. }
  exact (Hc (reboot w)).
Qed.

(** ** The elapsed-time verifier *)

Lemma read_adjustment_run (w : World Globals) :
  read_adjustment w
  = if testNumber (globals w) =? 4 then
      match millis_in w with
      | [] => Blocked w
      | t :: rest =>
          Done (2 + uint32 t / 1000)
            (with_clock w (lastPublish w) rest)
      end
    else Done 2 w.
Proof.
  destruct w as [[tn cnt flag] last e ms rs irqs pins tr].
  unfold read_adjustment. run_sketch.
  destruct (tn =? 4); [| reflexivity].
  destruct ms as [|t rest]; [reflexivity |].
  pose proof (uint32_range t) as Ht.
  assert (0 <= uint32 t / 1000 <= 4294967).
  { change (2 ^ 32) with 4294967296 in Ht.
    split; [apply Z.div_pos; lia |].
    apply Z.lt_succ_r, Z.div_lt_upper_bound; lia. }
  rewrite uint32_small by (change (2 ^ 32) with 4294967296; lia).
  rewrite sint32_small by (change (2 ^ 31) with 2147483648; lia).
  reflexivity.
Qed.

Lemma read_adjustment_bounds (w w1 : World Globals) adj :
  read_adjustment w = Done adj w1 ->
  2 <= adj <= 4294969 /\
  eeprom w1 = eeprom w /\ rtc_in w1 = rtc_in w /\ trace w1 = trace w /\
  globals w1 = globals w.
Proof.
  rewrite read_adjustment_run. intros H.
  destruct (testNumber (globals w) =? 4).
  - destruct (millis_in w) as [|t rest]; [discriminate |].
    injection H as <- <-.
    pose proof (uint32_range t) as Ht.
    change (2 ^ 32) with 4294967296 in Ht.
    assert (0 <= uint32 t / 1000 <= 4294967).
    { split; [apply Z.div_pos; lia |].
      apply Z.lt_succ_r, Z.div_lt_upper_bound; lia. }
    repeat split; lia.
  - injection H as <- <-. repeat split; lia.
Qed.

(** The comparison of line 252 is the window [target, target + adjustment]. *)
Lemma window_condition elapsed adj :
  - 2 ^ 31 <= elapsed < 2 ^ 31 ->
  2 <= adj <= 4294969 ->
  (sint32 (elapsed - adj) <=? testDurationSeconds)
  && (testDurationSeconds <=? elapsed)
  = (testDurationSeconds <=? elapsed)
    && (elapsed <=? testDurationSeconds + adj).
Proof.
  intros He Ha. unfold testDurationSeconds.
  change (2 ^ 31) with 2147483648 in He.
  destruct (20 <=? elapsed) eqn:Hlow.
  - apply Z.leb_le in Hlow.
    rewrite sint32_small by (change (2 ^ 31) with 2147483648; lia).
    rewrite andb_true_r. cbn [andb].
    destruct (Z.leb_spec (elapsed - adj) 20), (Z.leb_spec elapsed (20 + adj));
      try reflexivity; lia.
  - rewrite andb_false_r. reflexivity.
Qed.

(** C1 (as amended). The verifier's end operation returns pass exactly when
    the elapsed time lies in the closed interval from the target to the
    target plus the tolerance, where the tolerance is 2 seconds, or 2
    seconds plus the whole seconds since boot while test 4 is current: it
    fails on any undershoot and on an overshoot beyond the tolerance. *)
Theorem elapsedTimeCorrect_end_window
    (w w1 : World Globals) (adj now : Z) (rs : list Z) (t : Z)
    (rest : list Z) :
  read_adjustment w = Done adj w1 ->
  rtc_in w = now :: rs ->
  meter_wait (lastPublish w1) (millis_in w1) = Some (t, rest) ->
  let elapsed :=
    sint32 (sint32 now - sint32 (EEPROM.get (eeprom w) testStartTimeAddr)) in
  let pass :=
    (testDurationSeconds <=? elapsed)
    && (elapsed <=? testDurationSeconds + adj) in
  adj = (if testNumber (globals w) =? 4
         then 2 + uint32 (hd 0 (millis_in w)) / 1000 else 2) /\
  (pass = true <->
   testDurationSeconds <= elapsed <= testDurationSeconds + adj) /\
  exists w',
    elapsedTimeCorrect false w = Done pass w' /\
    EEPROM.get (eeprom w') testStartTimeAddr = 0.
Proof.
  intros Hadj Hrtc Hwait elapsed pass.
  split.
  { rewrite read_adjustment_run in Hadj.
    destruct (testNumber (globals w) =? 4).
    - destruct (millis_in w); [discriminate |].
      injection Hadj as <- _. reflexivity.
    - injection Hadj as <- _. reflexivity. }
  split.
  { unfold pass. rewrite andb_true_iff, !Z.leb_le. tauto. }
  destruct (read_adjustment_bounds _ _ _ Hadj) as (Hb & He & Hr & Htr & Hg).
  unfold elapsedTimeCorrect, bind at 1. rewrite Hadj. clear Hadj.
  destruct w as [[tn cnt flag] last e ms rs0 irqs pins tr].
  destruct w1 as [g1 last1 e1 ms1 rs1 irqs1 pins1 tr1].
  cbn [eeprom rtc_in trace globals lastPublish millis_in] in *.
  subst e1 rs1 tr1 g1 rs0. subst pass elapsed.
  run_sketch.
  rewrite window_condition by (apply sint32_range || exact Hb).
  destruct ((testDurationSeconds
             <=? sint32 (sint32 now - sint32 (EEPROM.get e testStartTimeAddr)))
            && (sint32 (sint32 now - sint32 (EEPROM.get e testStartTimeAddr))
                <=? testDurationSeconds + adj));
    rewrite waitUntil_meter; run_sketch; rewrite Hwait;
    (eexists; split; [reflexivity |]); run_sketch;
    rewrite EEPROM_get_put; reflexivity.
Qed.

(** ** The sequencer's tick *)

Lemma tally_fits passed :
  tally passed
  = ("Sleep Tests Complete - Passed " +:+ print_i passed
     +:+ " out of " +:+ print_i numberOfTests)%string.
Proof.
  unfold tally. apply snprintf_fits.
  rewrite !append_length.
  pose proof (print_i_length passed).
  pose proof (print_i_length numberOfTests).
  change (String.length "Sleep Tests Complete - Passed ") with 30%nat.
  change (String.length " out of ") with 8%nat.
  lia.
Qed.

(** X18. The tally tick in closed form: at index 6 a tick whose publish is
    granted publishes "Final Result" carrying exactly the pass count in
    memory and the number of tests, waits 30 seconds and sets the index in
    memory to 0.  That assignment is all the default case does: the pass
    count and the EEPROM are as they were. *)
Theorem reporting_tick
    (w w1 : World Globals) (t : Z) (rest : list Z) :
  testNumber (globals w) = 6 ->
  loop_service w = Done tt w1 ->
  meter_wait (lastPublish w1) (millis_in w1) = Some (t, rest) ->
  exists w',
    loop w = Done tt w' /\
    trace w' = trace w1 ++
      [Publish "Final Result"
         ("Sleep Tests Complete - Passed "
          +:+ print_i (numberOfTestsPassed (globals w))
          +:+ " out of " +:+ print_i numberOfTests);
       Delay 30000] /\
    testNumber (globals w') = 0 /\
    numberOfTestsPassed (globals w') = numberOfTestsPassed (globals w) /\
    eeprom w' = eeprom w.
Proof.
  intros Hidx Hservice Hwait.
  destruct (loop_service_keeps _ _ Hservice) as (Htn & Hcnt & He & _).
  unfold loop, bind at 1. rewrite Hservice.
  unfold bind at 1, get_globals. rewrite Htn, Hidx.
  cbn [Z.eqb Pos.eqb]. unfold bind at 1.
  rewrite waitUntil_meter, Hwait, Hcnt, tally_fits.
  destruct w1 as [[tn1 cnt1 flag1] last1 e1 ms1 rs1 irqs1 pins1 tr1].
  run_sketch. eexists. split; [reflexivity |]. run_sketch.
  split; [trace_eq |]. split; [reflexivity |].
  split; [exact Hcnt | exact He].
Qed.

(** C10. In Idle the tick advances to test 1 exactly when the user switch
    reads LOW; otherwise the index stays 0.  Either way the pass count and
    the persistent region are untouched, so after Reporting has reset the
    index the suite waits for the switch. *)
Theorem idle_waits_for_switch
    (w w1 : World Globals) (level : bool) (pins : list bool) :
  testNumber (globals w) = 0 ->
  loop_service w = Done tt w1 ->
  pins_in w = level :: pins ->
  exists w',
    loop w = Done tt w' /\
    testNumber (globals w') = (if Bool.eqb level LOW then 1 else 0) /\
    numberOfTestsPassed (globals w') = numberOfTestsPassed (globals w) /\
    eeprom w' = eeprom w /\
    trace w' = trace w1.
Proof.
  intros Hidx Hservice Hpins.
  destruct (loop_service_keeps _ _ Hservice) as (Htn & Hcnt & He & Hp).
  unfold loop, bind at 1. rewrite Hservice. clear Hservice.
  unfold bind at 1, get_globals. rewrite Htn, Hidx.
  destruct w1 as [[tn1 cnt1 flag1] last1 e1 ms1 rs1 irqs1 pins1 tr1].
  cbn [globals testNumber numberOfTestsPassed eeprom pins_in] in *.
  rewrite Hidx in Htn. rewrite Hpins in Hp. subst tn1 pins1. run_sketch.
  destruct level; cbn [Bool.eqb LOW]; run_sketch;
    (eexists; split; [reflexivity |]); run_sketch;
    repeat split; assumption || reflexivity.
Qed.

Lemma variant_setup_index (v : World DurationVariant.Globals) :
  DurationVariant.testNumber (globals (outcome_world (DurationVariant.setup v)))
  = clamped_index2 (EEPROM.read (eeprom v) DurationVariant.testNumberAddr).
Proof.
  destruct v as [[tn dur flag] last e ms rs irqs pins tr].
  unfold DurationVariant.setup, clamped_index2. run_sketch.
  destruct ((uint8 (EEPROM.read e DurationVariant.testNumberAddr) <? 0)
            || (uint8 (EEPROM.read e DurationVariant.testNumberAddr) >? 2));
    run_sketch; rewrite waitUntil_meter; run_sketch;
    (destruct (meter_wait last ms) as [[t rest]|]; run_sketch;
     [| reflexivity]);
    rewrite waitUntil_meter; run_sketch;
    (destruct (meter_wait t rest) as [[t' rest']|]; run_sketch;
     [| reflexivity]);
    sketch_branches; reflexivity.
Qed.

Lemma clamped_index2_in_range b : 0 <= b <= 2 -> clamped_index2 b = b.
Proof.
  intros Hb. unfold clamped_index2. rewrite uint8_small by lia.
  destruct (b <? 0) eqn:H1; [apply Z.ltb_lt in H1; lia |].
  destruct (b >? 2) eqn:H2; [apply Z.gtb_lt in H2; lia |].
  reflexivity.
Qed.

Lemma clamped_index2_out_of_range b :
  0 <= b < 256 -> 2 < b -> clamped_index2 b = 0.
Proof.
  intros Hb H2. unfold clamped_index2. rewrite uint8_small by lia.
  destruct (b >? 2) eqn:H3.
  - rewrite orb_true_r. reflexivity.
  - rewrite Z.gtb_ltb in H3. apply Z.ltb_ge in H3. lia.
Qed.

(** C7. Whatever bytes the EEPROM holds at boot, [setup] leaves an index
    and a pass count in range: a loaded index above [numberOfTests] (a byte
    is never negative) becomes 0, and so does a loaded pass count above
    [numberOfTests]; values in range are kept.  [setup] returns as soon as
    the limiter grants its status message.  The two-test variant clamps its
    index against its own [numberOfTests] in the same way. *)
Theorem setup_clamps
    (w : World Globals) (v : World DurationVariant.Globals) :
  let b := EEPROM.read (eeprom w) testNumberAddr in
  let c := EEPROM.read (eeprom w) numberOfTestsPassedAddr in
  let w' := outcome_world (setup w) in
  let b2 := EEPROM.read (eeprom v) DurationVariant.testNumberAddr in
  let v' := outcome_world (DurationVariant.setup v) in
  (forall t rest,
      meter_wait (lastPublish w) (millis_in w) = Some (t, rest) ->
      setup w = Done tt w') /\
  (b < 0 \/ numberOfTests < b -> testNumber (globals w') = 0) /\
  (0 <= b <= numberOfTests -> testNumber (globals w') = b) /\
  (c < 0 \/ numberOfTests < c -> numberOfTestsPassed (globals w') = 0) /\
  (0 <= c <= numberOfTests -> numberOfTestsPassed (globals w') = c) /\
  (b2 < 0 \/ DurationVariant.numberOfTests < b2 ->
   DurationVariant.testNumber (globals v') = 0) /\
  (0 <= b2 <= DurationVariant.numberOfTests ->
   DurationVariant.testNumber (globals v') = b2).
Proof.
  intros b c w' b2 v'. subst w' v'. rewrite setup_run, variant_setup_index.
  pose proof (EEPROM_read_range (eeprom w) testNumberAddr) as Hb.
  pose proof (EEPROM_read_range (eeprom w) numberOfTestsPassedAddr) as Hc.
  pose proof (EEPROM_read_range (eeprom v) DurationVariant.testNumberAddr)
    as Hb2.
  fold b in Hb |- *. fold c in Hc |- *. fold b2 in Hb2 |- *.
  unfold numberOfTests, DurationVariant.numberOfTests.
  split.
  { intros t rest Hwait. rewrite Hwait. reflexivity. }
  destruct (meter_wait (lastPublish w) (millis_in w)) as [[t rest]|];
    cbn [outcome_world globals testNumber numberOfTestsPassed];
    (split; [intros H; apply clamped_index_out_of_range; lia |]);
    (split; [intros H; apply clamped_index_in_range; lia |]);
    (split; [intros H; apply clamped_count_out_of_range; lia |]);
    (split; [intros H; apply clamped_count_in_range; lia |]);
    (split; [intros H; apply clamped_index2_out_of_range; lia |]);
    intros H; apply clamped_index2_in_range; lia.
Qed.

(** ** The RTC alarm test *)

(** C6. With [fired] the alarm flag and [level] the wake-pin level read
    when the wait window closes: if both are true the test is exactly the
    elapsed-time verification, so it passes only if that check succeeds
    too; if at most one is true it publishes the failure and returns
    fail. *)
Theorem rtcAlarmTest_dual_condition
    (w w1 : World Globals) (b fired level : bool)
    (irqs pins : list bool) :
  rtcAlarmTest_window w = Done b w1 ->
  irq_in w1 = fired :: irqs ->
  pins_in w1 = level :: pins ->
  let w2 :=
    mkWorld (globals w1) (lastPublish w1) (eeprom w1) (millis_in w1)
      (rtc_in w1) irqs (if fired then pins else pins_in w1) (trace w1) in
  (fired && level = true -> rtcAlarmTest w = verify_only w2) /\
  (fired && level = false ->
   forall t rest,
     meter_wait (lastPublish w1) (millis_in w1) = Some (t, rest) ->
     exists w',
       rtcAlarmTest w = Done false w' /\
       trace w' = trace w1 ++ [Publish "Result" "Failed - No Interrupt"]) /\
  (forall w',
      rtcAlarmTest w = Done true w' ->
      fired = true /\ level = true /\
      elapsedTimeCorrect false w2 = Done true w').
Proof.
  intros Hwindow Hirq Hpin w2.
  assert (Hrun : rtcAlarmTest w = rtcAlarmTest_verdict w1).
  { unfold rtcAlarmTest, bind. rewrite Hwindow. reflexivity. }
  rewrite Hrun. clear Hrun Hwindow.
  destruct w1 as [g1 last1 e1 ms1 rs1 irqs1 pins1 tr1].
  cbn [irq_in pins_in globals lastPublish eeprom millis_in rtc_in trace] in *.
  subst irqs1 pins1. subst w2.
  unfold rtcAlarmTest_verdict, verify_only.
  destruct fired, level; cbn [andb]; run_sketch.
  - split; [reflexivity |]. split; [discriminate |].
    intros w' H. split; [reflexivity |]. split; [reflexivity |].
    destruct (elapsedTimeCorrect false _) as [[|] w3 | w3 | w3];
      try discriminate.
    injection H as <-. reflexivity.
  - split; [discriminate |]. split.
    + intros _ t rest Hwait. rewrite waitUntil_meter. run_sketch.
      rewrite Hwait. eexists. split; reflexivity.
    + intros w'. rewrite waitUntil_meter. run_sketch.
      destruct (meter_wait last1 ms1) as [[? ?]|]; discriminate.
  - split; [discriminate |]. split.
    + intros _ t rest Hwait. rewrite waitUntil_meter. run_sketch.
      rewrite Hwait. eexists. split; reflexivity.
    + intros w'. rewrite waitUntil_meter. run_sketch.
      destruct (meter_wait last1 ms1) as [[? ?]|]; discriminate.
  - split; [discriminate |]. split.
    + intros _ t rest Hwait. rewrite waitUntil_meter. run_sketch.
      rewrite Hwait. eexists. split; reflexivity.
    + intros w'. rewrite waitUntil_meter. run_sketch.
      destruct (meter_wait last1 ms1) as [[? ?]|]; discriminate.
Qed.

(** ** The run-time duration *)

Lemma read_digits_nonneg s :
  forall acc, 0 <= acc -> 0 <= read_digits s acc.
Proof.
  induction s as [|c r IH]; intros acc Hacc; cbn [read_digits]; [exact Hacc |].
  unfold digit_value.
  destruct ((48 <=? Z.of_nat (nat_of_ascii c))
            && (Z.of_nat (nat_of_ascii c) <=? 57)) eqn:Hd; [| exact Hacc].
  apply andb_true_iff in Hd. destruct Hd as [H1 _]. apply Z.leb_le in H1.
  apply IH. lia.
Qed.

Lemma strtol_range s : LONG_MIN <= strtol s <= LONG_MAX.
Proof.
  unfold strtol. destruct (split_sign (skip_spaces s)) as [negative body].
  pose proof (read_digits_nonneg body 0 ltac:(lia)) as Hv.
  unfold LONG_MIN, LONG_MAX. change (2 ^ 31) with 2147483648.
  destruct negative; lia.
Qed.

Lemma strtol_no_integer s : has_integer_prefix s = false -> strtol s = 0.
Proof.
  unfold has_integer_prefix, strtol.
  destruct (split_sign (skip_spaces s)) as [negative body]. cbn [snd].
  intros Hnone.
  assert (Hv : read_digits body 0 = 0).
  { destruct body as [|c r]; [reflexivity |].
    cbn [starts_with_digit read_digits] in *.
    destruct (digit_value c); [discriminate | reflexivity]. }
  rewrite Hv. destruct negative; reflexivity.
Qed.

Lemma confirmation_fits v :
  snprintf 256 ("Test duration set to " +:+ print_lu v)
  = ("Test duration set to " +:+ print_lu v)%string.
Proof.
  apply snprintf_fits. rewrite append_length.
  pose proof (print_lu_length v).
  change (String.length "Test duration set to ") with 21%nat. lia.
Qed.

(** [setDuration] in closed form. *)
Lemma setDuration_run
    (command : string) (w : World DurationVariant.Globals) :
  let v := strtol command in
  let g :=
    DurationVariant.mkGlobals (DurationVariant.testNumber (globals w)) v
      (DurationVariant.watchDogFlag (globals w)) in
  let e := EEPROM.put (eeprom w) DurationVariant.testDurationSecondsAddr v in
  DurationVariant.setDuration command w
  = if (v <? 0) || (v >? 3600) then Done 0 w
    else
      match meter_wait (lastPublish w) (millis_in w) with
      | Some (t, rest) =>
          Done 1
            (mkWorld g t e rest (rtc_in w) (irq_in w) (pins_in w)
               (trace w ++
                [EepromPut DurationVariant.testDurationSecondsAddr v;
                 Publish "Test Duration"
                   ("Test duration set to " +:+ print_lu v);
                 Delay 1000]))
      | None =>
          Blocked
            (mkWorld g (lastPublish w) e [] (rtc_in w) (irq_in w) (pins_in w)
               (trace w
                ++ [EepromPut DurationVariant.testDurationSecondsAddr v]))
      end.
Proof.
  intros v g e. subst g e. unfold DurationVariant.setDuration.
  pose proof (strtol_range command) as Hr. fold v in Hr |- *.
  unfold LONG_MIN, LONG_MAX in Hr.
  rewrite sint32_small by lia.
  destruct ((v <? 0) || (v >? 3600)) eqn:Hout; [reflexivity |].
  apply orb_false_iff in Hout. destruct Hout as [H0 H1].
  apply Z.ltb_ge in H0. rewrite Z.gtb_ltb in H1. apply Z.ltb_ge in H1.
  destruct w as [[tn dur flag] last e ms rs irqs pins tr].
  run_sketch. rewrite waitUntil_meter. run_sketch.
  rewrite confirmation_fits.
  rewrite !uint32_idem.
  rewrite (uint32_small v) by (change (2 ^ 32) with 4294967296; lia).
  destruct (meter_wait last ms) as [[t rest]|]; run_sketch;
    rewrite <- ?app_assoc; reflexivity.
Qed.

(** C5. [setDuration] rejects a parsed value outside [0, 3600]: it returns
    0 and leaves the world, so the duration in memory and in the EEPROM, as
    it was.  It accepts a value inside the range, 0 and 3600 included: the
    duration is set and persisted, the confirmation is published once the
    limiter grants it, and 1 is returned. *)
Theorem setDuration_bounds
    (command : string) (w : World DurationVariant.Globals) :
  let v := strtol command in
  (v < 0 \/ 3600 < v -> DurationVariant.setDuration command w = Done 0 w) /\
  (0 <= v <= 3600 ->
   forall t rest,
     meter_wait (lastPublish w) (millis_in w) = Some (t, rest) ->
     exists w',
       DurationVariant.setDuration command w = Done 1 w' /\
       DurationVariant.testDurationSeconds (globals w') = v /\
       EEPROM.get (eeprom w') DurationVariant.testDurationSecondsAddr = v /\
       trace w' = trace w ++
         [EepromPut DurationVariant.testDurationSecondsAddr v;
          Publish "Test Duration" ("Test duration set to " +:+ print_lu v);
          Delay 1000]).
Proof.
  intros v. rewrite setDuration_run. fold v. split.
  - intros Hout.
    destruct ((v <? 0) || (v >? 3600)) eqn:Hc; [reflexivity |].
    apply orb_false_iff in Hc. destruct Hc as [H0 H1].
    apply Z.ltb_ge in H0. rewrite Z.gtb_ltb in H1. apply Z.ltb_ge in H1. lia.
  - intros Hin t rest Hwait.
    destruct ((v <? 0) || (v >? 3600)) eqn:Hc.
    { apply orb_true_iff in Hc. rewrite Z.gtb_ltb, !Z.ltb_lt in Hc. lia. }
    rewrite Hwait. eexists. split; [reflexivity |].
    cbn [globals eeprom trace DurationVariant.testDurationSeconds].
    split; [reflexivity |]. split; [| reflexivity].
    rewrite EEPROM_get_put. apply uint32_small.
    change (2 ^ 32) with 4294967296. lia.
Qed.

(** C9. A command with no integer to parse (after white space and an
    optional sign there is no digit) is read by [strtol] as 0, which is in
    range: [setDuration] sets and persists a duration of 0, publishes the
    confirmation and returns 1. *)
Theorem setDuration_accepts_non_numeric
    (command : string) (w : World DurationVariant.Globals)
    (t : Z) (rest : list Z) :
  has_integer_prefix command = false ->
  meter_wait (lastPublish w) (millis_in w) = Some (t, rest) ->
  strtol command = 0 /\
  exists w',
    DurationVariant.setDuration command w = Done 1 w' /\
    DurationVariant.testDurationSeconds (globals w') = 0 /\
    EEPROM.get (eeprom w') DurationVariant.testDurationSecondsAddr = 0 /\
    trace w' = trace w ++
      [EepromPut DurationVariant.testDurationSecondsAddr 0;
       Publish "Test Duration" "Test duration set to 0";
       Delay 1000].
Proof.
  intros Hnone Hwait.
  pose proof (strtol_no_integer command Hnone) as Hzero.
  split; [exact Hzero |].
  rewrite setDuration_run, Hzero, Hwait. cbn [Z.ltb Z.gtb Z.compare orb].
  eexists. split; [reflexivity |].
  cbn [globals eeprom trace DurationVariant.testDurationSeconds].
  split; [reflexivity |]. split; [| reflexivity].
  rewrite EEPROM_get_put. reflexivity.
Qed.

(** ** Worked runs *)

Lemma elapsedTimeCorrect_end_window_witness :
  read_adjustment resumed_world
  = Done 3 (with_clock resumed_world 0 [3000; 3001; 9000; 9001]) /\
  exists w',
    elapsedTimeCorrect false resumed_world = Done true w' /\
    EEPROM.get (eeprom w') testStartTimeAddr = 0.
Proof.
  split; [vm_compute; reflexivity |].
  exact (proj2 (proj2
    (elapsedTimeCorrect_end_window resumed_world
       (with_clock resumed_world 0 [3000; 3001; 9000; 9001]) 3 1021 []
       3001 [9000; 9001]
       ltac:(vm_compute; reflexivity) ltac:(reflexivity)
       ltac:(vm_compute; reflexivity)))).
Defined.

(** C1 as stated fails: an elapsed time of 21 seconds exceeds the target
    of 20, yet the verifier passes. *)
Lemma elapsed_overshoot_passes :
  sint32 (sint32 1021
          - sint32 (EEPROM.get (eeprom overshoot_world) testStartTimeAddr))
  = 21 /\
  ~ (testDurationSeconds - 2 <= 21 <= testDurationSeconds) /\
  exists w', elapsedTimeCorrect false overshoot_world = Done true w'.
Proof.
  split; [vm_compute; reflexivity |].
  split; [unfold testDurationSeconds; lia |].
  eexists. vm_compute. reflexivity.
Qed.

Lemma resume_never_rearms_witness :
  EEPROM.read (eeprom resumed_world) testNumberAddr = 4 /\
  EEPROM.get (eeprom resumed_world) testStartTimeAddr = 1000 /\
  systemDeepSleepRTCWakeTest resumed_world = verify_only resumed_world /\
  is_suspended (boot_tick (reboot resumed_world)) = false.
Proof.
  assert (Hidx : EEPROM.read (eeprom resumed_world) testNumberAddr = 4).
  { vm_compute. reflexivity. }
  assert (Hget : EEPROM.get (eeprom resumed_world) testStartTimeAddr = 1000).
  { vm_compute. reflexivity. }
  split; [exact Hidx |]. split; [exact Hget |].
  assert (Hne : EEPROM.get (eeprom resumed_world) testStartTimeAddr <> 0).
  { rewrite Hget. lia. }
  destruct (resume_never_rearms resumed_world 4 (or_introl eq_refl) Hidx Hne)
    as (Hdeep & _ & _ & Hsusp & _).
  split; [exact Hdeep | exact Hsusp].
Defined.

(** The whole resumed boot, run on the script: the status message, the
    verification of the 21 seconds slept, and the advance to test 5. *)
Example resumed_boot_run :
  exists w',
    boot_tick (reboot resumed_world) = Done tt w' /\
    trace w'
    = setup_pins
      ++ [Publish "Status" "Continuing after reset"; RtcSetup;
          AttachInterrupt wakeUpPin; RtcLoop;
          EepromPut testStartTimeAddr 0;
          Publish "Result" "Passed elapsed time 21";
          EepromWrite testNumberAddr 5;
          EepromWrite numberOfTestsPassedAddr 4] /\
    testNumber (globals w') = 5 /\
    numberOfTestsPassed (globals w') = 4.
Proof.
  eexists. split; [vm_compute; reflexivity |].
  repeat split; vm_compute; reflexivity.
Qed.

Lemma reporting_tick_witness :
  exists w',
    loop reporting_world = Done tt w' /\
    trace w'
    = [RtcLoop;
       Publish "Final Result" "Sleep Tests Complete - Passed 5 out of 5";
       Delay 30000] /\
    testNumber (globals w') = 0 /\
    numberOfTestsPassed (globals w')
    = numberOfTestsPassed (globals reporting_world) /\
    eeprom w' = eeprom reporting_world.
Proof.
  exact (reporting_tick reporting_world
           (outcome_world (loop_service reporting_world)) 1001 []
           ltac:(reflexivity) ltac:(vm_compute; reflexivity)
           ltac:(vm_compute; reflexivity)).
Defined.

(** C3 (the code against the claim).  The claim has the tally tick reset
    the index and the pass count to 0 and persist both, and line 120 of the
    sketch announces a "reset for another go".  The code assigns only the
    index, in memory: at index 6 with five passes the tick publishes
    "Passed 5 out of 5" and leaves the pass count at 5 and the stored bytes
    at 6 and 5.  In the run that follows all five tests pass: the count
    stands at 8 when the deep-sleep test suspends, [setup] loads the stored
    8 as 0, and the tally of that run reads "Passed 2 out of 5". *)
Theorem tally_keeps_pass_count :
  (exists w',
     loop second_run_world = Done tt w' /\
     trace w'
     = [RtcLoop;
        Publish "Final Result" "Sleep Tests Complete - Passed 5 out of 5";
        Delay 30000] /\
     testNumber (globals w') = 0 /\
     numberOfTestsPassed (globals w') = 5 /\
     EEPROM.read (eeprom w') testNumberAddr = 6 /\
     EEPROM.read (eeprom w') numberOfTestsPassedAddr = 5) /\
  (exists asleep off w',
     times 6 loop second_run_world = Suspended asleep /\
     numberOfTestsPassed (globals asleep) = 8 /\
     EEPROM.read (eeprom asleep) numberOfTestsPassedAddr = 8 /\
     numberOfTestsPassed (globals (outcome_world (setup (reboot asleep)))) = 0 /\
     (boot_tick;; loop) (reboot asleep) = Suspended off /\
     (boot_tick;; loop) (reboot off) = Done tt w' /\
     verdicts (trace w')
     = [Publish "Final Result" "Sleep Tests Complete - Passed 5 out of 5";
        Publish "Result" "Passed elapsed time 20";
        Publish "Result" "Passed elapsed time 20";
        Publish "Results" "Passed";
        Publish "Result" "Passed elapsed time 21";
        Publish "Result" "Passed elapsed time 20";
        Publish "Final Result" "Sleep Tests Complete - Passed 2 out of 5"]).
Proof.
  split.
  - eexists. do 5 (split; [vm_compute; reflexivity |]).
    vm_compute. reflexivity.
  - do 3 eexists. do 6 (split; [vm_compute; reflexivity |]).
    vm_compute. reflexivity.
Qed.


(** The arm branches run on the script: the store of the RTC reading is
    the call before the one that stops the processor. *)
Example deep_sleep_arm_run :
  exists w',
    systemDeepSleepRTCWakeTest arm_world = Suspended w' /\
    trace w'
    = [Publish "Test" "System Deep Mode Sleep with RTC Wake";
       RtcSetAlarm 20 true; EepromPut testStartTimeAddr 1700000000;
       SystemSleepDeep] /\
    EEPROM.get (eeprom w') testStartTimeAddr = 1700000000.
Proof.
  eexists. split; [vm_compute; reflexivity |].
  split; vm_compute; reflexivity.
Qed.

Example power_off_arm_run :
  exists w',
    powerOffSleepWithRTCWakeTest arm_world = Suspended w' /\
    trace w'
    = [Publish "Test" "Power Off with EN pin using RTC"; Delay 5000;
       RtcSetAlarm 20 false; EepromPut testStartTimeAddr 1700000000;
       DigitalWrite DeepSleepPin HIGH] /\
    EEPROM.get (eeprom w') testStartTimeAddr = 1700000000.
Proof.
  eexists. split; [vm_compute; reflexivity |].
  split; vm_compute; reflexivity.
Qed.


Lemma setDuration_bounds_witness :
  DurationVariant.setDuration "3601" duration_world = Done 0 duration_world /\
  DurationVariant.setDuration "-1" duration_world = Done 0 duration_world /\
  (exists w',
      DurationVariant.setDuration "3600" duration_world = Done 1 w' /\
      DurationVariant.testDurationSeconds (globals w') = 3600) /\
  (exists w',
      DurationVariant.setDuration "0" duration_world = Done 1 w' /\
      DurationVariant.testDurationSeconds (globals w') = 0).
Proof.
  assert (Hover : strtol "3601" = 3601) by (vm_compute; reflexivity).
  assert (Hunder : strtol "-1" = -1) by (vm_compute; reflexivity).
  assert (Htop : strtol "3600" = 3600) by (vm_compute; reflexivity).
  assert (Hbottom : strtol "0" = 0) by (vm_compute; reflexivity).
  split.
  { apply (proj1 (setDuration_bounds "3601" duration_world)).
    rewrite Hover. lia. }
  split.
  { apply (proj1 (setDuration_bounds "-1" duration_world)).
    rewrite Hunder. lia. }
  split.
  - destruct (proj2 (setDuration_bounds "3600" duration_world)
                ltac:(rewrite Htop; lia) 1001 []
                ltac:(vm_compute; reflexivity))
      as (w' & Hrun & Hdur & _).
    exists w'. split; [exact Hrun |]. rewrite Hdur. exact Htop.
  - destruct (proj2 (setDuration_bounds "0" duration_world)
                ltac:(rewrite Hbottom; lia) 1001 []
                ltac:(vm_compute; reflexivity))
      as (w' & Hrun & Hdur & _).
    exists w'. split; [exact Hrun |]. rewrite Hdur. exact Hbottom.
Defined.

Lemma rtcAlarmTest_dual_condition_witness :
  exists w',
    rtcAlarmTest alarm_world = Done false w' /\
    trace w'
    = trace (outcome_world (rtcAlarmTest_window alarm_world))
      ++ [Publish "Result" "Failed - No Interrupt"].
Proof.
  exact (proj1 (proj2
    (rtcAlarmTest_dual_condition alarm_world
       (outcome_world (rtcAlarmTest_window alarm_world))
       true true false [] []
       ltac:(vm_compute; reflexivity) ltac:(vm_compute; reflexivity)
       ltac:(vm_compute; reflexivity)))
    ltac:(reflexivity) 5001 [] ltac:(vm_compute; reflexivity)).
Defined.

Lemma setup_clamps_witness :
  EEPROM.read (eeprom garbage_world) testNumberAddr = 200 /\
  EEPROM.read (eeprom garbage_world) numberOfTestsPassedAddr = 9 /\
  EEPROM.read (eeprom variant_garbage_world) DurationVariant.testNumberAddr
  = 7 /\
  testNumber (globals (outcome_world (setup garbage_world))) = 0 /\
  numberOfTestsPassed (globals (outcome_world (setup garbage_world))) = 0 /\
  DurationVariant.testNumber
    (globals (outcome_world (DurationVariant.setup variant_garbage_world)))
  = 0.
Proof.
  split; [vm_compute; reflexivity |].
  split; [vm_compute; reflexivity |].
  split; [vm_compute; reflexivity |].
  destruct (setup_clamps garbage_world variant_garbage_world)
    as (_ & Hidx & _ & Hcnt & _ & Hvar & _).
  split; [apply Hidx; right; vm_compute; reflexivity |].
  split; [apply Hcnt; right; vm_compute; reflexivity |].
  apply Hvar. right. vm_compute. reflexivity.
Defined.

Lemma meterParticlePublish_rate_limit_witness :
  nondecreasing (millis_in burst_world) /\
  exists es w',
    meter_burst 3 burst_world = Done es w' /\
    spaced es /\
    Z.of_nat (length es)
    <= (List.last (millis_in burst_world) 0 - hd 0 (millis_in burst_world))
       / 1000 + 1.
Proof.
  assert (Hmono : nondecreasing (millis_in burst_world)).
  { cbn. repeat split; lia. }
  split; [exact Hmono |].
  apply (meterParticlePublish_rate_limit 3 burst_world Hmono).
  cbn. lia.
Defined.

Lemma setDuration_accepts_non_numeric_witness :
  has_integer_prefix "hello" = false /\
  strtol "hello" = 0 /\
  exists w',
    DurationVariant.setDuration "hello" duration_world = Done 1 w' /\
    DurationVariant.testDurationSeconds (globals w') = 0.
Proof.
  split; [reflexivity |].
  destruct (setDuration_accepts_non_numeric "hello" duration_world 1001 []
              ltac:(reflexivity) ltac:(vm_compute; reflexivity))
    as (Hzero & w' & Hrun & Hdur & _).
  split; [exact Hzero |].
  exists w'. split; [exact Hrun | exact Hdur].
Defined.

Lemma idle_waits_for_switch_witness :
  exists w',
    loop idle_world = Done tt w' /\
    testNumber (globals w') = 1 /\
    numberOfTestsPassed (globals w') = 0 /\
    eeprom w' = eeprom idle_world.
Proof.
  destruct (idle_waits_for_switch idle_world
              (outcome_world (loop_service idle_world)) LOW []
              ltac:(reflexivity) ltac:(vm_compute; reflexivity)
              ltac:(reflexivity))
    as (w' & Hrun & Hidx & Hcnt & He & _).
  exists w'. repeat split; assumption.
Defined.

(** * Further properties of the sketch *)

Ltac run_sketch_in_hyp H :=
  cbv beta iota zeta delta
    [bind ret emit get_globals set_globals millis rtc_getRTCTime
     rtc_getInterrupt digitalRead digitalWrite System_sleep_deep
     System_sleep_stop delay pinMode attachInterrupt Particle_publish
     Particle_variable Particle_function rtc_setup rtc_loop rtc_clearAlarm
     rtc_setAlarm set_eeprom EEPROM_read EEPROM_get EEPROM_write EEPROM_put
     set_lastPublish with_clock outcome_world is_suspended
     globals lastPublish eeprom millis_in rtc_in irq_in pins_in trace
     SleepModes.testNumber SleepModes.numberOfTestsPassed
     SleepModes.watchDogFlag SleepModes.set_testNumber
     SleepModes.set_numberOfTestsPassed SleepModes.set_watchDogFlag
     DurationVariant.testNumber DurationVariant.testDurationSeconds
     DurationVariant.watchDogFlag DurationVariant.set_testNumber
     DurationVariant.set_testDurationSeconds VariantTests.set_watchDogFlag]
    in H.

(** ** What a computation leaves alone *)

Section Keeps.
Context {G X : Type} (f : World G -> X).
Hypothesis Hf : durable f.

Lemma keeps_ret {A} (a : A) : keeps f (ret (G := G) a).
Proof. intros w. reflexivity. Qed.

Lemma keeps_bind {A B} (m : M G A) (k : A -> M G B) :
  keeps f m -> (forall a, keeps f (k a)) -> keeps f (bind m k).
Proof.
  intros Hm Hk w. specialize (Hm w). unfold bind.
  destruct (m w) as [a w1 | w1 | w1]; cbn in Hm |- *;
    [rewrite Hk; exact Hm | exact Hm | exact Hm].
Qed.

Lemma keeps_emit e : keeps f (emit (G := G) e).
Proof. intros [g lp e0 ms rs irqs pins tr]. apply Hf. Qed.

Lemma keeps_millis : keeps f (millis (G := G)).
Proof.
  intros [g lp e0 ms rs irqs pins tr]. unfold millis. cbn [millis_in].
  destruct ms; [reflexivity | apply Hf].
Qed.

Lemma keeps_rtc_getRTCTime : keeps f (rtc_getRTCTime (G := G)).
Proof.
  intros [g lp e0 ms rs irqs pins tr]. unfold rtc_getRTCTime.
  cbn [rtc_in]. destruct rs; [reflexivity | apply Hf].
Qed.

Lemma keeps_rtc_getInterrupt : keeps f (rtc_getInterrupt (G := G)).
Proof.
  intros [g lp e0 ms rs irqs pins tr]. unfold rtc_getInterrupt.
  cbn [irq_in]. destruct irqs; [reflexivity | apply Hf].
Qed.

Lemma keeps_digitalRead pin : keeps f (digitalRead (G := G) pin).
Proof.
  intros [g lp e0 ms rs irqs pins tr]. unfold digitalRead.
  cbn [pins_in]. destruct pins; [reflexivity | apply Hf].
Qed.

Lemma keeps_digitalWrite pin level :
  keeps f (digitalWrite (G := G) pin level).
Proof.
  intros [g lp e0 ms rs irqs pins tr]. unfold digitalWrite, bind, emit.
  destruct ((pin =? DeepSleepPin) && level); apply Hf.
Qed.

Lemma keeps_System_sleep_deep : keeps f (System_sleep_deep (G := G)).
Proof. intros [g lp e0 ms rs irqs pins tr]. apply Hf. Qed.

Lemma keeps_get_globals : keeps f (get_globals (G := G)).
Proof. intros w. reflexivity. Qed.

Lemma keeps_EEPROM_read a : keeps f (EEPROM_read (G := G) a).
Proof. intros w. reflexivity. Qed.

Lemma keeps_EEPROM_get a : keeps f (EEPROM_get (G := G) a).
Proof. intros w. reflexivity. Qed.

Lemma keeps_meterParticlePublish : keeps f (meterParticlePublish (G := G)).
Proof.
  intros w. rewrite meterParticlePublish_run.
  destruct w as [g lp e0 ms rs irqs pins tr]. unfold with_clock.
  cbn [millis_in lastPublish globals eeprom rtc_in irq_in pins_in trace].
  destruct ms as [|t1 rest]; [reflexivity |].
  destruct (1000 <=? uint32 (uint32 t1 - lp)).
  - destruct rest; apply Hf.
  - apply Hf.
Qed.

Lemma keeps_waitUntil_fuel fuel (cond : M G bool) :
  keeps f cond -> keeps f (waitUntil_fuel fuel cond).
Proof.
  intros Hc. induction fuel as [|fuel IH]; cbn [waitUntil_fuel].
  - intros w. reflexivity.
  - apply keeps_bind; [exact Hc |].
    intros [|]; [apply keeps_ret | exact IH].
Qed.

Lemma keeps_waitUntil (cond : M G bool) :
  keeps f cond -> keeps f (waitUntil cond).
Proof. intros Hc w. unfold waitUntil. apply keeps_waitUntil_fuel, Hc. Qed.

Lemma keeps_waitFor_fuel fuel start (cond : M G bool) timeout :
  keeps f cond -> keeps f (waitFor_fuel fuel start cond timeout).
Proof.
  intros Hc. revert start.
  induction fuel as [|fuel IH]; intros start; cbn [waitFor_fuel].
  - intros w. reflexivity.
  - apply keeps_bind; [apply keeps_millis |]. intros now.
    destruct (uint32 (now - start) <? timeout); [| apply keeps_ret].
    apply keeps_bind; [exact Hc |].
    intros [|]; [apply keeps_ret | apply IH].
Qed.

Lemma keeps_waitFor (cond : M G bool) timeout :
  keeps f cond -> keeps f (waitFor cond timeout).
Proof.
  intros Hc. unfold waitFor.
  apply keeps_bind; [apply keeps_millis |]. intros start.
  intros w. apply keeps_waitFor_fuel, Hc.
Qed.
End Keeps.

(** Decompose a procedure into its calls; what is left are the calls that
    write the globals or the EEPROM. *)
Ltac keep Hf :=
  repeat first
    [ match goal with
      | H : forall start, keeps _ (_ start) |- keeps _ (_ _) => apply H
      end
    | apply keeps_ret
    | apply (keeps_emit _ Hf)
    | apply (keeps_millis _ Hf)
    | apply (keeps_rtc_getRTCTime _ Hf)
    | apply (keeps_rtc_getInterrupt _ Hf)
    | apply (keeps_digitalRead _ Hf)
    | apply (keeps_digitalWrite _ Hf)
    | apply (keeps_System_sleep_deep _ Hf)
    | apply keeps_get_globals
    | apply keeps_EEPROM_read
    | apply keeps_EEPROM_get
    | apply (keeps_meterParticlePublish _ Hf)
    | apply keeps_waitUntil
    | apply (keeps_waitFor _ Hf)
    | apply keeps_bind; [| intros ?]
    | match goal with
      | |- keeps _ (if ?b then _ else _) => destruct b
      end ].

Lemma durable_globals {G} : durable (globals (G := G)).
Proof. intros g e lp ms rs irqs pins tr lp' ms' rs' irqs' pins' tr'. reflexivity. Qed.

Lemma durable_eeprom {G} : durable (eeprom (G := G)).
Proof. intros g e lp ms rs irqs pins tr lp' ms' rs' irqs' pins' tr'. reflexivity. Qed.

Lemma keeps_globals_EEPROM_put {G} a v :
  keeps (globals (G := G)) (EEPROM_put a v).
Proof. intros w. reflexivity. Qed.

Lemma keeps_globals_EEPROM_write {G} a v :
  keeps (globals (G := G)) (EEPROM_write a v).
Proof. intros w. reflexivity. Qed.

Lemma keeps_globals_elapsedTimeCorrect start :
  keeps globals (elapsedTimeCorrect start).
Proof.
  unfold elapsedTimeCorrect, read_adjustment, Particle_publish.
  destruct start; keep (@durable_globals Globals);
    apply keeps_globals_EEPROM_put.
Qed.

(** ** The verifier and the persistent layout *)

Lemma durable_progress : durable progress.
Proof.
  intros g e lp ms rs irqs pins tr lp' ms' rs' irqs' pins' tr'. reflexivity.
Qed.

Lemma keeps_progress_start_store v :
  keeps progress (EEPROM_put testStartTimeAddr v).
Proof.
  intros [g lp e ms rs irqs pins tr].
  unfold progress, stored_index, stored_count. run_sketch.
  rewrite !EEPROM_read_put_outside
    by (unfold testStartTimeAddr, testNumberAddr, numberOfTestsPassedAddr;
        lia).
  reflexivity.
Qed.

(** X1. The verifier's timestamp, four bytes from address 1, overlaps
    neither the index byte at 0 nor the pass-count byte at 5: begin and
    end leave the globals and both persisted bytes as they were, however
    the call ends. *)
Theorem verifier_leaves_progress (start : bool) (w : World Globals) :
  let w' := outcome_world (elapsedTimeCorrect start w) in
  globals w' = globals w /\
  stored_index w' = stored_index w /\
  stored_count w' = stored_count w.
Proof.
  assert (Hk : keeps progress (elapsedTimeCorrect start)).
  { unfold elapsedTimeCorrect, read_adjustment, Particle_publish.
    destruct start; keep durable_progress; apply keeps_progress_start_store. }
  specialize (Hk w). unfold progress in Hk.
  injection Hk as Hg Hi Hc. cbn zeta. auto.
Qed.

(** ** The tick *)

Lemma keeps_globals_systemSleepTest : keeps globals systemSleepTest.
Proof.
  unfold systemSleepTest, Particle_publish, System_sleep_stop.
  pose proof keeps_globals_elapsedTimeCorrect as Hverifier.
  keep (@durable_globals Globals).
Qed.

Lemma keeps_globals_rtcAlarmTest : keeps globals rtcAlarmTest.
Proof.
  unfold rtcAlarmTest, rtcAlarmTest_window, rtcAlarmTest_verdict,
    alarmSounded, Particle_publish, rtc_setAlarm.
  pose proof keeps_globals_elapsedTimeCorrect as Hverifier.
  keep (@durable_globals Globals).
Qed.

Lemma keeps_globals_systemSleepWakeOnInterruptTest :
  keeps globals systemSleepWakeOnInterruptTest.
Proof.
  unfold systemSleepWakeOnInterruptTest, Particle_publish, System_sleep_stop.
  keep (@durable_globals Globals).
Qed.

Lemma keeps_globals_systemDeepSleepRTCWakeTest :
  keeps globals systemDeepSleepRTCWakeTest.
Proof.
  unfold systemDeepSleepRTCWakeTest, Particle_publish, rtc_setAlarm.
  pose proof keeps_globals_elapsedTimeCorrect as Hverifier.
  keep (@durable_globals Globals).
Qed.

Lemma keeps_globals_powerOffSleepWithRTCWakeTest :
  keeps globals powerOffSleepWithRTCWakeTest.
Proof.
  unfold powerOffSleepWithRTCWakeTest, Particle_publish, rtc_setAlarm, delay.
  pose proof keeps_globals_elapsedTimeCorrect as Hverifier.
  keep (@durable_globals Globals).
Qed.

Lemma progress_bytes e i c :
  let e' :=
    EEPROM.write (EEPROM.write e testNumberAddr i) numberOfTestsPassedAddr c in
  EEPROM.read e' testNumberAddr = uint8 i /\
  EEPROM.read e' numberOfTestsPassedAddr = uint8 c /\
  EEPROM.get e' testStartTimeAddr = EEPROM.get e testStartTimeAddr.
Proof.
  cbn zeta. unfold EEPROM.get, testNumberAddr, numberOfTestsPassedAddr,
    testStartTimeAddr.
  rewrite (EEPROM_read_write_ne _ 5 0) by lia.
  rewrite (EEPROM_read_write_ne _ 5 1) by lia.
  rewrite (EEPROM_read_write_ne _ 5 (1 + 1)) by lia.
  rewrite (EEPROM_read_write_ne _ 5 (1 + 2)) by lia.
  rewrite (EEPROM_read_write_ne _ 5 (1 + 3)) by lia.
  rewrite (EEPROM_read_write_ne _ 0 1) by lia.
  rewrite (EEPROM_read_write_ne _ 0 (1 + 1)) by lia.
  rewrite (EEPROM_read_write_ne _ 0 (1 + 2)) by lia.
  rewrite (EEPROM_read_write_ne _ 0 (1 + 3)) by lia.
  rewrite !EEPROM_read_write_eq. auto.
Qed.

(** What the shared body of cases 1 to 5 does once the test has ended. *)
Lemma run_test_outcome (test : M Globals bool) (w : World Globals) :
  keeps globals test ->
  let w' := outcome_world (run_test test w) in
  match test w with
  | Done passed w1 =>
      run_test test w = Done tt w' /\
      index_of w' = uint8 (index_of w + 1) /\
      count_of w'
      = (if passed then sint32 (count_of w + 1) else count_of w) /\
      stored_index w' = index_of w' /\
      stored_count w' = uint8 (count_of w') /\
      EEPROM.get (eeprom w') testStartTimeAddr
      = EEPROM.get (eeprom w1) testStartTimeAddr
  | Suspended w1 => run_test test w = Suspended w1 /\ globals w1 = globals w
  | Blocked w1 => run_test test w = Blocked w1 /\ globals w1 = globals w
  end.
Proof.
  intros Hk w'. subst w'. specialize (Hk w).
  destruct (test w) as [passed w1 | w1 | w1] eqn:Ht; cbn [outcome_world] in Hk.
  2,3: (assert (Hrun : run_test test w = bind (fun _ => test w) (fun _ => ret tt) w)
         by (unfold run_test, bind; rewrite Ht; reflexivity);
        unfold bind in Hrun; rewrite Ht in Hrun;
        split; [exact Hrun | exact Hk]).
  assert (Hrun : run_test test w
                 = run_test (fun _ => Done passed w1) w).
  { unfold run_test, bind at 1 6. rewrite Ht. reflexivity. }
  rewrite Hrun. clear Hrun Ht.
  destruct w as [[tn cnt flag] lp e ms rs irqs pins tr].
  destruct w1 as [g1 lp1 e1 ms1 rs1 irqs1 pins1 tr1].
  cbn [globals] in Hk. subst g1.
  unfold run_test, index_of, count_of, stored_index, stored_count.
  destruct passed; run_sketch.
  - split; [reflexivity |]. split; [reflexivity |]. split; [reflexivity |].
    match goal with
    | |- context [EEPROM.write (EEPROM.write ?e _ ?i) _ ?c] =>
        destruct (progress_bytes e i c) as (Hi & Hc & Hs)
    end.
    rewrite Hi, Hc, Hs, !uint8_idem. auto.
  - split; [reflexivity |]. split; [reflexivity |]. split; [reflexivity |].
    match goal with
    | |- context [EEPROM.write (EEPROM.write ?e _ ?i) _ ?c] =>
        destruct (progress_bytes e i c) as (Hi & Hc & Hs)
    end.
    rewrite Hi, Hc, Hs, !uint8_idem. auto.
Qed.

Lemma loop_at (w : World Globals) :
  loop w = (loop_service;; loop_branch (index_of w)) w.
Proof.
  unfold loop. apply bind_at. intros [] w1 Hservice.
  apply loop_service_keeps in Hservice. destruct Hservice as (Htn & _).
  unfold loop_branch, index_of, bind, get_globals. rewrite Htn. reflexivity.
Qed.

Lemma loop_service_index (w : World Globals) :
  globals (outcome_world (loop_service w))
  = mkGlobals (testNumber (globals w)) (numberOfTestsPassed (globals w))
      (if is_suspended (loop_service w) then true
       else match loop_service w with
            | Done _ _ => false
            | _ => watchDogFlag (globals w)
            end) /\
  is_suspended (loop_service w) = false /\
  eeprom (outcome_world (loop_service w)) = eeprom w.
Proof.
  rewrite loop_service_run.
  destruct w as [[tn cnt flag] lp e ms rs irqs pins tr].
  cbn [globals watchDogFlag testNumber numberOfTestsPassed lastPublish
       millis_in eeprom].
  destruct flag; [destruct (meter_wait lp ms) as [[t rest]|] |];
    repeat split.
Qed.

Section Quiet.
Let quiet (e : Event) : Prop := suspending e = false.

Lemma quiet_elapsedTimeCorrect start : confined quiet (elapsedTimeCorrect start).
Proof.
  unfold elapsedTimeCorrect, read_adjustment, Particle_publish.
  destruct start; confine.
Qed.

Lemma quiet_loop_service : confined quiet loop_service.
Proof.
  unfold loop_service, set_watchDogFlag, Particle_publish, rtc_loop. confine.
Qed.

Lemma quiet_run_test (test : M Globals bool) :
  confined quiet test -> confined quiet (run_test test).
Proof.
  intros Ht. unfold run_test, set_numberOfTestsPassed, set_testNumber.
  apply confined_bind; [exact Ht |]. intros passed. confine.
Qed.

Lemma quiet_systemSleepTest : confined quiet systemSleepTest.
Proof.
  unfold systemSleepTest.
  apply confined_bind; [confine |]. intros _.
  apply confined_bind; [unfold Particle_publish; confine |]. intros _.
  apply confined_bind; [apply quiet_elapsedTimeCorrect |]. intros _.
  apply confined_bind; [unfold System_sleep_stop; confine |]. intros _.
  apply confined_bind; [apply quiet_elapsedTimeCorrect |]. intros ok.
  confine.
Qed.

Lemma quiet_rtcAlarmTest : confined quiet rtcAlarmTest.
Proof.
  unfold rtcAlarmTest, rtcAlarmTest_window, rtcAlarmTest_verdict.
  apply confined_bind.
  - apply confined_bind; [confine |]. intros _.
    apply confined_bind; [unfold Particle_publish; confine |]. intros _.
    apply confined_bind; [apply quiet_elapsedTimeCorrect |]. intros _.
    unfold rtc_setAlarm, alarmSounded. confine.
  - intros _. apply confined_bind; [confine |]. intros both.
    destruct both.
    + apply confined_bind; [apply quiet_elapsedTimeCorrect |]. intros ok.
      confine.
    + unfold Particle_publish. confine.
Qed.

Lemma quiet_systemSleepWakeOnInterruptTest :
  confined quiet systemSleepWakeOnInterruptTest.
Proof.
  unfold systemSleepWakeOnInterruptTest, Particle_publish,
    System_sleep_stop.
  confine.
Qed.

Lemma quiet_loop_branch i : i <> 4 -> i <> 5 -> confined quiet (loop_branch i).
Proof.
  intros H4 H5. unfold loop_branch.
  apply confined_bind; [confine |]. intros g.
  destruct i as [|p|p].
  - unfold set_testNumber. confine.
  - destruct p as [[[p|p|]|[p|p|]|]|[[p|p|]|[p|p|]|]|];
      try congruence;
      try (apply quiet_run_test;
           first [ apply quiet_systemSleepTest
                 | apply quiet_rtcAlarmTest
                 | apply quiet_systemSleepWakeOnInterruptTest ]);
      unfold Particle_publish, delay, set_testNumber; confine.
  - unfold Particle_publish, delay, set_testNumber. confine.
Qed.
End Quiet.

(** X2. Only the deep-sleep and the power-off test stop the processor: a
    tick at any other index makes no suspending call and does not end
    suspended, whatever the scripts hold. *)
Theorem only_reboot_tests_suspend (w : World Globals) :
  index_of w <> 4 ->
  index_of w <> 5 ->
  is_suspended (loop w) = false /\
  exists evs,
    trace (outcome_world (loop w)) = trace w ++ evs /\
    Forall (fun e => suspending e = false) evs.
Proof.
  intros H4 H5. rewrite loop_at.
  assert (Hc : confined (fun e => suspending e = false)
                 (loop_service;; loop_branch (index_of w))).
  { apply confined_bind; [apply quiet_loop_service |]. intros _.
    apply quiet_loop_branch; assumption. }
  exact (Hc w).
Qed.

(** X3. The index stays within 0 to 6 across a tick, however the tick
    ends; a tick that completes one of the tests 1 to 5 advances the index
    by exactly one and persists it. *)
Theorem index_stays_in_range (w : World Globals) :
  0 <= index_of w <= 6 ->
  0 <= index_of (outcome_world (loop w)) <= 6 /\
  (1 <= index_of w <= 5 ->
   forall w', loop w = Done tt w' ->
     index_of w' = index_of w + 1 /\ stored_index w' = index_of w').
Proof.
  intros Hrange. rewrite loop_at.
  destruct (loop_service_index w) as (Hg & Hs & _).
  unfold bind.
  destruct (loop_service w) as [[] w1 | w1 | w1];
    cbn [outcome_world is_suspended] in *; [| discriminate |].
  2:{ split.
      - unfold index_of. rewrite Hg. exact Hrange.
      - intros _ w' Hd. discriminate. }
  assert (Hidx : index_of w1 = index_of w).
  { unfold index_of. rewrite Hg. reflexivity. }
  clear Hg Hs.
  assert (Hcases : index_of w = 0 \/ 1 <= index_of w <= 5 \/ index_of w = 6)
    by lia.
  destruct Hcases as [H0 | [Htest | H6]].
  - rewrite H0. split; [| lia].
    destruct w1 as [[tn1 cnt1 flag1] lp1 e1 ms1 rs1 irqs1 pins1 tr1].
    unfold index_of in *. cbn [globals testNumber] in Hidx.
    rewrite H0 in Hidx. subst tn1. unfold loop_branch. run_sketch.
    destruct pins1 as [|[|] pins1]; cbn [Bool.eqb LOW]; run_sketch;
      try change (uint8 (0 + 1)) with 1; lia.
  - assert (Hrun : exists test,
               keeps globals test /\
               loop_branch (index_of w) w1 = run_test test w1).
    { assert (Hi : index_of w = 1 \/ index_of w = 2 \/ index_of w = 3
                   \/ index_of w = 4 \/ index_of w = 5) by lia.
      destruct Hi as [-> | [-> | [-> | [-> | ->]]]].
      - exists systemSleepTest.
        split; [apply keeps_globals_systemSleepTest | reflexivity].
      - exists rtcAlarmTest.
        split; [apply keeps_globals_rtcAlarmTest | reflexivity].
      - exists systemSleepWakeOnInterruptTest.
        split; [apply keeps_globals_systemSleepWakeOnInterruptTest
               | reflexivity].
      - exists systemDeepSleepRTCWakeTest.
        split; [apply keeps_globals_systemDeepSleepRTCWakeTest | reflexivity].
      - exists powerOffSleepWithRTCWakeTest.
        split; [apply keeps_globals_powerOffSleepWithRTCWakeTest
               | reflexivity]. }
    destruct Hrun as (test & Hk & ->).
    pose proof (run_test_outcome test w1 Hk) as Hout. cbn zeta in Hout.
    destruct (test w1) as [passed w2 | w2 | w2].
    + destruct Hout as (Hd & Hi' & _ & Hs' & _).
      rewrite Hidx, uint8_small in Hi' by lia.
      split; [lia |].
      intros _ w' Hw'. rewrite Hd in Hw'. injection Hw' as <-.
      split; [exact Hi' | exact Hs'].
    + destruct Hout as (Hd & Hg2). rewrite Hd. cbn [outcome_world].
      split.
      * unfold index_of in *. rewrite Hg2. lia.
      * intros _ w' Hw'. discriminate.
    + destruct Hout as (Hd & Hg2). rewrite Hd. cbn [outcome_world].
      split.
      * unfold index_of in *. rewrite Hg2. lia.
      * intros _ w' Hw'. discriminate.
  - rewrite H6. split; [| lia].
    destruct w1 as [[tn1 cnt1 flag1] lp1 e1 ms1 rs1 irqs1 pins1 tr1].
    unfold index_of in *. cbn [globals testNumber] in Hidx.
    rewrite H6 in Hidx. subst tn1. unfold loop_branch. run_sketch.
    cbn [Z.eqb Pos.eqb]. rewrite waitUntil_meter. run_sketch.
    destruct (meter_wait lp1 ms1) as [[t rest]|]; run_sketch;
      try change (uint8 0) with 0; lia.
Qed.

(** ** The synchronous tests *)

Lemma sint32_uint32 z : sint32 (uint32 z) = sint32 z.
Proof.
  unfold uint32, sint32.
  rewrite Zplus_mod_idemp_l. reflexivity.
Qed.

Lemma uint32_sub a b : uint32 (uint32 a - uint32 b) = uint32 (a - b).
Proof. unfold uint32. rewrite <- Zminus_mod. reflexivity. Qed.

Lemma uint32_sub_l a b : uint32 (uint32 a - b) = uint32 (a - b).
Proof. unfold uint32. rewrite Zminus_mod_idemp_l. reflexivity. Qed.

Lemma uint32_sub_r a b : uint32 (a - uint32 b) = uint32 (a - b).
Proof. unfold uint32. rewrite Zminus_mod_idemp_r. reflexivity. Qed.

Lemma result_fits verdict n :
  (String.length verdict = 20)%nat ->
  snprintf 32 (verdict +:+ print_i n) = (verdict +:+ print_i n)%string.
Proof.
  intros Hlen. apply snprintf_fits. rewrite append_length, Hlen.
  pose proof (print_i_length n). lia.
Qed.

(** [elapsedTimeCorrect(true)] in closed form, outside the deep-sleep
    index. *)
Lemma begin_run (w : World Globals) :
  index_of w <> 4 ->
  elapsedTimeCorrect true w
  = match rtc_in w with
    | [] => Blocked w
    | t0 :: rs =>
        Done false
          (mkWorld (globals w) (lastPublish w)
             (EEPROM.put (eeprom w) testStartTimeAddr (sint32 t0))
             (millis_in w) rs (irq_in w) (pins_in w)
             (trace w ++ [EepromPut testStartTimeAddr (uint32 t0)]))
    end.
Proof.
  intros H4. destruct w as [[tn cnt flag] lp e ms rs irqs pins tr].
  unfold index_of in H4. cbn [globals testNumber] in H4.
  unfold elapsedTimeCorrect, read_adjustment. run_sketch.
  destruct (Z.eqb_spec tn 4); [contradiction |].
  destruct rs as [|t0 rs]; [reflexivity |].
  rewrite uint32_sint32. reflexivity.
Qed.

(** [elapsedTimeCorrect(false)] in closed form, outside the deep-sleep
    index. *)
Lemma end_run (w : World Globals) :
  index_of w <> 4 ->
  elapsedTimeCorrect false w
  = match rtc_in w with
    | [] =>
        Blocked
          (mkWorld (globals w) (lastPublish w)
             (EEPROM.put (eeprom w) testStartTimeAddr 0)
             (millis_in w) [] (irq_in w) (pins_in w)
             (trace w ++ [EepromPut testStartTimeAddr 0]))
    | now :: rs =>
        let elapsed :=
          sint32 (sint32 now
                  - sint32 (EEPROM.get (eeprom w) testStartTimeAddr)) in
        let pass :=
          (testDurationSeconds <=? elapsed)
          && (elapsed <=? testDurationSeconds + 2) in
        let e' := EEPROM.put (eeprom w) testStartTimeAddr 0 in
        match meter_wait (lastPublish w) (millis_in w) with
        | Some (lp, ms) =>
            Done pass
              (mkWorld (globals w) lp e' ms rs (irq_in w) (pins_in w)
                 (trace w ++
                  [EepromPut testStartTimeAddr 0;
                   Publish "Result"
                     ((if pass then "Passed elapsed time "
                       else "Failed elapsed time ") +:+ print_i elapsed)]))
        | None =>
            Blocked
              (mkWorld (globals w) (lastPublish w) e' [] rs (irq_in w)
                 (pins_in w) (trace w ++ [EepromPut testStartTimeAddr 0]))
        end
    end.
Proof.
  intros H4. destruct w as [[tn cnt flag] lp e ms rs irqs pins tr].
  unfold index_of in H4. cbn [globals testNumber] in H4.
  unfold elapsedTimeCorrect, read_adjustment. run_sketch.
  destruct (Z.eqb_spec tn 4); [contradiction |].
  destruct rs as [|now rs]; [reflexivity |].
  cbv zeta.
  rewrite window_condition by (apply sint32_range || lia).
  rewrite !result_fits by reflexivity.
  destruct ((testDurationSeconds
             <=? sint32 (sint32 now - sint32 (EEPROM.get e testStartTimeAddr)))
            && (sint32 (sint32 now - sint32 (EEPROM.get e testStartTimeAddr))
                <=? testDurationSeconds + 2));
    rewrite waitUntil_meter; run_sketch;
    destruct (meter_wait lp ms) as [[lp' ms']|]; run_sketch;
    rewrite <- ?app_assoc; reflexivity.
Qed.

(** X4. The stop-mode sleep test measures the sleep with the RTC: with
    [t0] read at begin and [t1] at end, it passes exactly when
    20 <= t1 - t0 <= 22 (as 32-bit seconds), publishes the verdict with
    the elapsed time, and leaves the start timestamp cleared. *)
Theorem systemSleepTest_verdict
    (w : World Globals) (lp1 : Z) (ms1 : list Z) (t0 t1 : Z) (rs : list Z)
    (lp2 : Z) (ms2 : list Z) :
  index_of w <> 4 ->
  meter_wait (lastPublish w) (millis_in w) = Some (lp1, ms1) ->
  rtc_in w = t0 :: t1 :: rs ->
  meter_wait lp1 ms1 = Some (lp2, ms2) ->
  let elapsed := sint32 (sint32 t1 - sint32 t0) in
  let pass := (20 <=? elapsed) && (elapsed <=? 22) in
  exists w',
    systemSleepTest w = Done pass w' /\
    trace w' = trace w ++
      [Publish "Test" "System Stop Mode Sleep";
       EepromPut testStartTimeAddr (uint32 t0);
       SystemSleepStop None testDurationSeconds;
       EepromPut testStartTimeAddr 0;
       Publish "Result"
         ((if pass then "Passed elapsed time " else "Failed elapsed time ")
          +:+ print_i elapsed)] /\
    EEPROM.get (eeprom w') testStartTimeAddr = 0 /\
    globals w' = globals w.
Proof.
  intros H4 Hw1 Hrtc Hw2 elapsed pass.
  unfold systemSleepTest, bind at 1. rewrite waitUntil_meter, Hw1.
  unfold bind at 1, Particle_publish, emit at 1.
  unfold bind at 1. rewrite begin_run by exact H4.
  destruct w as [[tn cnt flag] lp e ms rs0 irqs pins tr].
  cbn [with_clock globals lastPublish eeprom millis_in rtc_in irq_in pins_in
       trace] in *.
  subst rs0. unfold bind at 1, System_sleep_stop, emit at 1.
  unfold bind at 1. rewrite end_run by exact H4.
  cbn [globals lastPublish eeprom millis_in rtc_in irq_in pins_in trace].
  rewrite Hw2, EEPROM_get_put, !sint32_uint32.
  rewrite (sint32_small (sint32 t0)) by apply sint32_range.
  cbv zeta. unfold testDurationSeconds. change (20 + 2) with 22.
  fold elapsed. fold pass.
  destruct pass; (eexists; split; [reflexivity |]);
    cbn [trace eeprom globals];
    (split; [rewrite <- !app_assoc; reflexivity |]);
    (split; [rewrite EEPROM_get_put; reflexivity | reflexivity]).
Qed.

(** X5. The interrupt-wake test passes exactly when the RTC advanced by at
    most 20 seconds across the sleep, the difference taken as an unsigned
    32-bit number, so an RTC that stepped back fails it; the test never
    writes the EEPROM. *)
Theorem interrupt_wake_verdict
    (w : World Globals) (lp1 : Z) (ms1 : list Z) (lp2 : Z) (ms2 : list Z)
    (t0 t1 : Z) (rs : list Z) (lp3 : Z) (ms3 : list Z) :
  meter_wait (lastPublish w) (millis_in w) = Some (lp1, ms1) ->
  meter_wait lp1 ms1 = Some (lp2, ms2) ->
  rtc_in w = t0 :: t1 :: rs ->
  meter_wait lp2 ms2 = Some (lp3, ms3) ->
  let pass := uint32 (t1 - t0) <=? 20 in
  exists w',
    systemSleepWakeOnInterruptTest w = Done pass w' /\
    trace w' = trace w ++
      [Publish "Test" "System Stop Mode with Wake on Interrupt";
       Publish "Test" "Press User Button to Wake";
       SystemSleepStop (Some userSwitch) testDurationSeconds;
       Publish "Results" (if pass then "Passed" else "Failed")] /\
    eeprom w' = eeprom w /\
    globals w' = globals w.
Proof.
  intros Hw1 Hw2 Hrtc Hw3 pass.
  destruct w as [[tn cnt flag] lp e ms rs0 irqs pins tr].
  cbn [lastPublish millis_in rtc_in trace eeprom globals] in *. subst rs0.
  unfold systemSleepWakeOnInterruptTest, bind at 1.
  rewrite waitUntil_meter. cbn [lastPublish millis_in]. rewrite Hw1.
  unfold bind at 1, Particle_publish at 1, emit at 1, with_clock.
  cbn [globals lastPublish eeprom millis_in rtc_in irq_in pins_in trace].
  unfold bind at 1. rewrite waitUntil_meter. cbn [lastPublish millis_in].
  rewrite Hw2. run_sketch.
  rewrite uint32_sub_r, <- uint32_sub, !uint32_sint32, uint32_sub.
  change (uint32 testDurationSeconds) with 20. fold pass.
  destruct pass; rewrite waitUntil_meter; run_sketch; rewrite Hw3;
    (eexists; split; [reflexivity |]); run_sketch;
    (split; [rewrite <- !app_assoc; reflexivity |]);
    split; reflexivity.
Qed.

(** ** The limiter at roll-over *)

(** X6. The limiter measures real elapsed time across the roll-over of
    [millis()]: if the clock stood at [t0] when [lastPublish] was taken and
    stands at [t1] now, less than 2^32 ms later, the poll is granted
    exactly when [t1 - t0 >= 1000]; a refused poll changes nothing but the
    clock script. *)
Theorem limiter_counts_across_rollover
    {G : Type} (w : World G) (t0 t1 t2 : Z) (rest : list Z) :
  lastPublish w = uint32 t0 ->
  millis_in w = t1 :: t2 :: rest ->
  t0 <= t1 < t0 + 2 ^ 32 ->
  meterParticlePublish w
  = if 1000 <=? t1 - t0
    then Done true (with_clock w (uint32 t2) rest)
    else Done false (with_clock w (lastPublish w) (t2 :: rest)).
Proof.
  intros Hlast Hms Ht. rewrite meterParticlePublish_run, Hms, Hlast.
  rewrite uint32_sub, uint32_small by lia. reflexivity.
Qed.

(** ** The watchdog interrupt *)

Lemma watchdogISR_run (w : World Globals) :
  watchdogISR w
  = Done tt
      (mkWorld
         (mkGlobals (testNumber (globals w))
            (numberOfTestsPassed (globals w)) true)
         (lastPublish w) (eeprom w) (millis_in w) (rtc_in w) (irq_in w)
         (pins_in w)
         (trace w ++ [DigitalWrite donePin HIGH; DigitalWrite donePin LOW])).
Proof.
  destruct w as [[tn cnt flag] lp e ms rs irqs pins tr].
  unfold watchdogISR. run_sketch. cbn [Z.eqb Pos.eqb andb donePin D5
    DeepSleepPin D6]. run_sketch. rewrite <- app_assoc. reflexivity.
Qed.

Lemma interrupts_run n (w : World Globals) :
  times (S n) watchdogISR w
  = Done tt
      (mkWorld
         (mkGlobals (testNumber (globals w))
            (numberOfTestsPassed (globals w)) true)
         (lastPublish w) (eeprom w) (millis_in w) (rtc_in w) (irq_in w)
         (pins_in w) (trace w ++ pulses (S n))).
Proof.
  revert w. induction n as [|n IH]; intros w.
  - cbn [times]. unfold bind. rewrite watchdogISR_run. reflexivity.
  - change (times (S (S n)) watchdogISR)
      with (watchdogISR;; times (S n) watchdogISR).
    unfold bind. rewrite watchdogISR_run, IH.
    cbn [globals testNumber numberOfTestsPassed lastPublish eeprom millis_in
         rtc_in irq_in pins_in trace].
    rewrite <- app_assoc. reflexivity.
Qed.

(** X7. Watchdog interrupts between two ticks are reported once: however
    many times the interrupt routine ran, the next tick publishes a single
    "Watchdog" message and clears the flag, and the tick after it publishes
    none.  The routine only pulses the done pin; index, pass count and
    EEPROM are untouched throughout. *)
Theorem watchdog_reported_once
    (w : World Globals) (n : nat) (lp1 : Z) (ms1 : list Z) :
  meter_wait (lastPublish w) (millis_in w) = Some (lp1, ms1) ->
  exists w',
    (times (S n) watchdogISR;; loop_service;; loop_service) w = Done tt w' /\
    trace w' = trace w ++ pulses (S n)
               ++ [RtcLoop; Publish "Watchdog" "Interrupt"; RtcLoop] /\
    watchDogFlag (globals w') = false /\
    index_of w' = index_of w /\
    count_of w' = count_of w /\
    eeprom w' = eeprom w.
Proof.
  intros Hwait. unfold bind at 1. rewrite interrupts_run.
  unfold bind at 1. rewrite loop_service_run.
  cbn [globals watchDogFlag lastPublish millis_in testNumber
       numberOfTestsPassed eeprom rtc_in irq_in pins_in trace].
  rewrite Hwait, loop_service_run.
  cbn [globals watchDogFlag lastPublish millis_in testNumber
       numberOfTestsPassed eeprom rtc_in irq_in pins_in trace].
  eexists. split; [reflexivity |].
  cbn [globals watchDogFlag trace eeprom].
  split; [rewrite <- !app_assoc; reflexivity |].
  repeat split.
Qed.

(** ** The RTC alarm test and the start timestamp *)

Lemma bind_Done {G A B} (m : M G A) (k : A -> M G B) w b w' :
  bind m k w = Done b w' ->
  exists a w1, m w = Done a w1 /\ k a w1 = Done b w'.
Proof.
  unfold bind. destruct (m w) as [a w1 | w1 | w1]; try discriminate.
  intros H. exists a, w1. split; [reflexivity | exact H].
Qed.

(** The wait for the alarm reads the clock and the wake pin, nothing else. *)
Lemma waitFor_alarm_frame fuel start timeout :
  forall (w w' : World Globals) b,
    waitFor_fuel fuel start alarmSounded timeout w = Done b w' ->
    globals w' = globals w /\ eeprom w' = eeprom w /\
    rtc_in w' = rtc_in w /\ irq_in w' = irq_in w /\ trace w' = trace w /\
    lastPublish w' = lastPublish w.
Proof.
  induction fuel as [|fuel IH]; intros w w' b Hrun; [discriminate |].
  cbn [waitFor_fuel] in Hrun.
  destruct w as [g lp e ms rs irqs pins tr].
  unfold bind at 1, millis in Hrun. cbn [millis_in] in Hrun.
  destruct ms as [|now ms]; [discriminate |].
  cbn [globals lastPublish eeprom rtc_in irq_in pins_in trace] in Hrun.
  destruct (uint32 (uint32 now - start) <? timeout).
  - unfold bind at 1, alarmSounded, bind at 1, digitalRead in Hrun.
    cbn [pins_in globals lastPublish eeprom millis_in rtc_in irq_in trace]
      in Hrun.
    destruct pins as [|[|] pins]; [discriminate | |].
    + cbn [ret] in Hrun. injection Hrun as <- <-. repeat split.
    + cbn [ret] in Hrun. apply IH in Hrun. exact Hrun.
  - cbn [ret] in Hrun. injection Hrun as <- <-. repeat split.
Qed.

(** What a completed begin leaves behind. *)
Lemma begin_facts (w w' : World Globals) r :
  elapsedTimeCorrect true w = Done r w' ->
  exists t0 rs,
    rtc_in w = t0 :: rs /\ rtc_in w' = rs /\
    eeprom w' = EEPROM.put (eeprom w) testStartTimeAddr (sint32 t0) /\
    globals w' = globals w /\ irq_in w' = irq_in w /\
    pins_in w' = pins_in w.
Proof.
  destruct w as [[tn cnt flag] lp e ms rs irqs pins tr].
  unfold elapsedTimeCorrect, read_adjustment. run_sketch.
  destruct (tn =? 4).
  - destruct ms as [|m ms]; [discriminate |].
    destruct rs as [|t0 rs]; [discriminate |].
    intros H. injection H as <- <-. exists t0, rs. repeat split.
  - destruct rs as [|t0 rs]; [discriminate |].
    intros H. injection H as <- <-. exists t0, rs. repeat split.
Qed.

(** A passing end saw at least the target duration on the RTC. *)
Lemma end_pass_facts (w w' : World Globals) :
  elapsedTimeCorrect false w = Done true w' ->
  exists now rs,
    rtc_in w = now :: rs /\
    testDurationSeconds
    <= sint32 (sint32 now
               - sint32 (EEPROM.get (eeprom w) testStartTimeAddr)).
Proof.
  destruct w as [[tn cnt flag] lp e ms rs irqs pins tr].
  unfold elapsedTimeCorrect, read_adjustment. run_sketch.
  destruct (tn =? 4).
  - destruct ms as [|m ms]; [discriminate |].
    destruct rs as [|now rs]; [discriminate |].
    match goal with
    | |- context [if ?c then _ else _] => destruct c eqn:Hc
    end.
    + intros _. exists now, rs. split; [reflexivity |].
      apply andb_true_iff in Hc. destruct Hc as [_ Hc].
      apply Z.leb_le in Hc. exact Hc.
    + rewrite waitUntil_meter. run_sketch.
      destruct (meter_wait lp ms) as [[? ?]|]; discriminate.
  - destruct rs as [|now rs]; [discriminate |].
    match goal with
    | |- context [if ?c then _ else _] => destruct c eqn:Hc
    end.
    + intros _. exists now, rs. split; [reflexivity |].
      apply andb_true_iff in Hc. destruct Hc as [_ Hc].
      apply Z.leb_le in Hc. exact Hc.
    + rewrite waitUntil_meter. run_sketch.
      destruct (meter_wait lp ms) as [[? ?]|]; discriminate.
Qed.

(** What the wait window of the alarm test leaves behind. *)
Lemma alarm_window_facts (w w1 : World Globals) b :
  rtcAlarmTest_window w = Done b w1 ->
  exists t0 rs,
    rtc_in w = t0 :: rs /\ rtc_in w1 = rs /\
    eeprom w1 = EEPROM.put (eeprom w) testStartTimeAddr (sint32 t0) /\
    globals w1 = globals w /\ irq_in w1 = irq_in w.
Proof.
  unfold rtcAlarmTest_window. intros H.
  apply bind_Done in H. destruct H as ([] & wa & Hwait & H).
  rewrite waitUntil_meter in Hwait.
  destruct (meter_wait (lastPublish w) (millis_in w)) as [[lp1 ms1]|];
    [| discriminate].
  injection Hwait as <-.
  apply bind_Done in H. destruct H as ([] & wb & Hpub & H).
  injection Hpub as <-.
  apply bind_Done in H. destruct H as (r & wc & Hbegin & H).
  apply begin_facts in Hbegin.
  destruct Hbegin as (t0 & rs & Hr & Hr' & He & Hg & Hi & _).
  apply bind_Done in H. destruct H as ([] & wd & Halarm & H).
  injection Halarm as <-.
  unfold waitFor in H.
  apply bind_Done in H. destruct H as (start & we & Hstart & H).
  unfold millis in Hstart.
  destruct wc as [gc lpc ec msc rsc irqsc pinsc trc].
  cbn [millis_in globals lastPublish eeprom rtc_in irq_in pins_in trace]
    in *.
  destruct msc as [|m msc]; [discriminate |].
  injection Hstart as <- <-.
  apply waitFor_alarm_frame in H.
  destruct H as (Hg1 & He1 & Hr1 & Hi1 & _).
  cbn [millis_in globals lastPublish eeprom rtc_in irq_in pins_in trace]
    in *.
  destruct w as [g lp e ms rs0 irqs pins tr].
  cbn [with_clock millis_in globals lastPublish eeprom rtc_in irq_in pins_in
       trace] in *.
  exists t0, rs. subst. repeat split; congruence.
Qed.

(** X8. The alarm test's elapsed-time check uses the suite's 20-second
    target, although the alarm is set for 10 seconds and waited for at most
    12: the test passes only if at least 20 seconds of RTC time lie between
    its begin and its verdict. *)
Theorem alarm_test_needs_target_duration
    (w w' : World Globals) (t0 t1 : Z) (rs : list Z) :
  rtc_in w = t0 :: t1 :: rs ->
  rtcAlarmTest w = Done true w' ->
  testDurationSeconds <= sint32 (sint32 t1 - sint32 t0).
Proof.
  intros Hrtc Hrun. unfold rtcAlarmTest in Hrun.
  apply bind_Done in Hrun. destruct Hrun as (b & w1 & Hwin & Hverdict).
  apply alarm_window_facts in Hwin.
  destruct Hwin as (t0' & rs' & Hr & Hr1 & He & _).
  rewrite Hrtc in Hr. injection Hr as <- <-.
  unfold rtcAlarmTest_verdict in Hverdict.
  apply bind_Done in Hverdict. destruct Hverdict as (both & w2 & Hboth & Hv).
  assert (Hkeep : rtc_in w2 = rtc_in w1 /\ eeprom w2 = eeprom w1).
  { apply bind_Done in Hboth. destruct Hboth as (fired & wa & Hf & Hp).
    unfold rtc_getInterrupt in Hf.
    destruct w1 as [g1 lp1 e1 ms1 rs1 irqs1 pins1 tr1].
    cbn [irq_in globals lastPublish eeprom millis_in rtc_in pins_in trace]
      in *.
    destruct irqs1 as [|f irqs1]; [discriminate |].
    injection Hf as <- <-.
    destruct f.
    - unfold digitalRead in Hp. cbn [pins_in] in Hp.
      destruct pins1; [discriminate |]. injection Hp as <- <-.
      split; reflexivity.
    - injection Hp as <- <-. split; reflexivity. }
  destruct Hkeep as [Hr2 He2].
  destruct both.
  - apply bind_Done in Hv. destruct Hv as (ok & w3 & Hend & Hret).
    destruct ok; [| discriminate].
    apply end_pass_facts in Hend.
    destruct Hend as (now & rs2 & Hnow & Hle).
    rewrite Hr2, Hr1 in Hnow. injection Hnow as <- <-.
    rewrite He2, He, EEPROM_get_put, sint32_uint32 in Hle.
    rewrite (sint32_small (sint32 t0)) in Hle by apply sint32_range.
    exact Hle.
  - apply bind_Done in Hv. destruct Hv as ([] & w3 & _ & Hv).
    apply bind_Done in Hv. destruct Hv as ([] & w4 & _ & Hv).
    discriminate.
Qed.

(** X9. A failed alarm test leaves its start timestamp in the EEPROM: the
    failure path never runs the end-verification that would clear it.  If
    the RTC reading stored at begin is non-zero, the deep-sleep and the
    power-off test then find a non-zero timestamp and take their resume
    branch in any world carrying that EEPROM, without arming. *)
Theorem failed_alarm_leaves_timestamp
    (w w1 : World Globals) (b fired level : bool) (t0 : Z) (rs : list Z)
    (irqs pins : list bool) (t : Z) (rest : list Z) :
  rtcAlarmTest_window w = Done b w1 ->
  rtc_in w = t0 :: rs ->
  irq_in w1 = fired :: irqs ->
  pins_in w1 = level :: pins ->
  fired && level = false ->
  meter_wait (lastPublish w1) (millis_in w1) = Some (t, rest) ->
  uint32 t0 <> 0 ->
  exists w',
    rtcAlarmTest w = Done false w' /\
    EEPROM.get (eeprom w') testStartTimeAddr = uint32 t0 /\
    forall w2 : World Globals,
      eeprom w2 = eeprom w' ->
      systemDeepSleepRTCWakeTest w2 = verify_only w2 /\
      powerOffSleepWithRTCWakeTest w2 = verify_only w2.
Proof.
  intros Hwin Hrtc Hirq Hpin Hfail Hwait Hne.
  pose proof (alarm_window_facts _ _ _ Hwin) as (t0' & rs' & Hr & _ & He & _).
  rewrite Hrtc in Hr. injection Hr as <- <-.
  assert (Hrun : rtcAlarmTest w = rtcAlarmTest_verdict w1).
  { unfold rtcAlarmTest, bind. rewrite Hwin. reflexivity. }
  rewrite Hrun. clear Hrun Hwin.
  destruct w1 as [g1 lp1 e1 ms1 rs1 irqs1 pins1 tr1].
  cbn [irq_in pins_in globals lastPublish eeprom millis_in rtc_in trace] in *.
  subst irqs1 pins1 e1.
  assert (Hstamp : EEPROM.get
                     (EEPROM.put (eeprom w) testStartTimeAddr (sint32 t0))
                     testStartTimeAddr = uint32 t0).
  { rewrite EEPROM_get_put. apply uint32_sint32. }
  assert (Hresume : forall w2 : World Globals,
             EEPROM.get (eeprom w2) testStartTimeAddr = uint32 t0 ->
             systemDeepSleepRTCWakeTest w2 = verify_only w2 /\
             powerOffSleepWithRTCWakeTest w2 = verify_only w2).
  { intros w2 H2.
    split; [apply resume_deep_sleep | apply resume_power_off];
      rewrite H2; exact Hne. }
  unfold rtcAlarmTest_verdict.
  destruct fired, level; try discriminate; run_sketch;
    rewrite waitUntil_meter; run_sketch; rewrite Hwait;
    (eexists; split; [reflexivity |]);
    (split; [exact Hstamp |]);
    intros w2 He2; apply Hresume;
    rewrite <- Hstamp; f_equal; exact He2.
Qed.

(** ** Progress across a reboot *)

Lemma loop_runs_test i :
  1 <= i <= 5 ->
  exists test,
    keeps globals test /\ forall w1, loop_branch i w1 = run_test test w1.
Proof.
  intros Hi.
  assert (Hc : i = 1 \/ i = 2 \/ i = 3 \/ i = 4 \/ i = 5) by lia.
  destruct Hc as [-> | [-> | [-> | [-> | ->]]]].
  - exists systemSleepTest.
    split; [apply keeps_globals_systemSleepTest | reflexivity].
  - exists rtcAlarmTest.
    split; [apply keeps_globals_rtcAlarmTest | reflexivity].
  - exists systemSleepWakeOnInterruptTest.
    split; [apply keeps_globals_systemSleepWakeOnInterruptTest | reflexivity].
  - exists systemDeepSleepRTCWakeTest.
    split; [apply keeps_globals_systemDeepSleepRTCWakeTest | reflexivity].
  - exists powerOffSleepWithRTCWakeTest.
    split; [apply keeps_globals_powerOffSleepWithRTCWakeTest | reflexivity].
Qed.

Lemma test_tick_facts (w w' : World Globals) :
  1 <= index_of w <= 5 ->
  loop w = Done tt w' ->
  index_of w' = index_of w + 1 /\
  stored_index w' = index_of w' /\
  stored_count w' = uint8 (count_of w').
Proof.
  intros Hi Hrun. rewrite loop_at in Hrun.
  apply bind_Done in Hrun. destruct Hrun as ([] & w1 & Hservice & Hbranch).
  apply loop_service_keeps in Hservice. destruct Hservice as (Htn & _).
  destruct (loop_runs_test _ Hi) as (test & Hk & Heq).
  rewrite Heq in Hbranch.
  pose proof (run_test_outcome test w1 Hk) as Hout. cbn zeta in Hout.
  destruct (test w1) as [passed w2 | w2 | w2].
  - destruct Hout as (_ & Hi' & _ & Hs & Hc & _).
    rewrite Hbranch in Hi', Hs, Hc. cbn [outcome_world] in Hi', Hs, Hc.
    unfold index_of in *. rewrite Htn in Hi'.
    rewrite uint8_small in Hi' by lia. auto.
  - destruct Hout as (Hd & _). congruence.
  - destruct Hout as (Hd & _). congruence.
Qed.

(** X10. What a completed test tick persists is what the next boot loads:
    after a reboot, [setup] restores the advanced index while it is at most
    5 and the pass count while it is within 0 to 5; an index of 6, reached
    after the last test, comes back as 0. *)
Theorem progress_survives_reboot (w w' : World Globals) :
  1 <= index_of w <= 5 ->
  loop w = Done tt w' ->
  let booted := outcome_world (setup (reboot w')) in
  (index_of w' <= 5 -> index_of booted = index_of w') /\
  (index_of w' = 6 -> index_of booted = 0) /\
  (0 <= count_of w' <= 5 -> count_of booted = count_of w').
Proof.
  intros Hi Hrun booted.
  destruct (test_tick_facts _ _ Hi Hrun) as (Hidx & Hsi & Hsc).
  assert (Hb : index_of booted = clamped_index (stored_index w') /\
               count_of booted = clamped_count (stored_count w')).
  { subst booted. rewrite setup_run. cbn [reboot eeprom lastPublish millis_in].
    unfold index_of, count_of, stored_index, stored_count.
    destruct (meter_wait 0 (millis_in w')) as [[t rest]|]; split; reflexivity. }
  destruct Hb as [Hbi Hbc]. rewrite Hbi, Hbc, Hsi, Hsc.
  split; [| split].
  - intros Hle. apply clamped_index_in_range. lia.
  - intros H6. rewrite H6. reflexivity.
  - intros Hc. rewrite uint8_small by lia. apply clamped_count_in_range. lia.
Qed.

Section NoTally.
Let no_tally (e : Event) : Prop := publishes "Final Result" e = false.

Lemma no_tally_setup : confined no_tally setup.
Proof.
  unfold setup, set_numberOfTestsPassed, set_testNumber, pinMode,
    Particle_publish, rtc_setup, attachInterrupt.
  confine.
Qed.

Lemma no_tally_loop_service : confined no_tally loop_service.
Proof.
  unfold loop_service, set_watchDogFlag, Particle_publish, rtc_loop.
  confine.
Qed.

Lemma no_tally_idle : confined no_tally (loop_branch 0).
Proof. unfold loop_branch, set_testNumber. confine. Qed.
End NoTally.

(** X11. A reboot while the index is 6, after the last test and before the
    tally, loses that run's tally: [setup] loads the 6 as 0, the first
    tick runs the idle case, and no "Final Result" is published. *)
Theorem reboot_before_tally_loses_it (w : World Globals) :
  stored_index w = 6 ->
  index_of (outcome_world (setup (reboot w))) = 0 /\
  boot_tick (reboot w) = (setup;; loop_service;; loop_branch 0) (reboot w) /\
  exists evs,
    trace (outcome_world (boot_tick (reboot w))) = trace w ++ evs /\
    Forall (fun e => publishes "Final Result" e = false) evs.
Proof.
  intros H6. unfold stored_index in H6.
  assert (Hsetup : index_of (outcome_world (setup (reboot w))) = 0).
  { rewrite setup_run. cbn [reboot eeprom lastPublish millis_in].
    rewrite H6. unfold index_of.
    destruct (meter_wait 0 (millis_in w)) as [[t rest]|]; reflexivity. }
  split; [exact Hsetup |].
  assert (Hboot : boot_tick (reboot w)
                  = (setup;; loop_service;; loop_branch 0) (reboot w)).
  { unfold boot_tick. apply bind_at. intros [] w1 Hs.
    rewrite Hs in Hsetup. cbn [outcome_world] in Hsetup.
    rewrite loop_at, Hsetup. reflexivity. }
  split; [exact Hboot |]. rewrite Hboot.
  assert (Hc : confined (fun e => publishes "Final Result" e = false)
                 (setup;; loop_service;; loop_branch 0)).
  { apply confined_bind; [apply no_tally_setup |]. intros _.
    apply confined_bind; [apply no_tally_loop_service |]. intros _.
    apply no_tally_idle. }
  destruct (Hc (reboot w)) as [_ Hevs]. exact Hevs.
Qed.

(** ** The two-test variant *)

Lemma variant_result_fits n :
  snprintf 32 ("Passed elapsed time " +:+ print_lu n)
  = ("Passed elapsed time " +:+ print_lu n)%string.
Proof.
  apply snprintf_fits. rewrite append_length.
  pose proof (print_lu_length n).
  change (String.length "Passed elapsed time ") with 20%nat. lia.
Qed.

(** X12. The variant's verifier cannot fail: whatever time elapsed, its end
    operation publishes "Passed elapsed time" with the elapsed seconds,
    clears the start timestamp and returns pass. *)
Theorem variant_verifier_never_fails
    (w w1 : World DurationVariant.Globals) (adj now : Z) (rs : list Z)
    (t : Z) (rest : list Z) :
  VariantTests.read_adjustment w = Done adj w1 ->
  rtc_in w = now :: rs ->
  meter_wait (lastPublish w1) (millis_in w1) = Some (t, rest) ->
  let elapsed :=
    uint32 (now - EEPROM.get (eeprom w) DurationVariant.testStartTimeAddr) in
  exists w',
    VariantTests.elapsedTimeCorrect false w = Done true w' /\
    trace w' = trace w ++
      [EepromPut DurationVariant.testStartTimeAddr 0;
       Publish "Result" ("Passed elapsed time " +:+ print_lu elapsed)] /\
    EEPROM.get (eeprom w') DurationVariant.testStartTimeAddr = 0.
Proof.
  intros Hadj Hrtc Hwait elapsed.
  assert (Hframe : eeprom w1 = eeprom w /\ rtc_in w1 = rtc_in w /\
                   trace w1 = trace w /\ globals w1 = globals w).
  { destruct w as [[tn dur flag] lp e ms rs0 irqs pins tr].
    unfold VariantTests.read_adjustment in Hadj. run_sketch_in_hyp Hadj.
    destruct (tn =? 4).
    - destruct ms; [discriminate |]. injection Hadj as _ <-. repeat split.
    - injection Hadj as _ <-. repeat split. }
  destruct Hframe as (He & Hr & Htr & Hg).
  unfold VariantTests.elapsedTimeCorrect, bind at 1. rewrite Hadj.
  clear Hadj.
  destruct w as [[tn dur flag] lp e ms rs0 irqs pins tr].
  destruct w1 as [g1 lp1 e1 ms1 rs1 irqs1 pins1 tr1].
  cbn [eeprom rtc_in trace globals lastPublish millis_in] in *.
  subst e1 rs1 tr1 g1 rs0. subst elapsed.
  run_sketch. rewrite waitUntil_meter. run_sketch. rewrite Hwait.
  rewrite variant_result_fits.
  rewrite uint32_sint32, <- uint32_sub, !uint32_sint32, uint32_sub.
  eexists. split; [reflexivity |]. cbn [trace eeprom].
  split; [rewrite <- app_assoc; reflexivity |].
  rewrite EEPROM_get_put. reflexivity.
Qed.

Lemma confined_bind_at {G A B} (P : Event -> Prop)
    (m : M G A) (k : A -> M G B) (w : World G) :
  confined P m ->
  (forall a w1,
      m w = Done a w1 ->
      is_suspended (k a w1) = false /\
      exists evs,
        trace (outcome_world (k a w1)) = trace w1 ++ evs /\ Forall P evs) ->
  is_suspended (bind m k w) = false /\
  exists evs,
    trace (outcome_world (bind m k w)) = trace w ++ evs /\ Forall P evs.
Proof.
  intros Hm Hk. destruct (Hm w) as [Hs (evs1 & Ht1 & Hp1)].
  unfold bind. destruct (m w) as [a w1 | w1 | w1]; cbn in Hs, Ht1.
  - destruct (Hk a w1 eq_refl) as [Hs2 (evs2 & Ht2 & Hp2)].
    split; [exact Hs2 |]. exists (evs1 ++ evs2).
    rewrite Ht2, Ht1, app_assoc. split; [reflexivity |].
    apply Forall_app. split; assumption.
  - discriminate.
  - split; [reflexivity |]. exists evs1. split; assumption.
Qed.

Lemma bind_left_at {G A B} (m m' : M G A) (k : A -> M G B) (w : World G) :
  m w = m' w -> bind m k w = bind m' k w.
Proof. intros H. unfold bind. rewrite H. reflexivity. Qed.

Section NoResult.
Let no_result (e : Event) : Prop := publishes "Result" e = false.

Lemma no_result_variant_service : confined no_result VariantTests.loop_service.
Proof.
  unfold VariantTests.loop_service, VariantTests.set_watchDogFlag,
    Particle_publish, rtc_loop.
  confine.
Qed.

Lemma no_result_variant_arm :
  confined no_result
    (VariantTests.powerOff_arm;;
     g <- get_globals;;
     EEPROM_write DurationVariant.testNumberAddr
       (DurationVariant.testNumber g)).
Proof.
  unfold VariantTests.powerOff_arm, VariantTests.elapsedTimeCorrect,
    VariantTests.read_adjustment, DurationVariant.set_testNumber,
    Particle_publish, delay, rtc_setAlarm.
  confine.
Qed.

Lemma no_result_variant_complete i :
  confined no_result
    (if i =? 2 then
       waitUntil meterParticlePublish;;
       Particle_publish "Complete"
         (snprintf 64 "Tests Complete - 60 sec delay");;
       delay 60000;;
       DurationVariant.set_testNumber 0
     else ret tt).
Proof.
  unfold DurationVariant.set_testNumber, Particle_publish, delay. confine.
Qed.
End NoResult.

Lemma variant_service_keeps (w w1 : World DurationVariant.Globals) :
  VariantTests.loop_service w = Done tt w1 ->
  DurationVariant.testNumber (globals w1)
  = DurationVariant.testNumber (globals w).
Proof.
  destruct w as [[tn dur flag] lp e ms rs irqs pins tr].
  unfold VariantTests.loop_service, VariantTests.set_watchDogFlag.
  run_sketch. destruct flag.
  - rewrite waitUntil_meter. run_sketch.
    destruct (meter_wait lp ms) as [[t rest]|]; [| discriminate].
    intros H. injection H as <-. reflexivity.
  - intros H. injection H as <-. reflexivity.
Qed.

(** X13. In the variant the power-off test is never verified: [loop] calls
    it only at index 1, where it arms, and the branch that would check the
    elapsed time after the power cut is not reachable from [loop].  A tick
    at any index but 0 publishes no "Result" and does not suspend; at
    index 1 it is the arm branch followed by the store of the index. *)
Theorem variant_power_off_never_verified
    (w : World DurationVariant.Globals) :
  DurationVariant.testNumber (globals w) <> 0 ->
  (is_suspended (VariantTests.loop w) = false /\
   exists evs,
     trace (outcome_world (VariantTests.loop w)) = trace w ++ evs /\
     Forall (fun e => publishes "Result" e = false) evs) /\
  (DurationVariant.testNumber (globals w) = 1 ->
   VariantTests.loop w
   = (VariantTests.loop_service;;
      VariantTests.powerOff_arm;;
      g <- get_globals;;
      EEPROM_write DurationVariant.testNumberAddr
        (DurationVariant.testNumber g)) w).
Proof.
  intros Hne. split.
  - unfold VariantTests.loop.
    apply confined_bind_at; [apply no_result_variant_service |].
    intros [] w1 Hservice. apply variant_service_keeps in Hservice.
    rewrite <- Hservice in Hne. clear Hservice.
    destruct w1 as [[tn dur flag] lp e ms rs irqs pins tr].
    cbn [globals DurationVariant.testNumber] in Hne.
    unfold bind at 1, get_globals.
    cbn [globals DurationVariant.testNumber].
    destruct tn as [|p|p]; [congruence | |].
    + destruct p as [p|p|].
      * apply no_result_variant_complete.
      * apply no_result_variant_complete.
      * exact (no_result_variant_arm _).
    + apply no_result_variant_complete.
  - intros H1. unfold VariantTests.loop. apply bind_at.
    intros [] w1 Hservice. apply variant_service_keeps in Hservice.
    unfold bind at 1, get_globals. rewrite Hservice, H1.
    cbv iota. apply bind_left_at.
    unfold VariantTests.powerOffSleepWithRTCWakeTest, bind, EEPROM_get,
      get_globals.
    rewrite Hservice, H1. reflexivity.
Qed.

Lemma variant_setup_duration (v : World DurationVariant.Globals) :
  DurationVariant.testDurationSeconds
    (globals (outcome_world (DurationVariant.setup v)))
  = EEPROM.get (eeprom v) DurationVariant.testDurationSecondsAddr.
Proof.
  destruct v as [[tn dur flag] last e ms rs irqs pins tr].
  pose proof (EEPROM_get_range e DurationVariant.testDurationSecondsAddr)
    as Hr.
  unfold DurationVariant.setup. run_sketch.
  destruct ((uint8 (EEPROM.read e DurationVariant.testNumberAddr) <? 0)
            || (uint8 (EEPROM.read e DurationVariant.testNumberAddr) >? 2));
    run_sketch; rewrite waitUntil_meter; run_sketch;
    (destruct (meter_wait last ms) as [[t rest]|]; run_sketch;
     [| apply (uint32_small _ Hr)]);
    rewrite waitUntil_meter; run_sketch;
    (destruct (meter_wait t rest) as [[t' rest']|]; run_sketch;
     [| apply (uint32_small _ Hr)]);
    sketch_branches; apply (uint32_small _ Hr).
Qed.

(** X14. The variant's [setup] loads the stored duration as it is, with
    none of the range check of [setDuration]: whatever 32-bit value the
    EEPROM holds becomes the test duration.  So a duration accepted by
    [setDuration] is the one in force after a reboot. *)
Theorem duration_survives_reboot
    (v : World DurationVariant.Globals) (command : string)
    (w : World DurationVariant.Globals) (t : Z) (rest : list Z) :
  DurationVariant.testDurationSeconds
    (globals (outcome_world (DurationVariant.setup v)))
  = EEPROM.get (eeprom v) DurationVariant.testDurationSecondsAddr /\
  (0 <= strtol command <= 3600 ->
   meter_wait (lastPublish w) (millis_in w) = Some (t, rest) ->
   exists w',
     DurationVariant.setDuration command w = Done 1 w' /\
     DurationVariant.testDurationSeconds
       (globals (outcome_world
                   (DurationVariant.setup (DurationVariant.reboot w'))))
     = strtol command).
Proof.
  split; [apply variant_setup_duration |].
  intros Hin Hwait. rewrite setDuration_run, Hwait.
  destruct ((strtol command <? 0) || (strtol command >? 3600)) eqn:Hc.
  { apply orb_true_iff in Hc. rewrite Z.gtb_ltb, !Z.ltb_lt in Hc. lia. }
  eexists. split; [reflexivity |].
  rewrite variant_setup_duration.
  cbn [DurationVariant.reboot eeprom].
  rewrite EEPROM_get_put. apply uint32_small.
  change (2 ^ 32) with 4294967296. lia.
Qed.

(** ** What [setDuration] reads in a command *)

Lemma digit_not_space c d : digit_value c = Some d -> isspace c = false.
Proof.
  unfold digit_value, isspace.
  destruct ((48 <=? Z.of_nat (nat_of_ascii c))
            && (Z.of_nat (nat_of_ascii c) <=? 57)) eqn:Hd; [| discriminate].
  intros _. apply andb_true_iff in Hd. destruct Hd as [H1 H2].
  apply Z.leb_le in H1. apply Z.leb_le in H2.
  apply orb_false_iff. split.
  - apply Z.eqb_neq. lia.
  - apply andb_false_iff. right. apply Z.leb_gt. lia.
Qed.

Lemma digit_not_sign c d :
  digit_value c = Some d ->
  Ascii.eqb c "-" = false /\ Ascii.eqb c "+" = false.
Proof.
  intros Hd. split.
  - destruct (Ascii.eqb_spec c "-") as [-> |]; [discriminate | reflexivity].
  - destruct (Ascii.eqb_spec c "+") as [-> |]; [discriminate | reflexivity].
Qed.

Lemma append_nil_l s : (EmptyString +:+ s)%string = s.
Proof. reflexivity. Qed.

Lemma append_cons c r s : (String c r +:+ s)%string = String c (r +:+ s).
Proof. reflexivity. Qed.

Lemma read_digits_app ds tail :
  all_digits ds = true ->
  starts_with_digit tail = false ->
  forall acc, read_digits (ds +:+ tail) acc = read_digits ds acc.
Proof.
  intros Hds Htail. induction ds as [|c r IH]; intros acc.
  - rewrite append_nil_l.
    destruct tail as [|c r]; [reflexivity |].
    cbn [starts_with_digit read_digits] in *.
    destruct (digit_value c); [discriminate | reflexivity].
  - cbn [all_digits] in Hds. rewrite append_cons. cbn [read_digits].
    destruct (digit_value c); [| discriminate].
    apply IH. exact Hds.
Qed.

(** X15. [setDuration] reads the leading number of its command and ignores
    what follows: a command made of decimal digits followed by any text
    that does not start with a digit is treated exactly like the digits
    alone. *)
Theorem setDuration_ignores_trailing_text
    (ds tail : string) (w : World DurationVariant.Globals) :
  ds <> EmptyString ->
  all_digits ds = true ->
  starts_with_digit tail = false ->
  strtol (ds +:+ tail) = read_digits ds 0 `min` LONG_MAX /\
  DurationVariant.setDuration (ds +:+ tail) w
  = DurationVariant.setDuration ds w.
Proof.
  intros Hne Hds Htail.
  assert (Hparse : forall rest,
             starts_with_digit rest = false ->
             strtol (ds +:+ rest) = read_digits ds 0 `min` LONG_MAX).
  { intros rest Hrest. destruct ds as [|c r]; [congruence |].
    cbn [all_digits] in Hds.
    destruct (digit_value c) as [d|] eqn:Hd; [| discriminate].
    unfold strtol. rewrite append_cons. cbn [skip_spaces].
    rewrite (digit_not_space c d Hd). unfold split_sign.
    destruct (digit_not_sign c d Hd) as [-> ->].
    rewrite <- append_cons.
    rewrite read_digits_app;
      [apply Z.min_comm | cbn [all_digits]; rewrite Hd; exact Hds
      | exact Hrest]. }
  pose proof (Hparse tail Htail) as H1.
  pose proof (Hparse EmptyString eq_refl) as H2.
  assert (Hnil : (ds +:+ EmptyString)%string = ds).
  { clear. induction ds as [|c r IH]; [reflexivity |].
    rewrite append_cons, IH. reflexivity. }
  rewrite Hnil in H2.
  split; [exact H1 |].
  unfold DurationVariant.setDuration. rewrite H1, H2. reflexivity.
Qed.

(** X16. A completed test tick raises the pass count by at most one and
    persists exactly the count in memory, while the count is within the
    0 to 5 that [setup] establishes. *)
Theorem pass_count_steps (w w' : World Globals) :
  1 <= index_of w <= 5 ->
  0 <= count_of w <= 5 ->
  loop w = Done tt w' ->
  (count_of w' = count_of w \/ count_of w' = count_of w + 1) /\
  stored_count w' = count_of w'.
Proof.
  intros Hi Hc Hrun. rewrite loop_at in Hrun.
  apply bind_Done in Hrun. destruct Hrun as ([] & w1 & Hservice & Hbranch).
  apply loop_service_keeps in Hservice.
  destruct Hservice as (_ & Hcnt & _).
  destruct (loop_runs_test _ Hi) as (test & Hk & Heq).
  rewrite Heq in Hbranch.
  pose proof (run_test_outcome test w1 Hk) as Hout. cbn zeta in Hout.
  destruct (test w1) as [passed w2 | w2 | w2].
  - destruct Hout as (_ & _ & Hc' & _ & Hs & _).
    rewrite Hbranch in Hc', Hs. cbn [outcome_world] in Hc', Hs.
    unfold count_of in *. rewrite Hcnt in Hc'.
    rewrite Hs, Hc'.
    destruct passed.
    + rewrite sint32_small by lia. rewrite uint8_small by lia.
      split; [right |]; reflexivity.
    + rewrite uint8_small by lia. split; [left |]; reflexivity.
  - destruct Hout as (Hd & _). congruence.
  - destruct Hout as (Hd & _). congruence.
Qed.

(** X17. The variant's first test sleeps for the configured duration, not a
    constant: with no watchdog interrupt pending, a tick at index 0 begins
    the timer, stop-sleeps for [testDurationSeconds] with the user switch
    as wake pin, reports "Passed" with the elapsed RTC seconds whatever
    they are, and persists index 1; the duration is left as it was. *)
Theorem variant_sleeps_configured_duration
    (w : World DurationVariant.Globals) (lp1 : Z) (ms1 : list Z)
    (t0 t1 : Z) (rs : list Z) (lp2 : Z) (ms2 : list Z) :
  DurationVariant.testNumber (globals w) = 0 ->
  DurationVariant.watchDogFlag (globals w) = false ->
  meter_wait (lastPublish w) (millis_in w) = Some (lp1, ms1) ->
  rtc_in w = t0 :: t1 :: rs ->
  meter_wait lp1 ms1 = Some (lp2, ms2) ->
  exists w',
    VariantTests.loop w = Done tt w' /\
    trace w' = trace w ++
      [RtcLoop;
       Publish "Test 1" "System Stop Mode Sleep";
       Delay 10000;
       EepromPut DurationVariant.testStartTimeAddr (uint32 t0);
       SystemSleepStop (Some userSwitch)
         (DurationVariant.testDurationSeconds (globals w));
       EepromPut DurationVariant.testStartTimeAddr 0;
       Publish "Result" ("Passed elapsed time " +:+ print_lu (uint32 (t1 - t0)));
       EepromWrite DurationVariant.testNumberAddr 1] /\
    DurationVariant.testNumber (globals w') = 1 /\
    EEPROM.read (eeprom w') DurationVariant.testNumberAddr = 1 /\
    DurationVariant.testDurationSeconds (globals w')
    = DurationVariant.testDurationSeconds (globals w).
Proof.
  intros Htn Hflag Hw1 Hrtc Hw2.
  destruct w as [[tn dur flag] lp e ms rs0 irqs pins tr].
  cbn [globals lastPublish millis_in rtc_in DurationVariant.testNumber
       DurationVariant.watchDogFlag] in *.
  subst tn flag rs0.
  unfold VariantTests.loop, VariantTests.loop_service,
    VariantTests.systemSleepTest, VariantTests.elapsedTimeCorrect,
    VariantTests.read_adjustment.
  run_sketch. rewrite waitUntil_meter. run_sketch. rewrite Hw1.
  run_sketch.
  change (0 =? 4) with false. run_sketch.
  destruct (dur <? 15 * 60); run_sketch;
    change (uint8 (0 + 1) =? 4) with false; run_sketch.
  all: rewrite waitUntil_meter; run_sketch; rewrite Hw2; run_sketch.
  all: eexists; split; [reflexivity |]; run_sketch.
  all: rewrite variant_result_fits, EEPROM_get_put.
  all: rewrite !uint32_sint32, sint32_uint32, <- uint32_sub, !uint32_sint32,
         uint32_sub.
  all: change (uint8 (0 + 1)) with 1; change (uint8 1) with 1;
         change (uint32 0) with 0.
  all: split; [rewrite <- !app_assoc; reflexivity |].
  all: split; [reflexivity |].
  all: split; [| reflexivity].
  all: rewrite EEPROM_read_write_eq; reflexivity.
Qed.

(** ** Further worked runs *)

Lemma only_reboot_tests_suspend_witness :
  index_of sleep_test_world = 1 /\
  is_suspended (loop sleep_test_world) = false /\
  exists evs,
    trace (outcome_world (loop sleep_test_world))
    = trace sleep_test_world ++ evs /\
    Forall (fun e => suspending e = false) evs.
Proof.
  split; [reflexivity |].
  apply (only_reboot_tests_suspend sleep_test_world);
    vm_compute; discriminate.
Defined.

Lemma index_stays_in_range_witness :
  0 <= index_of (outcome_world (loop sleep_test_world)) <= 6 /\
  index_of (outcome_world (loop sleep_test_world))
  = index_of sleep_test_world + 1 /\
  stored_index (outcome_world (loop sleep_test_world))
  = index_of (outcome_world (loop sleep_test_world)).
Proof.
  destruct (index_stays_in_range sleep_test_world
              ltac:(vm_compute; split; discriminate))
    as (Hrange & Hstep).
  split; [exact Hrange |].
  apply Hstep; [vm_compute; split; discriminate |].
  vm_compute. reflexivity.
Defined.

Lemma systemSleepTest_verdict_witness :
  exists w',
    systemSleepTest sleep_test_world = Done true w' /\
    EEPROM.get (eeprom w') testStartTimeAddr = 0 /\
    globals w' = globals sleep_test_world.
Proof.
  destruct (systemSleepTest_verdict sleep_test_world
              1001 [2500; 2501; 3000; 3001] 1000 1021 []
              2501 [3000; 3001]
              ltac:(vm_compute; discriminate)
              ltac:(vm_compute; reflexivity) ltac:(reflexivity)
              ltac:(vm_compute; reflexivity))
    as (w' & Hrun & _ & Hstamp & Hg).
  exists w'. split; [exact Hrun |]. split; [exact Hstamp | exact Hg].
Defined.

Lemma interrupt_wake_verdict_witness :
  exists w',
    systemSleepWakeOnInterruptTest button_wake_world = Done true w' /\
    eeprom w' = eeprom button_wake_world /\
    globals w' = globals button_wake_world.
Proof.
  destruct (interrupt_wake_verdict button_wake_world
              1001 [2100; 2101; 3200; 3201] 2101 [3200; 3201]
              1000 1005 [] 3201 []
              ltac:(vm_compute; reflexivity) ltac:(vm_compute; reflexivity)
              ltac:(reflexivity) ltac:(vm_compute; reflexivity))
    as (w' & Hrun & _ & He & Hg).
  exists w'. split; [exact Hrun |]. split; [exact He | exact Hg].
Defined.

Lemma limiter_counts_across_rollover_witness :
  uint32 (2 ^ 32 + 600) = 600 /\
  meterParticlePublish rollover_world
  = Done true (with_clock rollover_world 601 []).
Proof.
  split; [reflexivity |].
  exact (limiter_counts_across_rollover rollover_world
           (2 ^ 32 - 500) (2 ^ 32 + 600) (2 ^ 32 + 601) []
           ltac:(reflexivity) ltac:(reflexivity) ltac:(lia)).
Defined.

Lemma watchdog_reported_once_witness :
  exists w',
    (times 3 watchdogISR;; loop_service;; loop_service) watchdog_world
    = Done tt w' /\
    trace w' = pulses 3 ++ [RtcLoop; Publish "Watchdog" "Interrupt"; RtcLoop] /\
    watchDogFlag (globals w') = false /\
    eeprom w' = eeprom watchdog_world.
Proof.
  destruct (watchdog_reported_once watchdog_world 2 1001 []
              ltac:(vm_compute; reflexivity))
    as (w' & Hrun & Htr & Hflag & _ & _ & He).
  exists w'. split; [exact Hrun |]. split; [exact Htr |].
  split; [exact Hflag | exact He].
Defined.

Lemma alarm_test_needs_target_duration_witness :
  rtcAlarmTest alarm_pass_world
  = Done true (outcome_world (rtcAlarmTest alarm_pass_world)) /\
  testDurationSeconds <= sint32 (sint32 1021 - sint32 1000).
Proof.
  assert (Hrun : rtcAlarmTest alarm_pass_world
                 = Done true (outcome_world (rtcAlarmTest alarm_pass_world))).
  { vm_compute. reflexivity. }
  split; [exact Hrun |].
  exact (alarm_test_needs_target_duration alarm_pass_world _ 1000 1021 []
           ltac:(reflexivity) Hrun).
Defined.

Lemma failed_alarm_leaves_timestamp_witness :
  exists w',
    rtcAlarmTest alarm_fail_world = Done false w' /\
    EEPROM.get (eeprom w') testStartTimeAddr = 1000 /\
    forall w2 : World Globals,
      eeprom w2 = eeprom w' ->
      systemDeepSleepRTCWakeTest w2 = verify_only w2 /\
      powerOffSleepWithRTCWakeTest w2 = verify_only w2.
Proof.
  exact (failed_alarm_leaves_timestamp alarm_fail_world
           (outcome_world (rtcAlarmTest_window alarm_fail_world))
           true true false 1000 [] [] [] 5001 []
           ltac:(vm_compute; reflexivity) ltac:(reflexivity)
           ltac:(vm_compute; reflexivity) ltac:(vm_compute; reflexivity)
           ltac:(reflexivity) ltac:(vm_compute; reflexivity)
           ltac:(vm_compute; discriminate)).
Defined.

Lemma progress_survives_reboot_witness :
  index_of (outcome_world (loop sleep_test_world)) = 2 /\
  count_of (outcome_world (loop sleep_test_world)) = 1 /\
  index_of
    (outcome_world (setup (reboot (outcome_world (loop sleep_test_world)))))
  = index_of (outcome_world (loop sleep_test_world)) /\
  count_of
    (outcome_world (setup (reboot (outcome_world (loop sleep_test_world)))))
  = count_of (outcome_world (loop sleep_test_world)).
Proof.
  split; [vm_compute; reflexivity |].
  split; [vm_compute; reflexivity |].
  destruct (progress_survives_reboot sleep_test_world
              (outcome_world (loop sleep_test_world))
              ltac:(vm_compute; split; discriminate)
              ltac:(vm_compute; reflexivity))
    as (Hidx & _ & Hcnt).
  split; [apply Hidx | apply Hcnt]; vm_compute; try split; discriminate.
Defined.

Lemma reboot_before_tally_loses_it_witness :
  count_of tally_pending_world = 4 /\
  index_of (outcome_world (setup (reboot tally_pending_world))) = 0 /\
  exists evs,
    trace (outcome_world (boot_tick (reboot tally_pending_world)))
    = trace tally_pending_world ++ evs /\
    Forall (fun e => publishes "Final Result" e = false) evs.
Proof.
  split; [reflexivity |].
  destruct (reboot_before_tally_loses_it tally_pending_world
              ltac:(vm_compute; reflexivity))
    as (Hidx & _ & Hquiet).
  split; [exact Hidx | exact Hquiet].
Defined.

Lemma variant_verifier_never_fails_witness :
  DurationVariant.testDurationSeconds (globals variant_late_world) = 60 /\
  exists w',
    VariantTests.elapsedTimeCorrect false variant_late_world = Done true w' /\
    trace w'
    = [EepromPut DurationVariant.testStartTimeAddr 0;
       Publish "Result" "Passed elapsed time 500"].
Proof.
  split; [reflexivity |].
  destruct (variant_verifier_never_fails variant_late_world
              variant_late_world 2 1500 [] 1001 []
              ltac:(reflexivity) ltac:(reflexivity)
              ltac:(vm_compute; reflexivity))
    as (w' & Hrun & Htr & _).
  exists w'. split; [exact Hrun | exact Htr].
Defined.

Lemma variant_power_off_never_verified_witness :
  is_suspended (VariantTests.loop variant_arm_world) = false /\
  (exists evs,
     trace (outcome_world (VariantTests.loop variant_arm_world))
     = trace variant_arm_world ++ evs /\
     Forall (fun e => publishes "Result" e = false) evs) /\
  VariantTests.loop variant_arm_world
  = (VariantTests.loop_service;;
     VariantTests.powerOff_arm;;
     g <- get_globals;;
     EEPROM_write DurationVariant.testNumberAddr
       (DurationVariant.testNumber g)) variant_arm_world.
Proof.
  destruct (variant_power_off_never_verified variant_arm_world
              ltac:(vm_compute; discriminate))
    as ((Hrun & Hquiet) & Harm).
  split; [exact Hrun |]. split; [exact Hquiet |].
  apply Harm. reflexivity.
Defined.

Lemma duration_survives_reboot_witness :
  strtol "90" = 90 /\
  exists w',
    DurationVariant.setDuration "90" command_world = Done 1 w' /\
    DurationVariant.testDurationSeconds
      (globals (outcome_world
                  (DurationVariant.setup (DurationVariant.reboot w'))))
    = strtol "90".
Proof.
  split; [reflexivity |].
  apply (proj2 (duration_survives_reboot command_world "90" command_world
                  1001 [1500; 1501; 2600; 2601]));
    [vm_compute; split; discriminate | vm_compute; reflexivity].
Defined.

Lemma setDuration_ignores_trailing_text_witness :
  strtol "90 seconds" = 90 /\
  DurationVariant.setDuration "90 seconds" command_world
  = DurationVariant.setDuration "90" command_world.
Proof.
  destruct (setDuration_ignores_trailing_text "90" " seconds" command_world
              ltac:(discriminate) ltac:(reflexivity) ltac:(reflexivity))
    as (Hparse & Hsame).
  split; [exact Hparse | exact Hsame].
Defined.

Lemma pass_count_steps_witness :
  count_of sleep_test_world = 0 /\
  (count_of (outcome_world (loop sleep_test_world))
   = count_of sleep_test_world \/
   count_of (outcome_world (loop sleep_test_world))
   = count_of sleep_test_world + 1) /\
  stored_count (outcome_world (loop sleep_test_world))
  = count_of (outcome_world (loop sleep_test_world)).
Proof.
  split; [reflexivity |].
  apply (pass_count_steps sleep_test_world);
    [vm_compute; split; discriminate | vm_compute; split; discriminate |].
  vm_compute. reflexivity.
Defined.

Lemma variant_sleeps_configured_duration_witness :
  exists w',
    VariantTests.loop variant_sleep_world = Done tt w' /\
    trace w'
    = [RtcLoop;
       Publish "Test 1" "System Stop Mode Sleep";
       Delay 10000;
       EepromPut DurationVariant.testStartTimeAddr 1000;
       SystemSleepStop (Some userSwitch) 60;
       EepromPut DurationVariant.testStartTimeAddr 0;
       Publish "Result" "Passed elapsed time 500";
       EepromWrite DurationVariant.testNumberAddr 1] /\
    DurationVariant.testNumber (globals w') = 1.
Proof.
  destruct (variant_sleeps_configured_duration variant_sleep_world
              1001 [2500; 2501] 1000 1500 [] 2501 []
              ltac:(reflexivity) ltac:(reflexivity)
              ltac:(vm_compute; reflexivity) ltac:(reflexivity)
              ltac:(vm_compute; reflexivity))
    as (w' & Hrun & Htr & Hidx & _).
  exists w'. split; [exact Hrun |]. split; [exact Htr | exact Hidx].
Defined.
